(** * certmagic: certificate storage modes, bundle store and lock leases

    A shallow embedding of [storagemode.go] (the rollout resolver) and of
    [bundle.go] (the dual-format certificate store), with the properties
    the specification states about them.

    Go values are modelled as follows.
    - [string] is a Go string; [list byte] is a Go [[]byte] (a nil slice and
      an empty slice are the same list).
    - [int] and [uint32] are [Z]; the 32-bit wrap-around of the FNV hash is
      written out with [mod 2^32].
    - [error] is an inductive type; [option error] is a Go [error] result
      ([None] is [nil]); [result A] is a Go pair [(A, error)].
    - The collaborators that are interfaces or other packages in the source
      (the storage backend, [encoding/json], [idna] and [NamesKey], the key
      builder) are type classes; the certificate store is written once over
      them, and reference instances follow the model. The reading of the
      clock is an argument, and what was logged is part of the state. *)

From Stdlib Require Import ZArith Lia Bool.
From Stdlib Require Import Strings.String Strings.Ascii Strings.Byte.
From stdpp Require Import base option list strings gmap.

Set Warnings "-register-all,-clear-no-such-hyp".
Local Open Scope Z_scope.
Local Open Scope string_scope.

(** ** Go values *)

Abbreviation bytes := (list byte).

(** [[]byte("...")] *)
Definition B (s : string) : bytes := list_byte_of_string s.

(** [string(b)] *)
Definition S_ (b : bytes) : string := string_of_list_byte b.

(** Go errors. [fmt.Errorf] with the verb [%v] keeps only the text of the
    error it wraps, [errors.Join] keeps the list. *)
Inductive error : Type :=
| ErrNotExist                       (* fs.ErrNotExist *)
| ErrText (msg : string)            (* errors.New, fmt.Errorf *)
| ErrJoin (errs : list error).      (* errors.Join *)

Fixpoint Error (e : error) : string :=
  match e with
  | ErrNotExist => "file does not exist"
  | ErrText msg => msg
  | ErrJoin errs =>
      (fix join (l : list error) : string :=
         match l with
         | [] => ""
         | [x] => Error x
         | x :: rest => Error x ++ String "010" (join rest)
         end) errs
  end.

(** [fmt.Errorf(prefix + "%v", err)] *)
Definition Errorf (prefix : string) (err : error) : error :=
  ErrText (prefix ++ Error err).

Inductive result (A : Type) : Type :=
| Ok (a : A)
| Err (e : error).
Arguments Ok {A} a.
Arguments Err {A} e.

Definition is_ok {A} (r : result A) : bool :=
  match r with Ok _ => true | Err _ => false end.

(** ** storagemode.go: the rollout resolver *)

Module Rollout.

Definition StorageModeLegacy : string := "legacy".
Definition StorageModeTransition : string := "transition".
Definition StorageModeBundle : string := "bundle".


(** The two package-level variables. *)
Record Globals : Type := {
  StorageMode : string;
  StorageModeRolloutPercent : Z;
}.

Definition ConfigureStorageMode (mode : string) (rolloutPercent : Z) : Globals :=
  {| StorageMode := mode; StorageModeRolloutPercent := rolloutPercent |}.


(** [hash/fnv], [New32a]: 32-bit FNV-1a. *)
Definition offset32 : Z := 2166136261.
Definition prime32 : Z := 16777619.

Definition fnv32a_write (h : Z) (c : byte) : Z :=
  (Z.lxor h (Z.of_N (Byte.to_N c)) * prime32) mod 2 ^ 32.

Definition fnv32a (data : bytes) : Z := fold_left fnv32a_write data offset32.

Definition RolloutBucketForDomain (domain : string) : Z :=
  fnv32a (B domain) mod 100.

Definition StorageModeForDomain (g : Globals) (domain : string) : string :=
  if String.eqb (StorageMode g) StorageModeBundle then StorageModeBundle
  else if negb (String.eqb (StorageMode g) StorageModeTransition) then StorageModeLegacy
  else if Z.ltb (RolloutBucketForDomain domain) (StorageModeRolloutPercent g)
       then StorageModeTransition
       else StorageModeLegacy.

(** [testStorageModeDomains], the table of the package's tests: the domain
    at index [i] is meant to hash to bucket [i]. *)
Definition testStorageModeDomains : list string :=
  [
    "cyufsv.com"; "wrgmsg.com"; "brgdjo.com"; "ydwcck.com"; "mflmhz.com";
    "haegjj.com"; "zmhovf.com"; "obufpu.com"; "feslvv.com"; "sebycw.com";
    "eilifq.com"; "hqbrqi.com"; "msdfdl.com"; "zzyzeg.com"; "omkufr.com";
    "wxknzs.com"; "sbrjrs.com"; "oirmum.com"; "ahkfmk.com"; "pasrgp.com";
    "wkxoax.com"; "hrften.com"; "awvybq.com"; "sdnroo.com"; "oihglq.com";
    "ilomtn.com"; "jsslsa.com"; "xfqsqj.com"; "seccht.com"; "kdggrx.com";
    "htueua.com"; "rwnblj.com"; "muuiye.com"; "dmgdwl.com"; "ehcpua.com";
    "hheskv.com"; "xapqrp.com"; "rtqlga.com"; "zwejrb.com"; "caijym.com";
    "qqobjq.com"; "ylhtvl.com"; "leotig.com"; "xzzdkn.com"; "gtbrls.com";
    "ffdfon.com"; "yndvoz.com"; "pcdete.com"; "mqqawg.com"; "cdbbdh.com";
    "lgxeeu.com"; "hwqhre.com"; "glzlpq.com"; "wmogra.com"; "cdrpnm.com";
    "idrfwa.com"; "ktrubn.com"; "xohmsv.com"; "mmddcs.com"; "mlmgvj.com";
    "myxcwb.com"; "rrlbbu.com"; "abifcu.com"; "uarnen.com"; "utvepr.com";
    "hvriwm.com"; "ktoobi.com"; "pkucoi.com"; "enszeo.com"; "boerwx.com";
    "oftmjp.com"; "conpid.com"; "xsixnx.com"; "acbdut.com"; "oipdfz.com";
    "cceope.com"; "shyuyj.com"; "flddpw.com"; "hmdtxy.com"; "lsfqfe.com";
    "ynmpsm.com"; "kbkkbn.com"; "xrerap.com"; "dhhhkr.com"; "zdbnpt.com";
    "ttxvat.com"; "rkrnjg.com"; "xkanxi.com"; "nbcmqi.com"; "mmhner.com";
    "elunlf.com"; "bjupxh.com"; "loosax.com"; "fliwby.com"; "kjelwq.com";
    "nlcgov.com"; "jjxavu.com"; "gpalyx.com"; "ckycee.com"; "msngsw.com"
  ].

End Rollout.

(** ** The lock-lease renewer *)

Module Lease.

(** [time.Duration], in nanoseconds. *)
Abbreviation Duration := Z (only parsing).

Section Renewer.
(** The interval table, its cap and the obtain timeout are constants of
    the package that the test file names ([retryIntervals],
    [maxRetryDuration], [DefaultACME.CertObtainTimeout]). *)
Variable retryIntervals : list Duration.
Variable maxRetryDuration : Duration.
Variable CertObtainTimeout : Duration.

(** Modelled from the spec: the retry interval by attempt number. "Once
    the attempt number exceeds the sequence length, a fixed maximum
    interval is used instead." *)
Definition retryInterval (attempt : Z) : Duration :=
  if Z.leb 0 attempt && Z.ltb attempt (Z.of_nat (length retryIntervals))
  then nth (Z.to_nat attempt) retryIntervals maxRetryDuration
  else maxRetryDuration.

(** What a renewal did: nothing (the backend has no lease capability),
    or one call of [RenewLockLease] with a lock key and a duration. *)
Inductive Renewal : Type :=
| NotSupported
| Renewed (lockKey : string) (leaseDuration : Duration).

(** Modelled from the spec: [renewLockLease], of which only the tests are
    in the sources. [renewer] is the backend's [RenewLockLease] when it has
    one; it answers with the error it returns. "The lease duration
    requested on each renewal equals the current retry interval (by
    attempt number) plus a fixed certificate obtain timeout"; a backend
    that cannot renew is a no-op success; a failed renewal is surfaced. *)
Definition renewLockLease (renewer : option (string -> Duration -> option error))
    (lockKey : string) (attempt : Z) : Renewal * option error :=
  match renewer with
  | None => (NotSupported, None)
  | Some renew =>
      let leaseDuration := retryInterval attempt + CertObtainTimeout in
      (Renewed lockKey leaseDuration, renew lockKey leaseDuration)
  end.

(** The duration of the last call, as the mock backend of the tests
    records it in [lastDuration]. *)
Definition lastDuration (r : Renewal) : option Duration :=
  match r with
  | NotSupported => None
  | Renewed _ d => Some d
  end.
End Renewer.

End Lease.

(** ** bundle.go: the certificate store *)

Module Store.

(** [type StorageMode string] *)
Abbreviation StorageMode := string (only parsing).

Definition StorageModeLegacy : StorageMode := "legacy".
Definition StorageModeTransition : StorageMode := "transition".
Definition StorageModeBundle : StorageMode := "bundle".

Definition StorageModeEnvVar : string := "CERTMAGIC_STORAGE_MODE".

(** [strings.ToLower], on the ASCII letters. *)
Definition lower_ascii (c : ascii) : ascii :=
  let n := nat_of_ascii c in
  if (Nat.leb 65 n && Nat.leb n 90)%bool then ascii_of_nat (n + 32) else c.

Fixpoint ToLower (s : string) : string :=
  match s with
  | EmptyString => EmptyString
  | String c rest => String (lower_ascii c) (ToLower rest)
  end.

(** [GetStorageMode]; [getenv] is [os.Getenv]. *)
Definition GetStorageMode (getenv : string -> string) : StorageMode :=
  let mode := ToLower (getenv StorageModeEnvVar) in
  if String.eqb mode StorageModeLegacy
     || String.eqb mode StorageModeTransition
     || String.eqb mode StorageModeBundle
  then mode
  else StorageModeLegacy.

Definition BundleVersion : Z := 1.

(** [time.Time], as the distance from the zero time; [IsZero] holds of the
    zero time only. *)
Abbreviation Time := Z (only parsing).
Definition zeroTime : Time := 0.
Definition IsZero (t : Time) : bool := Z.eqb t zeroTime.

Record CertificateResource : Type := {
  SANs : list string;
  CertificatePEM : bytes;
  PrivateKeyPEM : bytes;
  IssuerData : bytes;
  issuerKey : string;
}.

(** The fields a bundle shares with a resource carry a [b] here, two
    records of one module having to differ in their field names. *)
Record CertificateBundle : Type := {
  Version : Z;
  bSANs : list string;
  bCertificatePEM : bytes;
  bPrivateKeyPEM : bytes;
  bIssuerData : bytes;
  CreatedAt : Time;
  UpdatedAt : Time;
}.

Record CertStore : Type := { mode : StorageMode }.

Definition NewCertStoreWithMode (m : StorageMode) : CertStore := {| mode := m |}.
Definition NewCertStore (getenv : string -> string) : CertStore :=
  {| mode := GetStorageMode getenv |}.

(** *** The collaborators *)

(** The [Storage] interface, over the backend's state [S]. [Load] and
    [Exists] read; [Store] and [Delete] answer with an error or [nil] and
    the next state. *)
Class Storage (S : Type) : Type := {
  sLoad : S -> string -> result bytes;
  sStore : S -> string -> bytes -> option error * S;
  sExists : S -> string -> bool;
  sDelete : S -> string -> option error * S;
}.

(** [StorageKeys], the key builder. *)
Class KeyBuilder : Type := {
  SitePrivateKey : string -> string -> string;
  SiteCert : string -> string -> string;
  SiteMeta : string -> string -> string;
  SiteBundle : string -> string -> string;
  CertsSitePrefix : string -> string -> string;
}.

(** [idna.ToASCII] and [CertificateResource.NamesKey]. *)
Class Naming : Type := {
  ToASCII : string -> result string;
  NamesKey : CertificateResource -> string;
}.

(** [encoding/json] at the two types the store encodes.
    - [MarshalBundle b] is [json.MarshalIndent(b, "", "\t")] and
      [UnmarshalBundle data] is [json.Unmarshal(data, &bundle)] into a zero
      bundle.
    - [MarshalMeta sans issuerData] is [json.MarshalIndent] of
      [CertificateResource{SANs: sans, IssuerData: issuerData}], whose two
      PEM fields are not part of the encoding, and [UnmarshalMeta data] is
      [json.Unmarshal(data, &certRes)] for a resource whose [SANs] and
      [IssuerData] are unset: it answers with the two fields decoded.
    - [validRaw raw] is the encoder's check of a [json.RawMessage] (an
      empty one is left out of the document), and [reindent raw] is the
      text it comes back as: the encoder compacts it and indents it with
      the document. *)
Class Json : Type := {
  MarshalBundle : CertificateBundle -> result bytes;
  UnmarshalBundle : bytes -> result CertificateBundle;
  MarshalMeta : list string -> bytes -> result bytes;
  UnmarshalMeta : bytes -> result (list string * bytes);
  validRaw : bytes -> bool;
  reindent : bytes -> bytes;
}.

(** [StorageKeys.CertsPrefix], the folder of an issuer's certificates. *)
Class PrefixBuilder : Type := {
  CertsPrefix : string -> string;
}.

(** [Storage.List]: the keys under a prefix, or an error. *)
Class Lister (S : Type) : Type := {
  sList : S -> string -> bool -> result (list string);
}.

(** [errors.Is(err, fs.ErrNotExist)]: the error is the sentinel, or a join
    that holds it; the text of [fmt.Errorf] with [%v] wraps nothing. *)
Fixpoint isNotExist (err : error) : bool :=
  match err with
  | ErrNotExist => true
  | ErrText _ => false
  | ErrJoin errs =>
      (fix any (l : list error) : bool :=
         match l with
         | [] => false
         | x :: rest => isNotExist x || any rest
         end) errs
  end.

(** [strings.HasSuffix] *)
Definition HasSuffix (s suffix : string) : bool :=
  let n := String.length s in
  let m := String.length suffix in
  Nat.leb m n && String.eqb (String.substring (n - m) m s) suffix.

(** [s[from:]]; out of range, the slice expression panics. *)
Definition sliceFrom (from : nat) (s : string) : option string :=
  if Nat.leb from (String.length s)
  then Some (String.substring from (String.length s - from) s)
  else None.

(** How a call ends: it returns, or the run-time panics. *)
Inductive Completion (A : Type) : Type :=
| Returned (a : A)
| Panicked (reason : string).
Arguments Returned {A} a.
Arguments Panicked {A} reason.

(** *** Logging *)

Inductive Level : Type := DebugLevel | InfoLevel | WarnLevel | ErrorLevel.

(** [zap.String], [zap.Int], [zap.Error] *)
Inductive Field : Type :=
| FString (key val : string)
| FInt (key : string) (val : Z)
| FError (err : error).

Record Entry : Type := {
  level : Level;
  message : string;
  fields : list Field;
}.

(** *** State: the backend and what was logged *)

Record World (S : Type) : Type := {
  store : S;
  logged : list Entry;
}.
Arguments store {S} w.
Arguments logged {S} w.
Arguments Build_World {S} store logged.

Definition M (S A : Type) : Type := World S -> A * World S.

Definition ret {S A} (a : A) : M S A := fun w => (a, w).

Definition bind {S A B} (c : M S A) (k : A -> M S B) : M S B :=
  fun w => let '(a, w') := c w in k a w'.

Definition log {S} (l : Level) (msg : string) (fs : list Field) : M S unit :=
  fun w => (tt, {| store := store w;
                   logged := (logged w ++ [{| level := l; message := msg; fields := fs |}])%list |}).

Notation "'let*' x ':=' c 'in' k" := (bind c (fun x => k))
  (at level 10, x binder, c at level 100, k at level 200).

Section Operations.
Context {S : Type} `{Storage S} `{KeyBuilder} `{Naming} `{Json}.

(** The calls on [cs.storage]. *)
Definition storageLoad (key : string) : M S (result bytes) :=
  fun w => (sLoad (store w) key, w).

Definition storageExists (key : string) : M S bool :=
  fun w => (sExists (store w) key, w).

Definition storageStore (key : string) (value : bytes) : M S (option error) :=
  fun w => let '(err, s') := sStore (store w) key value in
           (err, {| store := s'; logged := logged w |}).

Definition storageDelete (key : string) : M S (option error) :=
  fun w => let '(err, s') := sDelete (store w) key in
           (err, {| store := s'; logged := logged w |}).

(** [deleteLegacyFiles]: errors are logged and not returned. *)
Definition deleteLegacyFile (key : string) : M S unit :=
  let* present := storageExists key in
  if present then
    let* err := storageDelete key in
    match err with
    | Some e => log DebugLevel "could not delete legacy file" [FString "key" key; FError e]
    | None => log DebugLevel "deleted legacy file" [FString "key" key]
    end
  else ret tt.

Fixpoint forEach (keys : list string) (body : string -> M S unit) : M S unit :=
  match keys with
  | [] => ret tt
  | key :: rest => let* _ := body key in forEach rest body
  end.

Definition deleteLegacyFiles (issuerKey certKey : string) : M S unit :=
  let legacyFiles :=
    [ SiteCert issuerKey certKey;
      SitePrivateKey issuerKey certKey;
      SiteMeta issuerKey certKey ] in
  forEach legacyFiles deleteLegacyFile.

Definition setCreatedAt (b : CertificateBundle) (t : Time) : CertificateBundle :=
  {| Version := Version b; bSANs := bSANs b;
     bCertificatePEM := bCertificatePEM b; bPrivateKeyPEM := bPrivateKeyPEM b;
     bIssuerData := bIssuerData b; CreatedAt := t; UpdatedAt := UpdatedAt b |}.

(** The bundle [saveBundle] encodes, from what [cs.storage.Load] answered
    for the bundle key. *)
Definition bundleFor (loaded : result bytes) (now : Time)
    (res : CertificateResource) : CertificateBundle :=
  let bundle :=
    {| Version := BundleVersion;
       bSANs := SANs res;
       bCertificatePEM := CertificatePEM res;
       bPrivateKeyPEM := PrivateKeyPEM res;
       bIssuerData := IssuerData res;
       CreatedAt := zeroTime;
       UpdatedAt := now |} in
  (* Check if this is an update to an existing bundle *)
  let bundle :=
    match loaded with
    | Ok existingData =>
        match UnmarshalBundle existingData with
        | Ok existing => setCreatedAt bundle (CreatedAt existing)
        | Err _ => bundle
        end
    | Err _ => bundle
    end in
  if IsZero (CreatedAt bundle) then setCreatedAt bundle (UpdatedAt bundle)
  else bundle.

(** [saveBundle]; [now] is [time.Now().UTC()]. *)
Definition saveBundle (now : Time) (issuerKey certKey : string)
    (res : CertificateResource) : M S (option error) :=
  let bundleKey := SiteBundle issuerKey certKey in
  let* loaded := storageLoad bundleKey in
  let bundle := bundleFor loaded now res in
  match MarshalBundle bundle with
  | Err err => ret (Some (Errorf "encoding certificate bundle: " err))
  | Ok bundleBytes =>
      let* err := storageStore bundleKey bundleBytes in
      match err with
      | Some err => ret (Some (Errorf "storing certificate bundle: " err))
      | None => ret None
      end
  end.

Record keyValue : Type := { key : string; value : bytes }.

(** Modelled from the spec: [storeTx], the helper of [saveLegacy] that
    is declared in another file. It "writes keys in a fixed order and
    attempts rollback/cleanup of already-written keys on failure"; the
    failure of the write is what it reports. *)
Fixpoint storeTxFrom (written : list string) (all : list keyValue) : M S (option error) :=
  match all with
  | [] => ret None
  | kv :: rest =>
      let* err := storageStore (key kv) (value kv) in
      match err with
      | Some err =>
          let* _ := forEach written (fun k => let* _ := storageDelete k in ret tt) in
          ret (Some err)
      | None => storeTxFrom (key kv :: written) rest
      end
  end.

Definition storeTx (all : list keyValue) : M S (option error) := storeTxFrom [] all.

(** [saveLegacy] *)
Definition saveLegacy (issuerKey certKey : string) (res : CertificateResource)
    : M S (option error) :=
  match MarshalMeta (SANs res) (IssuerData res) with
  | Err err => ret (Some (Errorf "encoding certificate metadata: " err))
  | Ok metaBytes =>
      let all :=
        [ {| key := SitePrivateKey issuerKey certKey; value := PrivateKeyPEM res |};
          {| key := SiteCert issuerKey certKey; value := CertificatePEM res |};
          {| key := SiteMeta issuerKey certKey; value := metaBytes |} ] in
      storeTx all
  end.

(** [Save] *)
Definition Save (cs : CertStore) (now : Time) (issuerKey : string)
    (res : CertificateResource) : M S (option error) :=
  let certKey := NamesKey res in
  if String.eqb (mode cs) StorageModeLegacy then
    saveLegacy issuerKey certKey res
  else if String.eqb (mode cs) StorageModeTransition then
    let* err := saveBundle now issuerKey certKey res in
    match err with
    | Some err => ret (Some err)
    | None => saveLegacy issuerKey certKey res
    end
  else if String.eqb (mode cs) StorageModeBundle then
    let* err := saveBundle now issuerKey certKey res in
    match err with
    | Some err => ret (Some err)
    | None =>
        let* _ := deleteLegacyFiles issuerKey certKey in
        ret None
    end
  else
    saveLegacy issuerKey certKey res.

(** [decodeBundle] *)
Definition decodeBundle (data : bytes) (issuerKey : string)
    : M S (result CertificateResource) :=
  match UnmarshalBundle data with
  | Err err => ret (Err (Errorf "decoding certificate bundle: " err))
  | Ok bundle =>
      let* _ :=
        if Z.ltb BundleVersion (Version bundle) then
          log WarnLevel "bundle version is newer than supported"
            [FInt "bundle_version" (Version bundle);
             FInt "supported_version" BundleVersion]
        else ret tt in
      ret (Ok {| SANs := bSANs bundle;
                 CertificatePEM := bCertificatePEM bundle;
                 PrivateKeyPEM := bPrivateKeyPEM bundle;
                 IssuerData := bIssuerData bundle;
                 issuerKey := issuerKey |})
  end.

(** [loadLegacy] *)
Definition loadLegacy (issuerKey normalizedName : string)
    : M S (result CertificateResource) :=
  let* keyBytes := storageLoad (SitePrivateKey issuerKey normalizedName) in
  match keyBytes with
  | Err err => ret (Err err)
  | Ok keyBytes =>
      let* certBytes := storageLoad (SiteCert issuerKey normalizedName) in
      match certBytes with
      | Err err => ret (Err err)
      | Ok certBytes =>
          let* metaBytes := storageLoad (SiteMeta issuerKey normalizedName) in
          match metaBytes with
          | Err err => ret (Err err)
          | Ok metaBytes =>
              match UnmarshalMeta metaBytes with
              | Err err => ret (Err (Errorf "decoding certificate metadata: " err))
              | Ok (sans, issuerData) =>
                  ret (Ok {| SANs := sans;
                             CertificatePEM := certBytes;
                             PrivateKeyPEM := keyBytes;
                             IssuerData := issuerData;
                             issuerKey := issuerKey |})
              end
          end
      end
  end.

Definition convertingError (name : string) (err : error) : error :=
  Errorf ("converting '" ++ name ++ "' to ASCII: ") err.

(** [Load] *)
Definition Load (cs : CertStore) (issuerKey certNamesKey : string)
    : M S (result CertificateResource) :=
  match ToASCII certNamesKey with
  | Err err => ret (Err (convertingError certNamesKey err))
  | Ok normalizedName =>
      if String.eqb (mode cs) StorageModeLegacy then
        loadLegacy issuerKey normalizedName
      else if String.eqb (mode cs) StorageModeTransition
              || String.eqb (mode cs) StorageModeBundle then
        let bundleKey := SiteBundle issuerKey normalizedName in
        let* bundleData := storageLoad bundleKey in
        match bundleData with
        | Ok bundleData => decodeBundle bundleData issuerKey
        | Err _ => loadLegacy issuerKey normalizedName
        end
      else
        loadLegacy issuerKey normalizedName
  end.

(** [Exists] *)
Definition legacyExists (issuerKey normalizedName : string) : M S bool :=
  let certKey := SiteCert issuerKey normalizedName in
  let keyKey := SitePrivateKey issuerKey normalizedName in
  let metaKey := SiteMeta issuerKey normalizedName in
  let* c := storageExists certKey in
  if c then
    let* k := storageExists keyKey in
    if k then storageExists metaKey else ret false
  else ret false.

Definition Exists (cs : CertStore) (issuerKey domain : string) : M S bool :=
  match ToASCII domain with
  | Err _ => ret false
  | Ok normalizedName =>
      if String.eqb (mode cs) StorageModeLegacy then
        legacyExists issuerKey normalizedName
      else if String.eqb (mode cs) StorageModeTransition
              || String.eqb (mode cs) StorageModeBundle then
        let bundleKey := SiteBundle issuerKey normalizedName in
        let* b := storageExists bundleKey in
        if b then ret true
        else legacyExists issuerKey normalizedName
      else
        legacyExists issuerKey normalizedName
  end.

(** [errors.Join(errs...)] when [len(errs) > 0], [nil] otherwise. *)
Definition joined (errs : list error) : option error :=
  match errs with
  | [] => None
  | _ :: _ => Some (ErrJoin errs)
  end.

(** [Delete] *)
Definition Delete (cs : CertStore) (issuerKey domain : string) : M S (option error) :=
  match ToASCII domain with
  | Err err => ret (Some (convertingError domain err))
  | Ok normalizedName =>
      let errs : list error := [] in
      (* Delete bundle format *)
      let bundleKey := SiteBundle issuerKey normalizedName in
      let* present := storageExists bundleKey in
      let* errs :=
        if present then
          let* err := storageDelete bundleKey in
          match err with
          | Some err => ret (errs ++ [Errorf "deleting bundle: " err])%list
          | None => ret errs
          end
        else ret errs in
      (* Delete legacy files *)
      let* _ := deleteLegacyFiles issuerKey normalizedName in
      (* Delete the site folder if empty *)
      let sitePrefix := CertsSitePrefix issuerKey normalizedName in
      let* present := storageExists sitePrefix in
      let* _ :=
        if present then
          let* err := storageDelete sitePrefix in
          match err with
          | Some err =>
              log DebugLevel "could not delete site folder"
                [FString "path" sitePrefix; FError err]
          | None => ret tt
          end
        else ret tt in
      ret (joined errs)
  end.

Definition setIssuerData (r : CertificateResource) (d : bytes) : CertificateResource :=
  {| SANs := SANs r; CertificatePEM := CertificatePEM r;
     PrivateKeyPEM := PrivateKeyPEM r; IssuerData := d; issuerKey := issuerKey r |}.

(** [UpdateMetadata] *)
Definition UpdateMetadata (cs : CertStore) (now : Time) (issuerKey domain : string)
    (updateFn : bytes -> result bytes) : M S (option error) :=
  match ToASCII domain with
  | Err err => ret (Some (convertingError domain err))
  | Ok normalizedName =>
      (* Load the current bundle *)
      let* certRes := Load cs issuerKey normalizedName in
      match certRes with
      | Err err => ret (Some (Errorf "loading certificate for metadata update: " err))
      | Ok certRes =>
          (* Apply the update function *)
          match updateFn (IssuerData certRes) with
          | Err err => ret (Some (Errorf "updating metadata: " err))
          | Ok newIssuerData =>
              let certRes := setIssuerData certRes newIssuerData in
              (* Save the updated bundle *)
              Save cs now issuerKey certRes
          end
      end
  end.

(** [LoadPrivateKey] *)
Definition LoadPrivateKey (cs : CertStore) (issuerKey domain : string)
    : M S (result bytes) :=
  match ToASCII domain with
  | Err err => ret (Err (convertingError domain err))
  | Ok normalizedName =>
      if String.eqb (mode cs) StorageModeLegacy then
        let keyKey := SitePrivateKey issuerKey normalizedName in
        storageLoad keyKey
      else if String.eqb (mode cs) StorageModeTransition
              || String.eqb (mode cs) StorageModeBundle then
        let bundleKey := SiteBundle issuerKey normalizedName in
        let* bundleData := storageLoad bundleKey in
        match bundleData with
        | Ok bundleData =>
            match UnmarshalBundle bundleData with
            | Err err => ret (Err (Errorf "decoding bundle: " err))
            | Ok bundle => ret (Ok (bPrivateKeyPEM bundle))
            end
        | Err _ =>
            let keyKey := SitePrivateKey issuerKey normalizedName in
            storageLoad keyKey
        end
      else
        let keyKey := SitePrivateKey issuerKey normalizedName in
        storageLoad keyKey
  end.

(** [Migrate] *)
Definition Migrate (cs : CertStore) (now : Time) (issuerKey domain : string)
    : M S (option error) :=
  match ToASCII domain with
  | Err err => ret (Some (convertingError domain err))
  | Ok normalizedName =>
      (* Check if already migrated *)
      let bundleKey := SiteBundle issuerKey normalizedName in
      let* migrated := storageExists bundleKey in
      if migrated then ret None
      else
        (* Check if legacy exists *)
        let* legacy := storageExists (SiteCert issuerKey normalizedName) in
        if negb legacy then ret (Some ErrNotExist)
        else
          (* Load from legacy *)
          let* certRes := loadLegacy issuerKey normalizedName in
          match certRes with
          | Err err => ret (Some (Errorf "loading legacy certificate: " err))
          | Ok certRes =>
              (* Save as bundle *)
              let* err := saveBundle now issuerKey normalizedName certRes in
              match err with
              | Some err => ret (Some (Errorf "saving as bundle: " err))
              | None =>
                  (* Clean up legacy files after successful migration *)
                  let* _ := deleteLegacyFiles issuerKey normalizedName in
                  let* _ := log InfoLevel "migrated certificate to bundle format"
                              [FString "domain" domain; FString "issuer" issuerKey] in
                  ret None
              end
          end
  end.

(** [MoveCompromisedKey] *)
Definition MoveCompromisedKey (cs : CertStore) (issuerKey domain : string)
    : M S (option error) :=
  match ToASCII domain with
  | Err err => ret (Some (convertingError domain err))
  | Ok normalizedName =>
      (* Load the private key *)
      let* privKeyPEM := LoadPrivateKey cs issuerKey normalizedName in
      match privKeyPEM with
      | Err err => ret (Some (Errorf "loading private key: " err))
      | Ok privKeyPEM =>
          (* Save to compromised location *)
          let compromisedKey :=
            if String.eqb (mode cs) StorageModeLegacy
            then SitePrivateKey issuerKey normalizedName ++ ".compromised"
            else SiteBundle issuerKey normalizedName ++ ".compromised" in
          let* err := storageStore compromisedKey privKeyPEM in
          match err with
          | Some err => ret (Some (Errorf "storing compromised key: " err))
          | None =>
              (* Delete the certificate entirely *)
              let* err := Delete cs issuerKey normalizedName in
              match err with
              | Some err =>
                  ret (Some (Errorf "deleting certificate with compromised key: " err))
              | None =>
                  let* _ := log InfoLevel "moved compromised private key"
                              [FString "domain" domain; FString "issuer" issuerKey;
                               FString "compromised_path" compromisedKey] in
                  ret None
              end
          end
      end
  end.

End Operations.

(** *** Batch migration *)

Section Batch.
Context {S : Type} `{Storage S} `{Lister S} `{KeyBuilder} `{PrefixBuilder}
  `{Naming} `{Json}.

Definition storageList (prefix : string) (recursive : bool) : M S (result (list string)) :=
  fun w => (sList (store w) prefix recursive, w).

(** [var migrated, skipped, failed int] *)
Record Tally : Type := { migrated : Z; skipped : Z; failed : Z }.

Definition bundleSuffix : string := ".bundle.json".

(** The loop of [MigrateAll] over the items that were listed. *)
Fixpoint migrateEach (cs : CertStore) (now : string -> Time)
    (issuerKey certsPrefix : string)
    (items : list string) (t : Tally) : M S (Completion Tally) :=
  match items with
  | [] => ret (Returned t)
  | itemKey :: rest =>
      (* Skip if it's already a bundle file *)
      if HasSuffix itemKey bundleSuffix then
        migrateEach cs now issuerKey certsPrefix rest
          {| migrated := migrated t; skipped := skipped t + 1; failed := failed t |}
      else
        (* Extract domain from path (site folder name) *)
        match sliceFrom (String.length certsPrefix + 1) itemKey with
        | None => ret (Panicked "slice bounds out of range")
        | Some domain =>
            let* err := Migrate cs (now domain) issuerKey domain in
            match err with
            | Some err =>
                if isNotExist err then
                  migrateEach cs now issuerKey certsPrefix rest
                    {| migrated := migrated t; skipped := skipped t + 1;
                       failed := failed t |}
                else
                  let* _ := log ErrorLevel "failed to migrate certificate"
                              [FString "domain" domain; FError err] in
                  migrateEach cs now issuerKey certsPrefix rest
                    {| migrated := migrated t; skipped := skipped t;
                       failed := failed t + 1 |}
            | None =>
                migrateEach cs now issuerKey certsPrefix rest
                  {| migrated := migrated t + 1; skipped := skipped t;
                     failed := failed t |}
            end
        end
  end.

(** [MigrateAll]; [now domain] is the reading of the clock when the bundle
    of [domain] is written. *)
Definition MigrateAll (cs : CertStore) (now : string -> Time) (issuerKey : string)
    : M S (Completion (option error)) :=
  let certsPrefix := CertsPrefix issuerKey in
  let* items := storageList certsPrefix false in
  match items with
  | Err err =>
      if isNotExist err then ret (Returned None)
      else ret (Returned (Some (Errorf "listing certificates: " err)))
  | Ok items =>
      let* done := migrateEach cs now issuerKey certsPrefix items
                     {| migrated := 0; skipped := 0; failed := 0 |} in
      match done with
      | Panicked reason => ret (Panicked reason)
      | Returned t =>
          let* _ := log InfoLevel "migration complete"
                      [FString "issuer" issuerKey; FInt "migrated" (migrated t);
                       FInt "skipped" (skipped t); FInt "failed" (failed t)] in
          ret (Returned None)
      end
  end.

End Batch.

(** *** What the store relies on *)

(** The backend's contract: a key reads back what was stored under it,
    a removed key is gone, other keys are untouched whether the call
    failed or not, and a key that loads exists (a key may exist and not
    load: a folder of a file system does). *)
Class StorageLaws (S : Type) `{Storage S} : Prop := {
  load_store_eq : forall s k v s',
    sStore s k v = (None, s') -> sLoad s' k = Ok v;
  store_ne : forall s k v e s' k',
    sStore s k v = (e, s') -> k <> k' ->
    sLoad s' k' = sLoad s k' /\ sExists s' k' = sExists s k';
  exists_delete_eq : forall s k s',
    sDelete s k = (None, s') -> sExists s' k = false;
  delete_ne : forall s k e s' k',
    sDelete s k = (e, s') -> k <> k' ->
    sLoad s' k' = sLoad s k' /\ sExists s' k' = sExists s k';
  load_exists : forall s k v, sLoad s k = Ok v -> sExists s k = true;
}.

(** A backend without faults: a write succeeds, and so does the removal
    of a key that is there. *)
Class FaultFree (S : Type) `{Storage S} : Prop := {
  store_succeeds : forall s k v, (sStore s k v).1 = None;
  delete_succeeds : forall s k, sExists s k = true -> (sDelete s k).1 = None;
}.

(** The key builder's contract: the four keys of a certificate are of
    four kinds that never coincide, and two names that share one key
    share all four (the keys of a name are one slot). *)
Class KeyLaws `{KeyBuilder} : Prop := {
  key_cert : forall i a b, SitePrivateKey i a <> SiteCert i b;
  key_meta : forall i a b, SitePrivateKey i a <> SiteMeta i b;
  key_bundle : forall i a b, SitePrivateKey i a <> SiteBundle i b;
  cert_meta : forall i a b, SiteCert i a <> SiteMeta i b;
  cert_bundle : forall i a b, SiteCert i a <> SiteBundle i b;
  meta_bundle : forall i a b, SiteMeta i a <> SiteBundle i b;
  slot_key : forall i a b, SiteBundle i a = SiteBundle i b <-> SitePrivateKey i a = SitePrivateKey i b;
  slot_cert : forall i a b, SiteBundle i a = SiteBundle i b <-> SiteCert i a = SiteCert i b;
  slot_meta : forall i a b, SiteBundle i a = SiteBundle i b <-> SiteMeta i a = SiteMeta i b;
}.

(** What [encoding/json] does with the two encodings: decoding what was
    encoded gives the fields back, the raw issuer data in its indented
    form; a bundle whose raw issuer data passes the encoder's check can be
    encoded. (The encoder keeps names that are valid UTF-8 and times of the
    years 0 to 9999, which is what certificates and clocks give it.) *)
Definition wire `{Json} (b : CertificateBundle) : CertificateBundle :=
  {| Version := Version b; bSANs := bSANs b;
     bCertificatePEM := bCertificatePEM b; bPrivateKeyPEM := bPrivateKeyPEM b;
     bIssuerData := reindent (bIssuerData b);
     CreatedAt := CreatedAt b; UpdatedAt := UpdatedAt b |}.

Class JsonLaws `{Json} : Prop := {
  bundle_roundtrip : forall b data,
    MarshalBundle b = Ok data -> UnmarshalBundle data = Ok (wire b);
  meta_roundtrip : forall sans raw data,
    MarshalMeta sans raw = Ok data -> UnmarshalMeta data = Ok (sans, reindent raw);
  marshal_bundle_valid : forall b,
    validRaw (bIssuerData b) = true -> is_ok (MarshalBundle b) = true;
}.

End Store.

(** ** Reference collaborators

    Instances of the interfaces above: an in-memory backend, a backend with
    write-protected keys, a key builder, ASCII naming, and a codec. They
    stand for the packages the store is linked with and give the contracts
    an inhabitant. *)

Module Reference.
Import Store.

(** *** Backends *)

(** A map from keys to values. A missing key reads as [fs.ErrNotExist];
    removing a missing key is not an error. *)
#[export] Instance MemStorage : Storage (gmap string bytes) := {
  sLoad m k := match m !! k with Some v => Ok v | None => Err ErrNotExist end;
  sStore m k v := (None, <[k := v]> m);
  sExists m k := match m !! k with Some _ => true | None => false end;
  sDelete m k := (None, delete k m);
}.

(** The same map with a list of protected keys: writing or removing one of
    them fails and changes nothing. *)
Record Guarded : Type := {
  files : gmap string bytes;
  protected : list string;
}.

Definition isProtected (g : Guarded) (k : string) : bool :=
  existsb (String.eqb k) (protected g).

Definition permissionDenied : error := ErrText "permission denied".

#[export] Instance GuardedStorage : Storage Guarded := {
  sLoad g k := sLoad (files g) k;
  sStore g k v :=
    if isProtected g k then (Some permissionDenied, g)
    else (None, {| files := <[k := v]> (files g); protected := protected g |});
  sExists g k := sExists (files g) k;
  sDelete g k :=
    if isProtected g k then (Some permissionDenied, g)
    else (None, {| files := delete k (files g); protected := protected g |});
}.

(** *** Keys and names *)

(** One key per kind, issuer and name. *)
#[export] Instance Keys : KeyBuilder := {
  SitePrivateKey i d := "key/" ++ i ++ "/" ++ d;
  SiteCert i d := "crt/" ++ i ++ "/" ++ d;
  SiteMeta i d := "json/" ++ i ++ "/" ++ d;
  SiteBundle i d := "bundle/" ++ i ++ "/" ++ d;
  CertsSitePrefix i d := "site/" ++ i ++ "/" ++ d;
}.

Definition isASCII (s : string) : bool :=
  forallb (fun c => Nat.ltb (nat_of_ascii c) 128) (list_ascii_of_string s).

Fixpoint joinWith (sep : string) (l : list string) : string :=
  match l with
  | [] => ""
  | [x] => x
  | x :: rest => x ++ sep ++ joinWith sep rest
  end.

(** [idna.ToASCII] leaves a name of ASCII characters as it is; this
    instance knows no other names and rejects them. A resource is named by
    its only name, or by its names joined. *)
#[export] Instance AsciiNaming : Naming := {
  ToASCII s := if isASCII s then Ok s else Err (ErrText "idna: name is not ASCII");
  NamesKey r := joinWith "," (SANs r);
}.

(** *** Folders and listings *)

(** The folder of an issuer's certificates: the one the site prefixes of
    [Keys] lie in. *)
#[export] Instance Folders : PrefixBuilder := {
  CertsPrefix i := "site/" ++ i;
}.

(** The keys of the map that lie in a folder; a folder with no key in it
    is not there. *)
#[export] Instance MemLister : Lister (gmap string bytes) := {
  sList m prefix _ :=
    match List.filter (String.prefix (prefix ++ "/")) (map fst (map_to_list m)) with
    | [] => Err ErrNotExist
    | keys => Ok keys
    end;
}.

End Reference.

(** ** Raw JSON text

    What [encoding/json] does to a [json.RawMessage] field when the document
    that holds it is written by [MarshalIndent]: the raw text is checked and
    compacted, and then indented with the document. *)

Module RawJSON.
Local Open Scope char_scope.
Local Open Scope list_scope.

Definition isSpace (c : ascii) : bool :=
  Ascii.eqb c " " || Ascii.eqb c "009" || Ascii.eqb c "010" || Ascii.eqb c "013".

Definition isDigit (c : ascii) : bool :=
  let n := nat_of_ascii c in Nat.leb 48 n && Nat.leb n 57.

Definition isHex (c : ascii) : bool :=
  let n := nat_of_ascii c in
  isDigit c || (Nat.leb 97 n && Nat.leb n 102) || (Nat.leb 65 n && Nat.leb n 70).

Fixpoint skipSpace (s : list ascii) : list ascii :=
  match s with
  | c :: r => if isSpace c then skipSpace r else s
  | [] => []
  end.

Fixpoint skipDigits (s : list ascii) : list ascii :=
  match s with
  | c :: r => if isDigit c then skipDigits r else s
  | [] => []
  end.

(** The rest of the input after a string whose opening quote was read. *)
Fixpoint scanString (s : list ascii) : option (list ascii) :=
  match s with
  | [] => None
  | c :: r =>
      if Ascii.eqb c "034" then Some r
      else if Ascii.eqb c "\" then
        match r with
        | e :: r1 =>
            if Ascii.eqb e "u" then
              match r1 with
              | h1 :: h2 :: h3 :: h4 :: r2 =>
                  if isHex h1 && isHex h2 && isHex h3 && isHex h4
                  then scanString r2 else None
              | _ => None
              end
            else if existsb (Ascii.eqb e) ["034" ; "\" ; "/" ; "b" ; "f" ; "n" ; "r" ; "t"]
            then scanString r1
            else None
        | [] => None
        end
      else if Nat.ltb (nat_of_ascii c) 32 then None
      else scanString r
  end.

Definition scanExponent (s : list ascii) : option (list ascii) :=
  match s with
  | c :: r =>
      if Ascii.eqb c "e" || Ascii.eqb c "E" then
        let r :=
          match r with
          | sign :: r1 => if Ascii.eqb sign "+" || Ascii.eqb sign "-" then r1 else r
          | [] => r
          end in
        match r with
        | d :: r1 => if isDigit d then Some (skipDigits r1) else None
        | [] => None
        end
      else Some s
  | [] => Some s
  end.

Definition scanFraction (s : list ascii) : option (list ascii) :=
  match s with
  | c :: r =>
      if Ascii.eqb c "." then
        match r with
        | d :: r1 => if isDigit d then scanExponent (skipDigits r1) else None
        | [] => None
        end
      else scanExponent s
  | [] => Some s
  end.

Definition scanNumber (s : list ascii) : option (list ascii) :=
  let s := match s with
           | c :: r => if Ascii.eqb c "-" then r else s
           | [] => s
           end in
  match s with
  | c :: r =>
      if Ascii.eqb c "0" then scanFraction r
      else if isDigit c then scanFraction (skipDigits r)
      else None
  | [] => None
  end.

(** One JSON value, with the space before it; [fuel] bounds the nesting
    and the number of members. *)
Fixpoint scanValue (fuel : nat) (s : list ascii) : option (list ascii) :=
  match fuel with
  | O => None
  | S fuel =>
      match skipSpace s with
      | "{" :: r =>
          match skipSpace r with
          | "}" :: r1 => Some r1
          | _ => scanMembers fuel r
          end
      | "[" :: r =>
          match skipSpace r with
          | "]" :: r1 => Some r1
          | _ => scanElements fuel r
          end
      | "034" :: r => scanString r
      | "t" :: "r" :: "u" :: "e" :: r => Some r
      | "f" :: "a" :: "l" :: "s" :: "e" :: r => Some r
      | "n" :: "u" :: "l" :: "l" :: r => Some r
      | t => scanNumber t
      end
  end
with scanMembers (fuel : nat) (s : list ascii) : option (list ascii) :=
  match fuel with
  | O => None
  | S fuel =>
      match skipSpace s with
      | "034" :: r =>
          match scanString r with
          | Some r1 =>
              match skipSpace r1 with
              | ":" :: r2 =>
                  match scanValue fuel r2 with
                  | Some r3 =>
                      match skipSpace r3 with
                      | "," :: r4 => scanMembers fuel r4
                      | "}" :: r4 => Some r4
                      | _ => None
                      end
                  | None => None
                  end
              | _ => None
              end
          | None => None
          end
      | _ => None
      end
  end
with scanElements (fuel : nat) (s : list ascii) : option (list ascii) :=
  match fuel with
  | O => None
  | S fuel =>
      match scanValue fuel s with
      | Some r1 =>
          match skipSpace r1 with
          | "," :: r2 => scanElements fuel r2
          | "]" :: r2 => Some r2
          | _ => None
          end
      | None => None
      end
  end.

(** [json.Valid] *)
Definition valid (s : list ascii) : bool :=
  match scanValue (2 * length s + 2) s with
  | Some r => match skipSpace r with [] => true | _ => false end
  | None => false
  end.

Definition hexDigit (n : nat) : ascii :=
  nth n ["0";"1";"2";"3";"4";"5";"6";"7";"8";"9";"a";"b";"c";"d";"e";"f"] "0".

(** [compact] with HTML escaping, as the encoder calls it: the space
    outside strings goes, and [<], [>], [&], U+2028 and U+2029 are
    written as escapes. *)
Fixpoint compactFrom (inString escaped : bool) (s : list ascii) : list ascii :=
  match s with
  | [] => []
  | c :: r =>
      let inString' :=
        if inString then negb (negb escaped && Ascii.eqb c "034")
        else Ascii.eqb c "034" in
      let escaped' := inString && negb escaped && Ascii.eqb c "\" in
      if Ascii.eqb c "<" || Ascii.eqb c ">" || Ascii.eqb c "&" then
        "\" :: "u" :: "0" :: "0"
          :: hexDigit (nat_of_ascii c / 16) :: hexDigit (nat_of_ascii c mod 16)
          :: compactFrom inString' escaped' r
      else
        match c, r with
        | "226", "128" :: c3 :: r3 =>
            if Ascii.eqb c3 "168" || Ascii.eqb c3 "169" then
              "\" :: "u" :: "2" :: "0" :: "2" :: hexDigit (nat_of_ascii c3 mod 16)
                :: compactFrom inString' false r3
            else c :: compactFrom inString' escaped' r
        | _, _ =>
            if negb inString && isSpace c then compactFrom false false r
            else c :: compactFrom inString' escaped' r
        end
  end.

Definition compact (s : list ascii) : list ascii := compactFrom false false s.

(** A new line and [depth] tabs: the prefix is empty and the indent is a
    tab. *)
Definition newline (depth : nat) : list ascii := "010" :: repeat "009" depth.

(** [Indent], started at the depth at which the raw text sits. *)
Fixpoint indentFrom (inString escaped needIndent : bool) (depth : nat)
    (s : list ascii) : list ascii :=
  match s with
  | [] => []
  | c :: r =>
      if inString then
        c :: indentFrom (negb (negb escaped && Ascii.eqb c "034"))
               (negb escaped && Ascii.eqb c "\") false depth r
      else if isSpace c then indentFrom false false needIndent depth r
      else
        let closing := Ascii.eqb c "}" || Ascii.eqb c "]" in
        let opened := needIndent && negb closing in
        let depth1 := if opened then Datatypes.S depth else depth in
        let need1 := if opened then false else needIndent in
        (if opened then newline depth1 else []) ++
        (if Ascii.eqb c "{" || Ascii.eqb c "[" then
           c :: indentFrom false false true depth1 r
         else if Ascii.eqb c "," then
           c :: newline depth1 ++ indentFrom false false need1 depth1 r
         else if Ascii.eqb c ":" then
           c :: " " :: indentFrom false false need1 depth1 r
         else if closing then
           if need1 then c :: indentFrom false false false depth1 r
           else newline (Nat.pred depth1) ++ c :: indentFrom false false false (Nat.pred depth1) r
         else
           c :: indentFrom (Ascii.eqb c "034") false need1 depth1 r)
  end.

(** The raw value of a field of the top-level object, as it is written. *)
Definition asWritten (s : list ascii) : list ascii :=
  indentFrom false false false 1 (compact s).

End RawJSON.

(** ** A reference codec

    The codec of the reference collaborators. A document is the sequence of
    its fields, each framed by its length; the store never looks inside a
    document, and what it can observe of [encoding/json] is kept: raw issuer
    data is checked when it is encoded and comes back indented, the other
    fields come back as they were, and a payload that is not a document does
    not decode. *)

Module Framing.
Local Open Scope list_scope.

Fixpoint encNat (n : nat) : bytes :=
  match n with
  | O => [x00]
  | Datatypes.S n => x01 :: encNat n
  end.

Fixpoint decNat (s : bytes) : option (nat * bytes) :=
  match s with
  | x00 :: r => Some (O, r)
  | x01 :: r =>
      match decNat r with
      | Some (n, r1) => Some (Datatypes.S n, r1)
      | None => None
      end
  | _ => None
  end.

Definition encZ (z : Z) : bytes :=
  (if Z.ltb z 0 then x01 else x00) :: encNat (Z.abs_nat z).

Definition decZ (s : bytes) : option (Z * bytes) :=
  match s with
  | x00 :: r =>
      match decNat r with
      | Some (n, r1) => Some (Z.of_nat n, r1)
      | None => None
      end
  | x01 :: r =>
      match decNat r with
      | Some (n, r1) => Some (- Z.of_nat n, r1)
      | None => None
      end
  | _ => None
  end.

Definition encBytes (l : bytes) : bytes := encNat (length l) ++ l.

Definition decBytes (s : bytes) : option (bytes * bytes) :=
  match decNat s with
  | Some (n, r) =>
      if Nat.leb n (length r) then Some (firstn n r, skipn n r) else None
  | None => None
  end.

Definition encString (s : string) : bytes := encBytes (B s).

Definition decString (s : bytes) : option (string * bytes) :=
  match decBytes s with
  | Some (l, r) => Some (S_ l, r)
  | None => None
  end.

Fixpoint encEach (l : list string) : bytes :=
  match l with
  | [] => []
  | x :: rest => encString x ++ encEach rest
  end.

Definition encStrings (l : list string) : bytes := encNat (length l) ++ encEach l.

Fixpoint decEach (n : nat) (s : bytes) : option (list string * bytes) :=
  match n with
  | O => Some ([], s)
  | Datatypes.S n =>
      match decString s with
      | Some (x, r) =>
          match decEach n r with
          | Some (xs, r1) => Some (x :: xs, r1)
          | None => None
          end
      | None => None
      end
  end.

Definition decStrings (s : bytes) : option (list string * bytes) :=
  match decNat s with
  | Some (n, r) => decEach n r
  | None => None
  end.

End Framing.

Module Codec.
Import Store Framing.
Local Open Scope list_scope.

Definition asciis (raw : bytes) : list ascii := map ascii_of_byte raw.
Definition ofAsciis (l : list ascii) : bytes := map byte_of_ascii l.

Definition validRawMessage (raw : bytes) : bool :=
  match raw with
  | [] => true
  | _ => RawJSON.valid (asciis raw)
  end.

Definition reindentRawMessage (raw : bytes) : bytes :=
  ofAsciis (RawJSON.asWritten (asciis raw)).

Definition invalidRaw : error :=
  ErrText "json: error calling MarshalJSON for type json.RawMessage: invalid JSON".
Definition invalidDocument : error := ErrText "invalid JSON document".

Definition encodeBundle (b : CertificateBundle) : bytes :=
  encZ (Version b) ++ encStrings (bSANs b) ++ encBytes (bCertificatePEM b)
    ++ encBytes (bPrivateKeyPEM b) ++ encBytes (reindentRawMessage (bIssuerData b))
    ++ encZ (CreatedAt b) ++ encZ (UpdatedAt b).

Definition decodeBundle (data : bytes) : option CertificateBundle :=
  match decZ data with
  | Some (version, r) =>
  match decStrings r with
  | Some (sans, r) =>
  match decBytes r with
  | Some (cert, r) =>
  match decBytes r with
  | Some (key, r) =>
  match decBytes r with
  | Some (raw, r) =>
  match decZ r with
  | Some (created, r) =>
  match decZ r with
  | Some (updated, []) =>
      Some {| Version := version; bSANs := sans; bCertificatePEM := cert;
              bPrivateKeyPEM := key; bIssuerData := raw;
              CreatedAt := created; UpdatedAt := updated |}
  | _ => None end
  | None => None end
  | None => None end
  | None => None end
  | None => None end
  | None => None end
  | None => None end.

Definition encodeMeta (sans : list string) (raw : bytes) : bytes :=
  encStrings sans ++ encBytes (reindentRawMessage raw).

Definition decodeMeta (data : bytes) : option (list string * bytes) :=
  match decStrings data with
  | Some (sans, r) =>
      match decBytes r with
      | Some (raw, []) => Some (sans, raw)
      | _ => None
      end
  | None => None
  end.

Definition orInvalid {A} (o : option A) : result A :=
  match o with
  | Some a => Ok a
  | None => Err invalidDocument
  end.

#[export] Instance FramedJson : Json := {
  MarshalBundle b :=
    if validRawMessage (bIssuerData b) then Ok (encodeBundle b) else Err invalidRaw;
  UnmarshalBundle data := orInvalid (decodeBundle data);
  MarshalMeta sans raw :=
    if validRawMessage raw then Ok (encodeMeta sans raw) else Err invalidRaw;
  UnmarshalMeta data := orInvalid (decodeMeta data);
  validRaw := validRawMessage;
  reindent := reindentRawMessage;
}.

End Codec.

(** ** Vocabulary of the properties *)

Section Vocabulary.
Import Store.
Context {S : Type} {backend : Storage S} {key_builder : KeyBuilder}
  {naming : Naming} {json : Json}.
Local Open Scope list_scope.

Definition recognized (m : string) : Prop :=
  m = StorageModeLegacy \/ m = StorageModeTransition \/ m = StorageModeBundle.

Definition unknownMode (m : string) : Prop :=
  m <> StorageModeLegacy /\ m <> StorageModeTransition /\ m <> StorageModeBundle.

(** The four keys of a name. *)
Definition slot (issuerKey name : string) : list string :=
  [ SiteBundle issuerKey name; SitePrivateKey issuerKey name;
    SiteCert issuerKey name; SiteMeta issuerKey name ].

(** Between two states, only the keys of [ks] may read differently. *)
Definition touchesOnly (ks : list string) (w w' : World S) : Prop :=
  forall k, k ∉ ks ->
    sLoad (store w') k = sLoad (store w) k
    /\ sExists (store w') k = sExists (store w) k.

(** What [loadLegacy] answers, as a function of the backend state. *)
Definition legacyRead (s : S) (issuerKey normalizedName : string)
    : result CertificateResource :=
  match sLoad s (SitePrivateKey issuerKey normalizedName) with
  | Err err => Err err
  | Ok keyBytes =>
      match sLoad s (SiteCert issuerKey normalizedName) with
      | Err err => Err err
      | Ok certBytes =>
          match sLoad s (SiteMeta issuerKey normalizedName) with
          | Err err => Err err
          | Ok metaBytes =>
              match UnmarshalMeta metaBytes with
              | Err err => Err (Errorf "decoding certificate metadata: " err)
              | Ok (sans, issuerData) =>
                  Ok {| SANs := sans; CertificatePEM := certBytes;
                        PrivateKeyPEM := keyBytes; IssuerData := issuerData;
                        issuerKey := issuerKey |}
              end
          end
      end
  end.

(** What [decodeBundle] answers. *)
Definition bundleRead (data : bytes) (issuerKey : string) : result CertificateResource :=
  match UnmarshalBundle data with
  | Err err => Err (Errorf "decoding certificate bundle: " err)
  | Ok bundle =>
      Ok {| SANs := bSANs bundle; CertificatePEM := bCertificatePEM bundle;
            PrivateKeyPEM := bPrivateKeyPEM bundle; IssuerData := bIssuerData bundle;
            issuerKey := issuerKey |}
  end.

(** What [Load] answers, as a function of the backend state. *)
Definition loadRead (cs : CertStore) (s : S) (issuerKey certNamesKey : string)
    : result CertificateResource :=
  match ToASCII certNamesKey with
  | Err err => Err (convertingError certNamesKey err)
  | Ok normalizedName =>
      if String.eqb (mode cs) StorageModeLegacy then
        legacyRead s issuerKey normalizedName
      else if String.eqb (mode cs) StorageModeTransition
              || String.eqb (mode cs) StorageModeBundle then
        match sLoad s (SiteBundle issuerKey normalizedName) with
        | Ok bundleData => bundleRead bundleData issuerKey
        | Err _ => legacyRead s issuerKey normalizedName
        end
      else legacyRead s issuerKey normalizedName
  end.

(** A resource read back: every field but the issuer data as it was, the
    issuer data as [encoding/json] writes it. *)
Definition readBackOf (res r : CertificateResource) (issuer : string) : Prop :=
  SANs r = SANs res
  /\ CertificatePEM r = CertificatePEM res
  /\ PrivateKeyPEM r = PrivateKeyPEM res
  /\ IssuerData r = reindent (IssuerData res)
  /\ issuerKey r = issuer.

(** The bundle stored under a key, when the key loads and decodes. *)
Definition storedBundle (s : S) (key : string) : option CertificateBundle :=
  match sLoad s key with
  | Ok data =>
      match UnmarshalBundle data with
      | Ok b => Some b
      | Err _ => None
      end
  | Err _ => None
  end.

(** What [Delete] logs when the removal of a legacy key fails. *)
Definition couldNotDelete (key : string) (err : error) : Entry :=
  {| level := DebugLevel; message := "could not delete legacy file";
     fields := [FString "key" key; FError err] |}.

(** A key is dealt with between two states when it is gone in the second,
    or the failure of its removal is in the log of the second. *)
Definition dealtWith (key : string) (w' : World S) : Prop :=
  sExists (store w') key = false \/ exists err, couldNotDelete key err ∈ logged w'.

Definition logGrows (w w' : World S) : Prop :=
  forall entry, entry ∈ logged w -> entry ∈ logged w'.

(** The last step of [Delete]: the removal of the site prefix. *)
Definition removeSitePrefix (sitePrefix : string) : M S unit :=
  let* present := storageExists sitePrefix in
  if present then
    let* err := storageDelete sitePrefix in
    match err with
    | Some err =>
        log DebugLevel "could not delete site folder"
          [FString "path" sitePrefix; FError err]
    | None => ret tt
    end
  else ret tt.

(** The failure [Delete] reports: the one of the removal of the bundle
    key, when the key is there and its removal fails. *)
Definition bundleFailure (s : S) (bundleKey : string) : option error :=
  if sExists s bundleKey then
    match (sDelete s bundleKey).1 with
    | Some err => Some (ErrJoin [Errorf "deleting bundle: " err])
    | None => None
    end
  else None.

(** A key reads in the second state as in the first. *)
Definition sameAt (k : string) (w w' : World S) : Prop :=
  sLoad (store w') k = sLoad (store w) k /\ sExists (store w') k = sExists (store w) k.

(** The warning of [decodeBundle] for a bundle of a later version. *)
Definition versionWarning (v : Z) : Entry :=
  {| level := WarnLevel; message := "bundle version is newer than supported";
     fields := [FInt "bundle_version" v; FInt "supported_version" BundleVersion] |}.

(** Where [MoveCompromisedKey] stores the key: beside the private key in
    the mode [legacy], beside the bundle in every other mode. *)
Definition compromisedPath (cs : CertStore) (issuerKey normalizedName : string) : string :=
  if String.eqb (mode cs) StorageModeLegacy
  then (SitePrivateKey issuerKey normalizedName ++ ".compromised")%string
  else (SiteBundle issuerKey normalizedName ++ ".compromised")%string.

(** The keys [Delete] may remove. *)
Definition deletedKeys (issuerKey normalizedName : string) : list string :=
  slot issuerKey normalizedName ++ [CertsSitePrefix issuerKey normalizedName].

(** The last entry [MigrateAll] logs. *)
Definition migrationComplete (issuerKey : string) (t : Tally) : Entry :=
  {| level := InfoLevel; message := "migration complete";
     fields := [FString "issuer" issuerKey; FInt "migrated" (migrated t);
                FInt "skipped" (skipped t); FInt "failed" (failed t)] |}.

(** An item of a listing that [MigrateAll] cannot take the domain of: it
    is no bundle file and is shorter than the prefix and the slash. *)
Definition tooShort (certsPrefix itemKey : string) : bool :=
  negb (HasSuffix itemKey bundleSuffix)
  && Nat.ltb (String.length itemKey) (String.length certsPrefix + 1).

End Vocabulary.

(** ** Scenarios: data for the reference collaborators *)

Module Scenario.
Import Store Reference Codec.

(** A text between double quotes. *)
Definition quoted (s : string) : string := String "034" (s ++ String "034" "").

(** The resource of the package's tests; its issuer data is the text
    [{"test": "data"}]. *)
Definition testData : string := "{" ++ quoted "test" ++ ": " ++ quoted "data" ++ "}".

Definition certRes : CertificateResource :=
  {| SANs := ["example.com"];
     CertificatePEM := B "certificate";
     PrivateKeyPEM := B "private key";
     IssuerData := B testData;
     issuerKey := "" |}.


(** The same text as the encoder writes it: on three lines, indented. *)
Definition testDataWritten : string :=
  "{" ++ String "010" (String "009" (String "009" (quoted "test" ++ ": " ++ quoted "data")))
      ++ String "010" (String "009" "}").

Definition readBack : CertificateResource :=
  {| SANs := ["example.com"];
     CertificatePEM := B "certificate";
     PrivateKeyPEM := B "private key";
     IssuerData := B testDataWritten;
     issuerKey := "acme" |}.

Definition legacyStore : CertStore := NewCertStoreWithMode StorageModeLegacy.
Definition transitionStore : CertStore := NewCertStoreWithMode StorageModeTransition.
Definition bundleStore : CertStore := NewCertStoreWithMode StorageModeBundle.

(** An empty backend, and the backend after the resource was saved in each
    of the modes at time 5. *)
Definition empty : World (gmap string bytes) := {| store := ∅; logged := [] |}.

Definition savedBy (cs : CertStore) : World (gmap string bytes) :=
  (Save cs 5 "acme" certRes empty).2.

(** A legacy certificate beside a bundle payload that is not a document. *)
Definition brokenBundle : World (gmap string bytes) :=
  (storageStore (SiteBundle "acme" "example.com") (B "not json") (savedBy legacyStore)).2.

(** A bundle whose [CreatedAt] is the zero time, alone in the backend. *)
Definition undatedBundle : CertificateBundle :=
  {| Version := 1; bSANs := ["example.com"];
     bCertificatePEM := B "certificate"; bPrivateKeyPEM := B "private key";
     bIssuerData := []; CreatedAt := zeroTime; UpdatedAt := 3 |}.

Definition undated : World (gmap string bytes) :=
  (storageStore (SiteBundle "acme" "example.com") (encodeBundle undatedBundle) empty).2.

(** The files of the transition mode on a backend that protects the keys
    of [keys]. *)
Definition guarded (keys : list string) : World Guarded :=
  {| store := {| files := store (savedBy transitionStore); protected := keys |};
     logged := [] |}.

Definition allKeys : list string := slot "acme" "example.com".
Definition legacyKeys : list string :=
  [ SiteCert "acme" "example.com"; SitePrivateKey "acme" "example.com";
    SiteMeta "acme" "example.com" ].

(** An update of the issuer data, and one that fails. *)
Definition renewalInfo (_ : bytes) : result bytes :=
  Ok (B ("{" ++ quoted "updated" ++ ": " ++ quoted "metadata" ++ "}")).
Definition failingUpdate (_ : bytes) : result bytes := Err (ErrText "no renewal info").

(** A bundle of a later version, alone in the backend. *)
Definition laterBundle : CertificateBundle :=
  {| Version := 2; bSANs := ["example.com"];
     bCertificatePEM := B "certificate"; bPrivateKeyPEM := B "private key";
     bIssuerData := []; CreatedAt := 3; UpdatedAt := 3 |}.

Definition later : World (gmap string bytes) :=
  (storageStore (SiteBundle "acme" "example.com") (encodeBundle laterBundle) empty).2.

(** The legacy files of the resource with their site folder, and a bundle
    file beside the folder. *)
Definition folders : World (gmap string bytes) :=
  (storageStore "site/acme/other.bundle.json" []
     (storageStore (CertsSitePrefix "acme" "example.com") [] (savedBy legacyStore)).2).2.

(** A clock for the batch: every bundle is written at time 7. *)
Definition at7 (_ : string) : Z := 7.

End Scenario.

(** * Properties *)

(** ** The rollout resolver *)

Section RolloutProperties.
Import Rollout.

Lemma bucket_range (domain : string) : 0 <= RolloutBucketForDomain domain < 100.
Proof. unfold RolloutBucketForDomain. apply Z.mod_pos_bound. lia. Qed.

(** The buckets the tests of the package name. *)
Example bucket_cyufsv : RolloutBucketForDomain "cyufsv.com" = 0.
Proof. reflexivity. Qed.
Example bucket_cdbbdh : RolloutBucketForDomain "cdbbdh.com" = 49.
Proof. reflexivity. Qed.
Example bucket_lgxeeu : RolloutBucketForDomain "lgxeeu.com" = 50.
Proof. reflexivity. Qed.
Example bucket_msngsw : RolloutBucketForDomain "msngsw.com" = 99.
Proof. reflexivity. Qed.

Lemma mode_bundle (p : Z) (domain : string) :
  StorageModeForDomain (ConfigureStorageMode StorageModeBundle p) domain = StorageModeBundle.
Proof. reflexivity. Qed.

Lemma mode_other (m : string) (p : Z) (domain : string) :
  m <> StorageModeBundle -> m <> StorageModeTransition ->
  StorageModeForDomain (ConfigureStorageMode m p) domain = StorageModeLegacy.
Proof.
  intros Hb Ht. unfold StorageModeForDomain. cbn [StorageMode ConfigureStorageMode].
  apply String.eqb_neq in Hb, Ht. rewrite Hb, Ht. reflexivity.
Qed.

Lemma mode_transition (p : Z) (domain : string) :
  StorageModeForDomain (ConfigureStorageMode StorageModeTransition p) domain =
  if Z.ltb (fnv32a (B domain) mod 100) p then StorageModeTransition else StorageModeLegacy.
Proof. reflexivity. Qed.

(** C1. For every domain and every rollout percentage [p]: under the global
    mode [bundle] the domain resolves to [bundle]; under a global mode that
    is neither [bundle] nor [transition] it resolves to [legacy]; under
    [transition] it resolves to [transition] exactly when
    [fnv32a(domain) mod 100 < p] and to [legacy] otherwise, so that a bucket
    equal to [p] gives [legacy], [p = 0] gives [legacy] for every domain and
    [p = 100] gives [transition] for every domain. *)
Theorem StorageModeForDomain_resolution (domain : string) (p : Z) :
  StorageModeForDomain (ConfigureStorageMode StorageModeBundle p) domain = StorageModeBundle
  /\ (forall m, m <> StorageModeBundle -> m <> StorageModeTransition ->
        StorageModeForDomain (ConfigureStorageMode m p) domain = StorageModeLegacy)
  /\ (StorageModeForDomain (ConfigureStorageMode StorageModeTransition p) domain
        = StorageModeTransition <-> fnv32a (B domain) mod 100 < p)
  /\ (StorageModeForDomain (ConfigureStorageMode StorageModeTransition p) domain
        = StorageModeLegacy <-> p <= fnv32a (B domain) mod 100)
  /\ (fnv32a (B domain) mod 100 = p ->
        StorageModeForDomain (ConfigureStorageMode StorageModeTransition p) domain
        = StorageModeLegacy)
  /\ StorageModeForDomain (ConfigureStorageMode StorageModeTransition 0) domain
        = StorageModeLegacy
  /\ StorageModeForDomain (ConfigureStorageMode StorageModeTransition 100) domain
        = StorageModeTransition.
Proof.
  pose proof (bucket_range domain) as Hr. unfold RolloutBucketForDomain in Hr.
  repeat split.
  - intros m. apply mode_other.
  - rewrite mode_transition. destruct (Z.ltb_spec (fnv32a (B domain) mod 100) p); [lia | discriminate].
  - intros Hlt. rewrite mode_transition. apply Z.ltb_lt in Hlt. rewrite Hlt. reflexivity.
  - rewrite mode_transition. destruct (Z.ltb_spec (fnv32a (B domain) mod 100) p); [discriminate | lia].
  - intros Hle. rewrite mode_transition. apply Z.ltb_ge in Hle. rewrite Hle. reflexivity.
  - intros Heq. rewrite mode_transition. rewrite Heq, Z.ltb_irrefl. reflexivity.
  - rewrite mode_transition. destruct (Z.ltb_spec (fnv32a (B domain) mod 100) 0); [lia | reflexivity].
  - rewrite mode_transition. destruct (Z.ltb_spec (fnv32a (B domain) mod 100) 100); [reflexivity | lia].
Qed.

(** The boundary of the tests: bucket 50 under a rollout of 50, 51 and 0. *)
Example boundary_at_50 :
  StorageModeForDomain (ConfigureStorageMode StorageModeTransition 50) "lgxeeu.com" = "legacy"
  /\ StorageModeForDomain (ConfigureStorageMode StorageModeTransition 51) "lgxeeu.com" = "transition"
  /\ StorageModeForDomain (ConfigureStorageMode StorageModeTransition 50) "cdbbdh.com" = "transition".
Proof. repeat split. Qed.

End RolloutProperties.

(** ** The rollout resolver: bounds, growth and the table of the tests *)

Section RolloutCoverage.
Import Rollout.

Lemma fnv32a_write_range (h : Z) (c : byte) : 0 <= fnv32a_write h c < 2 ^ 32.
Proof. unfold fnv32a_write. apply Z.mod_pos_bound. lia. Qed.

(** X1. The hash is a 32-bit value whatever the bytes, and the bucket of a
    domain is one of 0 to 99. *)
Theorem hash_and_bucket_ranges (data : bytes) (domain : string) :
  0 <= fnv32a data < 2 ^ 32 /\ 0 <= RolloutBucketForDomain domain < 100.
Proof.
  split; [| apply bucket_range].
  unfold fnv32a. destruct data as [| c data] using rev_ind.
  - cbn. unfold offset32. lia.
  - rewrite fold_left_app. cbn. apply fnv32a_write_range.
Qed.

(** X2. Raising the rollout percentage never takes a domain out of the
    transition: a domain that resolves to [transition] at [p] resolves to
    [transition] at every [p'] from [p] on, under any global mode. *)
Theorem rollout_only_grows (m domain : string) (p p' : Z) :
  p <= p' ->
  StorageModeForDomain (ConfigureStorageMode m p) domain = StorageModeTransition ->
  StorageModeForDomain (ConfigureStorageMode m p') domain = StorageModeTransition.
Proof.
  intros Hle. unfold StorageModeForDomain. cbn [StorageMode StorageModeRolloutPercent
    ConfigureStorageMode].
  destruct (String.eqb m StorageModeBundle); [discriminate |].
  destruct (String.eqb m StorageModeTransition); cbn [negb]; [| discriminate].
  destruct (Z.ltb_spec (RolloutBucketForDomain domain) p); [| discriminate].
  intros _. destruct (Z.ltb_spec (RolloutBucketForDomain domain) p'); [reflexivity | lia].
Qed.

(** X3. The percentage is not checked and needs no check: under the global
    mode [transition], every percentage of 0 or less leaves every domain in
    [legacy], and every percentage of 100 or more puts every domain in
    [transition]. *)
Theorem rollout_outside_0_100 (domain : string) (p : Z) :
  (p <= 0 ->
     StorageModeForDomain (ConfigureStorageMode StorageModeTransition p) domain
     = StorageModeLegacy)
  /\ (100 <= p ->
     StorageModeForDomain (ConfigureStorageMode StorageModeTransition p) domain
     = StorageModeTransition).
Proof.
  pose proof (bucket_range domain) as Hr. unfold RolloutBucketForDomain in Hr.
  split; intros Hp; rewrite mode_transition.
  - destruct (Z.ltb_spec (fnv32a (B domain) mod 100) p); [lia | reflexivity].
  - destruct (Z.ltb_spec (fnv32a (B domain) mod 100) p); [reflexivity | lia].
Qed.

(** X4. Whatever the two variables hold, a domain resolves to one of the
    three names; to [bundle] exactly when the global mode is [bundle], and
    to [transition] only when the global mode is [transition]. *)
Theorem StorageModeForDomain_answers (g : Globals) (domain : string) :
  let answer := StorageModeForDomain g domain in
  (answer = StorageModeLegacy \/ answer = StorageModeTransition
   \/ answer = StorageModeBundle)
  /\ (answer = StorageModeBundle <-> StorageMode g = StorageModeBundle)
  /\ (answer = StorageModeTransition -> StorageMode g = StorageModeTransition).
Proof.
  cbn zeta. unfold StorageModeForDomain.
  destruct (String.eqb_spec (StorageMode g) StorageModeBundle) as [Eb | Nb].
  { split; [auto |]. split; [tauto |]. discriminate. }
  destruct (String.eqb_spec (StorageMode g) StorageModeTransition) as [Et | Nt]; cbn [negb].
  - destruct (Z.ltb (RolloutBucketForDomain domain) (StorageModeRolloutPercent g)).
    + split; [auto |]. split; [split; [discriminate | contradiction] | auto].
    + split; [auto |]. split; [split; [discriminate | contradiction] | discriminate].
  - split; [auto |]. split; [split; [discriminate | contradiction] | discriminate].
Qed.



Lemma rollout_only_grows_witness :
  StorageModeForDomain (ConfigureStorageMode "transition" 80) "lgxeeu.com"
  = StorageModeTransition.
Proof.
  refine (rollout_only_grows "transition" "lgxeeu.com" 51 80 _ _).
  - lia.
  - reflexivity.
Defined.

(** X6. The table of the tests holds one domain for every bucket, in
    order; so under the global mode [transition] and any percentage [p], the
    domain at index [i] of the table is in transition exactly when
    [i < p], which is what [TestStorageModeRolloutPercentTransition] checks
    for the percentages 0 to 99. *)
Theorem test_table_covers_the_buckets (p : Z) :
  map RolloutBucketForDomain testStorageModeDomains = map Z.of_nat (seq 0 100)
  /\ forall i domain,
       testStorageModeDomains !! i = Some domain ->
       StorageModeForDomain (ConfigureStorageMode StorageModeTransition p) domain
       = if Z.ltb (Z.of_nat i) p then StorageModeTransition else StorageModeLegacy.
Proof.
  assert (Htable :
    map RolloutBucketForDomain testStorageModeDomains = map Z.of_nat (seq 0 100))
    by (vm_compute; reflexivity).
  split; [exact Htable |].
  intros i domain Hi. rewrite mode_transition.
  change (fnv32a (B domain) mod 100) with (RolloutBucketForDomain domain).
  assert (Hb : map RolloutBucketForDomain testStorageModeDomains !! i
               = Some (RolloutBucketForDomain domain))
    by (rewrite list_lookup_fmap, Hi; reflexivity).
  rewrite Htable, list_lookup_fmap in Hb.
  destruct (seq 0 100 !! i) as [j |] eqn:Hj; [| discriminate].
  apply lookup_seq in Hj as [-> _]. cbn in Hb. injection Hb as <-. reflexivity.
Qed.

End RolloutCoverage.

(** ** The lock-lease renewer *)

Section LeaseProperties.
Import Lease.
Variable retryIntervals : list Z.
Variable maxRetryDuration CertObtainTimeout : Z.

Lemma retryInterval_in_table (n : nat) (d : Z) :
  retryIntervals !! n = Some d ->
  retryInterval retryIntervals maxRetryDuration (Z.of_nat n) = d.
Proof.
  intros Hn. unfold retryInterval.
  pose proof (lookup_lt_Some _ _ _ Hn) as Hlt.
  destruct (Z.leb_spec 0 (Z.of_nat n)); [| lia].
  destruct (Z.ltb_spec (Z.of_nat n) (Z.of_nat (length retryIntervals))); [| lia].
  cbn [andb]. rewrite Nat2Z.id. apply nth_lookup_Some with (d := maxRetryDuration) in Hn.
  exact Hn.
Qed.

Lemma retryInterval_beyond (attempt : Z) :
  Z.of_nat (length retryIntervals) <= attempt ->
  retryInterval retryIntervals maxRetryDuration attempt = maxRetryDuration.
Proof.
  intros Hge. unfold retryInterval.
  destruct (Z.ltb_spec attempt (Z.of_nat (length retryIntervals))); [lia |].
  rewrite andb_false_r. reflexivity.
Qed.

(** C8. For every attempt number, the lease duration the renewal asks the
    backend for is the retry interval of that attempt plus the obtain
    timeout; at attempt 0 it is the first interval of the table plus the
    timeout, and at every attempt index at or beyond the length of the
    table it is the maximum retry duration plus the timeout. *)
Theorem renewLockLease_duration (renew : string -> Z -> option error)
    (lockKey : string) (attempt : Z) :
  let requested a :=
    lastDuration (renewLockLease retryIntervals maxRetryDuration CertObtainTimeout
                    (Some renew) lockKey a).1 in
  requested attempt
    = Some (retryInterval retryIntervals maxRetryDuration attempt + CertObtainTimeout)
  /\ (forall first rest, retryIntervals = first :: rest ->
        requested 0 = Some (first + CertObtainTimeout))
  /\ (Z.of_nat (length retryIntervals) <= attempt ->
        requested attempt = Some (maxRetryDuration + CertObtainTimeout)).
Proof.
  cbn zeta. repeat split.
  - intros first rest Htable. cbn [renewLockLease fst lastDuration].
    pose proof (retryInterval_in_table 0 first) as Hfirst.
    change (Z.of_nat 0) with 0 in Hfirst. rewrite Hfirst; [reflexivity |].
    rewrite Htable. reflexivity.
  - intros Hge. cbn [renewLockLease fst lastDuration].
    rewrite retryInterval_beyond by exact Hge. reflexivity.
Qed.

End LeaseProperties.

(** The scenario of [TestRenewLockLeaseDuration], on a table of three
    intervals: attempt 0 and attempt 999. *)
Example lease_scenario :
  let requested a :=
    Lease.lastDuration (Lease.renewLockLease [60; 120; 600] 3600 90
                          (Some (fun _ _ => None)) "test-lock" a).1 in
  requested 0 = Some (60 + 90) /\ requested 999 = Some (3600 + 90)
  /\ requested 2 = Some (600 + 90) /\ requested 3 = Some (3600 + 90).
Proof. repeat split. Qed.

(** ** The storage mode read from the environment *)

Section ModeFromEnvironment.
Import Store.




(** [TestGetStorageMode] *)
Example GetStorageMode_table :
  map (fun v => GetStorageMode (fun _ => v))
    [""; "legacy"; "LEGACY"; "transition"; "TRANSITION"; "bundle"; "BUNDLE";
     "invalid"; "unknown"]
  = ["legacy"; "legacy"; "legacy"; "transition"; "transition"; "bundle"; "bundle";
     "legacy"; "legacy"].
Proof. reflexivity. Qed.


End ModeFromEnvironment.

(** ** The certificate store: an unknown mode is the legacy mode *)

Section UnknownMode.
Import Store.
Context {S : Type} `{Storage S} `{KeyBuilder} `{Naming} `{Json}.

Lemma unknownMode_eqb (m : string) :
  unknownMode m ->
  String.eqb m StorageModeLegacy = false
  /\ String.eqb m StorageModeTransition = false
  /\ String.eqb m StorageModeBundle = false.
Proof.
  intros (Hl & Ht & Hb). repeat split; apply String.eqb_neq; assumption.
Qed.

(** C10. A store whose mode is none of [legacy], [transition] and
    [bundle] does what the store in [legacy] mode does, in [Save], [Load],
    [Exists] and [LoadPrivateKey]: the same result, the same backend state
    and the same log, from every state and for every input. *)
Theorem unknown_mode_is_legacy (m : string) (Hm : unknownMode m) :
  let unknown := NewCertStoreWithMode m in
  let legacy := NewCertStoreWithMode StorageModeLegacy in
  (forall now issuerKey res (w : World S),
      Save unknown now issuerKey res w = Save legacy now issuerKey res w)
  /\ (forall issuerKey name (w : World S),
      Load unknown issuerKey name w = Load legacy issuerKey name w)
  /\ (forall issuerKey domain (w : World S),
      Exists unknown issuerKey domain w = Exists legacy issuerKey domain w)
  /\ (forall issuerKey domain (w : World S),
      LoadPrivateKey unknown issuerKey domain w = LoadPrivateKey legacy issuerKey domain w).
Proof.
  destruct (unknownMode_eqb m Hm) as (El & Et & Eb).
  cbn zeta. repeat split; intros.
  - unfold Save. cbn [mode NewCertStoreWithMode]. rewrite El, Et, Eb. reflexivity.
  - unfold Load. cbn [mode NewCertStoreWithMode]. rewrite El, Et, Eb.
    destruct (ToASCII name); reflexivity.
  - unfold Exists. cbn [mode NewCertStoreWithMode]. rewrite El, Et, Eb.
    destruct (ToASCII domain); reflexivity.
  - unfold LoadPrivateKey. cbn [mode NewCertStoreWithMode]. rewrite El, Et, Eb.
    destruct (ToASCII domain); reflexivity.
Qed.

End UnknownMode.

(** ** The reference collaborators keep the contracts *)

Section ReferenceContracts.
Import Store Reference Framing Codec.
Local Open Scope list_scope.

#[export] Instance MemStorage_laws : StorageLaws (gmap string bytes).
Proof.
  split; cbn.
  - intros s k v s' [= <-]. rewrite lookup_insert_eq. reflexivity.
  - intros s k v e s' k' [= _ <-] Hne. rewrite lookup_insert_ne by exact Hne.
    split; reflexivity.
  - intros s k s' [= <-]. rewrite lookup_delete_eq. reflexivity.
  - intros s k e s' k' [= _ <-] Hne. rewrite lookup_delete_ne by exact Hne.
    split; reflexivity.
  - intros s k v. destruct (s !! k); [reflexivity | discriminate].
Qed.

#[export] Instance MemStorage_fault_free : FaultFree (gmap string bytes).
Proof. split; reflexivity. Qed.

#[export] Instance GuardedStorage_laws : StorageLaws Guarded.
Proof.
  split; cbn.
  - intros s k v s'. destruct (isProtected s k); intros [= <-]; cbn.
    rewrite lookup_insert_eq. reflexivity.
  - intros s k v e s' k'. destruct (isProtected s k); intros [= _ <-] Hne; cbn;
      [split; reflexivity |].
    rewrite lookup_insert_ne by exact Hne. split; reflexivity.
  - intros s k s'. destruct (isProtected s k); intros [= <-]; cbn.
    rewrite lookup_delete_eq. reflexivity.
  - intros s k e s' k'. destruct (isProtected s k); intros [= _ <-] Hne; cbn;
      [split; reflexivity |].
    rewrite lookup_delete_ne by exact Hne. split; reflexivity.
  - intros s k v. destruct (files s !! k); [reflexivity | discriminate].
Qed.

#[export] Instance Keys_laws : KeyLaws.
Proof.
  split; intros i a b; cbn; try discriminate;
    (split; intros [= E]; f_equal; exact E).
Qed.

Lemma decNat_encNat (n : nat) (rest : bytes) : decNat (encNat n ++ rest) = Some (n, rest).
Proof.
  induction n as [| n IH]; cbn; [reflexivity |]. rewrite IH. reflexivity.
Qed.

Lemma decZ_encZ (z : Z) (rest : bytes) : decZ (encZ z ++ rest) = Some (z, rest).
Proof.
  unfold encZ. destruct (Z.ltb_spec z 0); cbn; rewrite decNat_encNat;
    do 2 f_equal; lia.
Qed.

Lemma decBytes_encBytes (l rest : bytes) : decBytes (encBytes l ++ rest) = Some (l, rest).
Proof.
  unfold decBytes, encBytes. rewrite <- app_assoc, decNat_encNat.
  rewrite length_app.
  destruct (Nat.leb_spec (length l) (length l + length rest)); [| lia].
  rewrite take_app_length, drop_app_length. reflexivity.
Qed.

Lemma decString_encString (s : string) (rest : bytes) :
  decString (encString s ++ rest) = Some (s, rest).
Proof.
  unfold decString, encString. rewrite decBytes_encBytes.
  unfold S_, B. rewrite string_of_list_byte_of_string. reflexivity.
Qed.

Lemma decEach_encEach (l : list string) (rest : bytes) :
  decEach (length l) (encEach l ++ rest) = Some (l, rest).
Proof.
  induction l as [| x l IH]; cbn; [reflexivity |].
  rewrite <- app_assoc, decString_encString, IH. reflexivity.
Qed.

Lemma decStrings_encStrings (l : list string) (rest : bytes) :
  decStrings (encStrings l ++ rest) = Some (l, rest).
Proof.
  unfold decStrings, encStrings. rewrite <- app_assoc, decNat_encNat.
  apply decEach_encEach.
Qed.

Lemma decodeBundle_encodeBundle (b : CertificateBundle) :
  Codec.decodeBundle (encodeBundle b) = Some (wire b).
Proof.
  unfold Codec.decodeBundle, encodeBundle.
  rewrite decZ_encZ, decStrings_encStrings, !decBytes_encBytes, decZ_encZ.
  rewrite <- (app_nil_r (encZ (UpdatedAt b))), decZ_encZ. reflexivity.
Qed.

Lemma decodeMeta_encodeMeta (sans : list string) (raw : bytes) :
  decodeMeta (encodeMeta sans raw) = Some (sans, reindentRawMessage raw).
Proof.
  unfold decodeMeta, encodeMeta. rewrite decStrings_encStrings.
  rewrite <- (app_nil_r (encBytes _)), decBytes_encBytes. reflexivity.
Qed.

#[export] Instance FramedJson_laws : JsonLaws.
Proof.
  split; cbn [MarshalBundle UnmarshalBundle MarshalMeta UnmarshalMeta validRaw reindent
                FramedJson].
  - intros b data. destruct (validRawMessage (bIssuerData b)); intros [= <-].
    rewrite decodeBundle_encodeBundle. reflexivity.
  - intros sans raw data. destruct (validRawMessage raw); intros [= <-].
    rewrite decodeMeta_encodeMeta. reflexivity.
  - intros b Hv. rewrite Hv. reflexivity.
Qed.

End ReferenceContracts.

(** ** The certificate store over a backend that keeps its contract *)

Section StoreProperties.
Import Store.
Context {S : Type} {backend : Storage S} {backend_laws : StorageLaws S}
  {key_builder : KeyBuilder} {key_laws : KeyLaws} {naming : Naming}
  {json : Json} {json_laws : JsonLaws}.
Local Open Scope list_scope.

(** Membership in short lists of keys, from the facts in the goal alone. *)
Local Ltac keys_solver :=
  try clear json_laws; try clear key_laws; try clear backend_laws;
  try clear json; try clear naming; set_solver.

Lemma touchesOnly_refl ks w : touchesOnly ks w w.
Proof. intros k _. split; reflexivity. Qed.

Lemma touchesOnly_trans ks w1 w2 w3 :
  touchesOnly ks w1 w2 -> touchesOnly ks w2 w3 -> touchesOnly ks w1 w3.
Proof.
  intros H12 H23 k Hk. destruct (H12 k Hk) as [L12 E12]. destruct (H23 k Hk) as [L23 E23].
  split; congruence.
Qed.

Lemma touchesOnly_weaken ks ks' w w' :
  ks ⊆ ks' -> touchesOnly ks w w' -> touchesOnly ks' w w'.
Proof. intros Hsub Ht k Hk. apply Ht. intros Hin. apply Hk, Hsub, Hin. Qed.

Lemma storageLoad_run key (w : World S) : storageLoad key w = (sLoad (store w) key, w).
Proof. reflexivity. Qed.

Lemma storageStore_touches key value (w w' : World S) e :
  storageStore key value w = (e, w') ->
  touchesOnly [key] w w' /\ logged w' = logged w
  /\ (e = None -> sLoad (store w') key = Ok value).
Proof.
  unfold storageStore. destruct (sStore (store w) key value) as [e' s'] eqn:Hs.
  intros [= <- <-]. cbn [store logged]. split; [| split; [reflexivity |]].
  - intros k Hk. apply not_elem_of_cons in Hk as [Hne _].
    eapply store_ne; [exact Hs | congruence].
  - intros ->. eapply load_store_eq, Hs.
Qed.

Lemma storageDelete_touches key (w w' : World S) e :
  storageDelete key w = (e, w') ->
  touchesOnly [key] w w' /\ logged w' = logged w
  /\ (e = None -> sExists (store w') key = false).
Proof.
  unfold storageDelete. destruct (sDelete (store w) key) as [e' s'] eqn:Hs.
  intros [= <- <-]. cbn [store logged]. split; [| split; [reflexivity |]].
  - intros k Hk. apply not_elem_of_cons in Hk as [Hne _].
    eapply delete_ne; [exact Hs | congruence].
  - intros ->. eapply exists_delete_eq, Hs.
Qed.

Lemma log_run l msg fs (w : World S) :
  store (log l msg fs w).2 = store w.
Proof. reflexivity. Qed.

Lemma deleteLegacyFile_touches key (w : World S) :
  touchesOnly [key] w (deleteLegacyFile key w).2.
Proof.
  unfold deleteLegacyFile, bind, storageExists.
  destruct (sExists (store w) key); [| apply touchesOnly_refl].
  destruct (storageDelete key w) as [e w1] eqn:Hd.
  apply storageDelete_touches in Hd as (Ht & _ & _).
  destruct e; cbn; exact Ht.
Qed.

Lemma forEach_touches (body : string -> M S unit) keys (w : World S) :
  (forall k w0, touchesOnly [k] w0 (body k w0).2) ->
  touchesOnly keys w (forEach keys body w).2.
Proof.
  intros Hbody. revert w. induction keys as [| k keys IH]; intros w; cbn.
  - apply touchesOnly_refl.
  - unfold bind. destruct (body k w) as [[] w1] eqn:Hb.
    eapply touchesOnly_trans.
    + eapply touchesOnly_weaken; [| pose proof (Hbody k w) as Hk; rewrite Hb in Hk; exact Hk].
      keys_solver.
    + eapply touchesOnly_weaken; [| apply IH]. keys_solver.
Qed.

Lemma deleteLegacyFiles_touches issuerKey certKey (w : World S) :
  touchesOnly [SiteCert issuerKey certKey; SitePrivateKey issuerKey certKey;
               SiteMeta issuerKey certKey] w (deleteLegacyFiles issuerKey certKey w).2.
Proof. apply forEach_touches. intros k w0. apply deleteLegacyFile_touches. Qed.

Lemma saveBundle_touches now issuerKey certKey res (w : World S) :
  touchesOnly [SiteBundle issuerKey certKey] w (saveBundle now issuerKey certKey res w).2.
Proof.
  unfold saveBundle, bind. rewrite storageLoad_run.
  destruct (MarshalBundle _) as [data | err]; [| apply touchesOnly_refl].
  destruct (storageStore (SiteBundle issuerKey certKey) data w) as [e w1] eqn:Hs.
  apply storageStore_touches in Hs as (Ht & _ & _).
  destruct e; exact Ht.
Qed.

Lemma saveBundle_ok now issuerKey certKey res (w w' : World S) :
  saveBundle now issuerKey certKey res w = (None, w') ->
  exists data,
    MarshalBundle (bundleFor (sLoad (store w) (SiteBundle issuerKey certKey)) now res) = Ok data
    /\ sLoad (store w') (SiteBundle issuerKey certKey) = Ok data
    /\ logged w' = logged w.
Proof.
  unfold saveBundle, bind. rewrite storageLoad_run.
  destruct (MarshalBundle _) as [data | err]; [| discriminate].
  destruct (storageStore (SiteBundle issuerKey certKey) data w) as [e w1] eqn:Hs.
  apply storageStore_touches in Hs as (_ & Hl & Hv).
  destruct e; [discriminate |]. intros [= <-].
  exists data. repeat split; [apply Hv; reflexivity | exact Hl].
Qed.

Lemma rollback_touches written (w : World S) :
  touchesOnly written w
    (forEach written (fun k => let* _ := storageDelete k in ret tt) w).2.
Proof.
  apply forEach_touches. intros k w0. unfold bind.
  destruct (storageDelete k w0) as [e w1] eqn:Hd.
  apply storageDelete_touches in Hd as (Ht & _ & _). exact Ht.
Qed.

Lemma storeTxFrom_touches all written (w : World S) :
  touchesOnly (written ++ map key all) w (storeTxFrom written all w).2.
Proof.
  revert written w. induction all as [| kv rest IH]; intros written w; cbn.
  - apply touchesOnly_refl.
  - unfold bind at 1.
    destruct (storageStore (key kv) (value kv) w) as [e w1] eqn:Hs.
    apply storageStore_touches in Hs as (Ht & _ & _).
    eapply touchesOnly_trans.
    { eapply touchesOnly_weaken; [| exact Ht]. keys_solver. }
    destruct e as [err |].
    + unfold bind.
      pose proof (rollback_touches written w1) as Hr.
      destruct (forEach written _ w1) as [[] w2]. cbn in *.
      eapply touchesOnly_weaken; [| exact Hr]. keys_solver.
    + eapply touchesOnly_weaken; [| apply IH]. keys_solver.
Qed.

Lemma storeTxFrom_keeps all written (w w' : World S) k :
  storeTxFrom written all w = (None, w') ->
  k ∉ map key all -> sLoad (store w') k = sLoad (store w) k.
Proof.
  revert written w. induction all as [| kv rest IH]; intros written w Hrun Hk.
  - cbn in Hrun. injection Hrun as <-. reflexivity.
  - cbn in Hrun. unfold bind at 1 in Hrun.
    destruct (storageStore (key kv) (value kv) w) as [e w1] eqn:Hs.
    apply storageStore_touches in Hs as (Ht & _ & _).
    destruct e as [err |].
    { unfold bind in Hrun. destruct (forEach written _ w1) as [[] w2]. discriminate. }
    cbn in Hk. apply not_elem_of_cons in Hk as [Hne Hk].
    rewrite (IH _ _ Hrun Hk). apply Ht. keys_solver.
Qed.

Lemma storeTxFrom_ok all written (w w' : World S) :
  storeTxFrom written all w = (None, w') ->
  NoDup (map key all) ->
  forall kv, kv ∈ all -> sLoad (store w') (key kv) = Ok (value kv).
Proof.
  revert written w. induction all as [| kv rest IH]; intros written w Hrun Hnd kv' Hin.
  - apply elem_of_nil in Hin as [].
  - cbn in Hrun. unfold bind at 1 in Hrun.
    destruct (storageStore (key kv) (value kv) w) as [e w1] eqn:Hs.
    apply storageStore_touches in Hs as (_ & _ & Hv).
    destruct e as [err |].
    { unfold bind in Hrun. destruct (forEach written _ w1) as [[] w2]. discriminate. }
    cbn in Hnd. apply NoDup_cons in Hnd as [Hfresh Hnd].
    apply elem_of_cons in Hin as [-> | Hin].
    + rewrite (storeTxFrom_keeps _ _ _ _ _ Hrun Hfresh). apply Hv. reflexivity.
    + eapply IH; eassumption.
Qed.

Lemma saveLegacy_touches issuerKey certKey res (w : World S) :
  touchesOnly [SitePrivateKey issuerKey certKey; SiteCert issuerKey certKey;
               SiteMeta issuerKey certKey] w (saveLegacy issuerKey certKey res w).2.
Proof.
  unfold saveLegacy. destruct (MarshalMeta _ _) as [metaBytes | err];
    [| apply touchesOnly_refl].
  exact (storeTxFrom_touches
    [ {| key := SitePrivateKey issuerKey certKey; value := PrivateKeyPEM res |};
      {| key := SiteCert issuerKey certKey; value := CertificatePEM res |};
      {| key := SiteMeta issuerKey certKey; value := metaBytes |} ] [] w).
Qed.

Lemma saveLegacy_ok issuerKey certKey res (w w' : World S) :
  saveLegacy issuerKey certKey res w = (None, w') ->
  exists metaBytes,
    MarshalMeta (SANs res) (IssuerData res) = Ok metaBytes
    /\ sLoad (store w') (SitePrivateKey issuerKey certKey) = Ok (PrivateKeyPEM res)
    /\ sLoad (store w') (SiteCert issuerKey certKey) = Ok (CertificatePEM res)
    /\ sLoad (store w') (SiteMeta issuerKey certKey) = Ok metaBytes.
Proof.
  unfold saveLegacy. destruct (MarshalMeta _ _) as [metaBytes | err]; [| discriminate].
  intros Hrun. exists metaBytes. split; [reflexivity |].
  assert (Hnd : NoDup
    (map key [ {| key := SitePrivateKey issuerKey certKey; value := PrivateKeyPEM res |};
               {| key := SiteCert issuerKey certKey; value := CertificatePEM res |};
               {| key := SiteMeta issuerKey certKey; value := metaBytes |} ])).
  { cbn. repeat constructor; rewrite ?elem_of_cons, ?elem_of_nil.
    - pose proof (key_cert issuerKey certKey certKey).
      pose proof (key_meta issuerKey certKey certKey). tauto.
    - pose proof (cert_meta issuerKey certKey certKey). tauto.
    - tauto. }
  pose proof (storeTxFrom_ok _ _ _ _ Hrun Hnd) as Hall.
  repeat split.
  - apply (Hall {| key := SitePrivateKey issuerKey certKey; value := PrivateKeyPEM res |}).
    keys_solver.
  - apply (Hall {| key := SiteCert issuerKey certKey; value := CertificatePEM res |}).
    keys_solver.
  - apply (Hall {| key := SiteMeta issuerKey certKey; value := metaBytes |}).
    keys_solver.
Qed.

(** [Save] writes and removes within the slot of the resource's name. *)
Lemma Save_touches cs now issuerKey res (w : World S) :
  touchesOnly (slot issuerKey (NamesKey res)) w (Save cs now issuerKey res w).2.
Proof.
  unfold Save, slot.
  pose proof (saveLegacy_touches issuerKey (NamesKey res) res) as Hl.
  pose proof (saveBundle_touches now issuerKey (NamesKey res) res) as Hb.
  pose proof (deleteLegacyFiles_touches issuerKey (NamesKey res)) as Hd.
  destruct (String.eqb (mode cs) StorageModeLegacy).
  { eapply touchesOnly_weaken; [| apply Hl]. keys_solver. }
  destruct (String.eqb (mode cs) StorageModeTransition).
  { unfold bind. specialize (Hb w).
    destruct (saveBundle now issuerKey (NamesKey res) res w) as [e w1]. cbn [snd] in Hb.
    destruct e.
    - eapply touchesOnly_weaken; [| exact Hb]. keys_solver.
    - eapply touchesOnly_trans.
      + eapply touchesOnly_weaken; [| exact Hb]. keys_solver.
      + eapply touchesOnly_weaken; [| apply Hl]. keys_solver. }
  destruct (String.eqb (mode cs) StorageModeBundle).
  { unfold bind. specialize (Hb w).
    destruct (saveBundle now issuerKey (NamesKey res) res w) as [e w1]. cbn [snd] in Hb.
    destruct e.
    - eapply touchesOnly_weaken; [| exact Hb]. keys_solver.
    - specialize (Hd w1).
      destruct (deleteLegacyFiles issuerKey (NamesKey res) w1) as [[] w2]. cbn [snd] in *.
      eapply touchesOnly_trans.
      + eapply touchesOnly_weaken; [| exact Hb]. keys_solver.
      + eapply touchesOnly_weaken; [| exact Hd]. keys_solver. }
  eapply touchesOnly_weaken; [| apply Hl]. keys_solver.
Qed.

Lemma loadLegacy_run issuerKey normalizedName (w : World S) :
  loadLegacy issuerKey normalizedName w = (legacyRead (store w) issuerKey normalizedName, w).
Proof.
  unfold loadLegacy, legacyRead, bind, storageLoad, ret.
  destruct (sLoad (store w) (SitePrivateKey _ _)); [| reflexivity].
  destruct (sLoad (store w) (SiteCert _ _)); [| reflexivity].
  destruct (sLoad (store w) (SiteMeta _ _)); [| reflexivity].
  destruct (UnmarshalMeta _) as [[sans raw] | err]; reflexivity.
Qed.

Lemma decodeBundle_run data issuerKey (w : World S) :
  (decodeBundle data issuerKey w).1 = bundleRead data issuerKey
  /\ store (decodeBundle data issuerKey w).2 = store w.
Proof.
  unfold decodeBundle, bundleRead, bind.
  destruct (UnmarshalBundle data) as [bundle | err]; [| split; reflexivity].
  destruct (Z.ltb BundleVersion (Version bundle)); split; reflexivity.
Qed.

(** [Load] reads: it answers with [loadRead] and leaves the backend as it
    is. *)
Lemma Load_run cs issuerKey certNamesKey (w : World S) :
  (Load cs issuerKey certNamesKey w).1 = loadRead cs (store w) issuerKey certNamesKey
  /\ store (Load cs issuerKey certNamesKey w).2 = store w.
Proof.
  unfold Load, loadRead.
  destruct (ToASCII certNamesKey) as [n | err]; [| split; reflexivity].
  destruct (String.eqb (mode cs) StorageModeLegacy).
  { rewrite loadLegacy_run. split; reflexivity. }
  destruct (String.eqb (mode cs) StorageModeTransition || String.eqb (mode cs) StorageModeBundle).
  - unfold bind. rewrite storageLoad_run.
    destruct (sLoad (store w) (SiteBundle issuerKey n)) as [data | err].
    + apply decodeBundle_run.
    + rewrite loadLegacy_run. split; reflexivity.
  - rewrite loadLegacy_run. split; reflexivity.
Qed.

Lemma legacyRead_agree (s s' : S) issuerKey n :
  (forall k, k ∈ slot issuerKey n -> sLoad s' k = sLoad s k) ->
  legacyRead s' issuerKey n = legacyRead s issuerKey n.
Proof.
  intros Ha. unfold legacyRead.
  rewrite !Ha by (unfold slot; keys_solver). reflexivity.
Qed.

Lemma loadRead_agree cs (s s' : S) issuerKey name n :
  ToASCII name = Ok n ->
  (forall k, k ∈ slot issuerKey n -> sLoad s' k = sLoad s k) ->
  loadRead cs s' issuerKey name = loadRead cs s issuerKey name.
Proof.
  intros Hn Ha. unfold loadRead. rewrite Hn.
  rewrite (legacyRead_agree s s' issuerKey n Ha).
  rewrite (Ha (SiteBundle issuerKey n)) by (unfold slot; keys_solver). reflexivity.
Qed.

Lemma bundleFor_fields loaded now res :
  let b := bundleFor loaded now res in
  Version b = BundleVersion /\ bSANs b = SANs res
  /\ bCertificatePEM b = CertificatePEM res /\ bPrivateKeyPEM b = PrivateKeyPEM res
  /\ bIssuerData b = IssuerData res /\ UpdatedAt b = now.
Proof.
  cbn zeta. unfold bundleFor.
  destruct loaded as [data | err]; [destruct (UnmarshalBundle data) as [ex | err] |];
    cbn [CreatedAt setCreatedAt];
    match goal with |- context [if IsZero ?t then _ else _] => destruct (IsZero t) end;
    repeat split.
Qed.

Lemma bundleRead_marshalled b data issuer :
  MarshalBundle b = Ok data ->
  bundleRead data issuer =
    Ok {| SANs := bSANs b; CertificatePEM := bCertificatePEM b;
          PrivateKeyPEM := bPrivateKeyPEM b; IssuerData := reindent (bIssuerData b);
          issuerKey := issuer |}.
Proof.
  intros Hm. unfold bundleRead. rewrite (bundle_roundtrip _ _ Hm). reflexivity.
Qed.

Lemma read_after_saveBundle now issuer certKey res (w w' : World S) :
  saveBundle now issuer certKey res w = (None, w') ->
  exists data r,
    sLoad (store w') (SiteBundle issuer certKey) = Ok data
    /\ bundleRead data issuer = Ok r /\ readBackOf res r issuer.
Proof.
  intros Hs. apply saveBundle_ok in Hs as (data & Hm & Hl & _).
  exists data. eexists. split; [exact Hl |]. split.
  - apply bundleRead_marshalled, Hm.
  - destruct (bundleFor_fields (sLoad (store w) (SiteBundle issuer certKey)) now res)
      as (_ & Hsans & Hcert & Hkey & Hraw & _).
    unfold readBackOf. cbn. rewrite Hsans, Hcert, Hkey, Hraw. repeat split.
Qed.

Lemma read_after_saveLegacy issuer certKey res (w w' : World S) :
  saveLegacy issuer certKey res w = (None, w') ->
  exists r, legacyRead (store w') issuer certKey = Ok r /\ readBackOf res r issuer.
Proof.
  intros Hs. apply saveLegacy_ok in Hs as (metaBytes & Hm & Hk & Hc & Hj).
  unfold legacyRead. rewrite Hk, Hc, Hj, (meta_roundtrip _ _ _ Hm).
  eexists. split; [reflexivity |]. repeat split.
Qed.

Lemma legacyRead_same_slot (s : S) issuer a b :
  SiteBundle issuer a = SiteBundle issuer b ->
  legacyRead s issuer a = legacyRead s issuer b.
Proof.
  intros Hslot. unfold legacyRead.
  rewrite (proj1 (slot_key issuer a b) Hslot), (proj1 (slot_cert issuer a b) Hslot),
    (proj1 (slot_meta issuer a b) Hslot). reflexivity.
Qed.

(** After a [Save] that succeeded, a [Load] in the same mode of a name in
    the slot of the resource reads the resource back. *)
Lemma read_after_Save cs now issuer res name n (w w' : World S) :
  Save cs now issuer res w = (None, w') ->
  ToASCII name = Ok n ->
  SiteBundle issuer n = SiteBundle issuer (NamesKey res) ->
  exists r, loadRead cs (store w') issuer name = Ok r /\ readBackOf res r issuer.
Proof.
  intros Hsave Hn Hslot. unfold loadRead. rewrite Hn.
  rewrite (legacyRead_same_slot _ _ _ _ Hslot), Hslot.
  unfold Save in Hsave.
  destruct (String.eqb (mode cs) StorageModeLegacy).
  { eapply read_after_saveLegacy, Hsave. }
  destruct (String.eqb (mode cs) StorageModeTransition) eqn:Et; cbn [orb].
  { unfold bind in Hsave.
    destruct (saveBundle now issuer (NamesKey res) res w) as [e w1] eqn:Hb.
    destruct e; [discriminate |].
    apply read_after_saveBundle in Hb as (data & r & Hl & Hr & Hback).
    pose proof (saveLegacy_touches issuer (NamesKey res) res w1) as Ht.
    rewrite Hsave in Ht. cbn [snd] in Ht.
    destruct (Ht (SiteBundle issuer (NamesKey res))) as [Hsame _].
    { pose proof (key_bundle issuer (NamesKey res) (NamesKey res)).
      pose proof (cert_bundle issuer (NamesKey res) (NamesKey res)).
      pose proof (meta_bundle issuer (NamesKey res) (NamesKey res)).
      keys_solver. }
    rewrite Hsame, Hl. exists r. split; assumption. }
  destruct (String.eqb (mode cs) StorageModeBundle) eqn:Eb.
  { unfold bind in Hsave.
    destruct (saveBundle now issuer (NamesKey res) res w) as [e w1] eqn:Hb.
    destruct e; [discriminate |].
    apply read_after_saveBundle in Hb as (data & r & Hl & Hr & Hback).
    pose proof (deleteLegacyFiles_touches issuer (NamesKey res) w1) as Ht.
    destruct (deleteLegacyFiles issuer (NamesKey res) w1) as [[] w2].
    injection Hsave as <-. cbn [snd] in Ht.
    destruct (Ht (SiteBundle issuer (NamesKey res))) as [Hsame _].
    { pose proof (key_bundle issuer (NamesKey res) (NamesKey res)).
      pose proof (cert_bundle issuer (NamesKey res) (NamesKey res)).
      pose proof (meta_bundle issuer (NamesKey res) (NamesKey res)).
      keys_solver. }
    rewrite Hsame, Hl. exists r. split; assumption. }
  eapply read_after_saveLegacy, Hsave.
Qed.


(** ** Bundle timestamps *)

Lemma bundleFor_CreatedAt (s : S) key now res :
  CreatedAt (bundleFor (sLoad s key) now res) =
    match storedBundle s key with
    | Some prior => if IsZero (CreatedAt prior) then now else CreatedAt prior
    | None => now
    end.
Proof.
  unfold bundleFor, storedBundle.
  destruct (sLoad s key) as [data | err]; [| reflexivity].
  destruct (UnmarshalBundle data) as [prior | err]; [| reflexivity].
  cbn [CreatedAt setCreatedAt].
  destruct (IsZero (CreatedAt prior)); reflexivity.
Qed.

Lemma IsZero_spec (t : Z) : IsZero t = true <-> t = zeroTime.
Proof. unfold IsZero. apply Z.eqb_eq. Qed.

(** C6, as amended. After a bundle write that succeeded, the bundle stored
    under the key has the time of the write as its [UpdatedAt]; its
    [CreatedAt] is the [CreatedAt] of the bundle that was stored under the
    key before when there was one and its [CreatedAt] was set (not the zero
    time); otherwise (no bundle that loads and decodes under the key, or one
    whose [CreatedAt] is the zero time) it is the new [UpdatedAt]. *)
Theorem saveBundle_timestamps (now : Z) (issuer certKey : string)
    (res : CertificateResource) (w w' : World S) :
  saveBundle now issuer certKey res w = (None, w') ->
  exists written,
    storedBundle (store w') (SiteBundle issuer certKey) = Some written
    /\ UpdatedAt written = now
    /\ (forall prior,
          storedBundle (store w) (SiteBundle issuer certKey) = Some prior ->
          CreatedAt prior <> zeroTime -> CreatedAt written = CreatedAt prior)
    /\ (forall prior,
          storedBundle (store w) (SiteBundle issuer certKey) = Some prior ->
          CreatedAt prior = zeroTime -> CreatedAt written = UpdatedAt written)
    /\ (storedBundle (store w) (SiteBundle issuer certKey) = None ->
          CreatedAt written = UpdatedAt written).
Proof.
  intros Hs. apply saveBundle_ok in Hs as (data & Hm & Hl & _).
  exists (wire (bundleFor (sLoad (store w) (SiteBundle issuer certKey)) now res)).
  pose proof (bundleFor_fields (sLoad (store w) (SiteBundle issuer certKey)) now res)
    as (_ & _ & _ & _ & _ & Hup).
  pose proof (bundleFor_CreatedAt (store w) (SiteBundle issuer certKey) now res) as Hcr.
  cbn zeta in Hup. cbn [wire CreatedAt UpdatedAt]. rewrite Hup, Hcr.
  split; [| split; [reflexivity | split; [| split]]].
  - unfold storedBundle. rewrite Hl, (bundle_roundtrip _ _ Hm). reflexivity.
  - intros prior -> Hset.
    destruct (IsZero (CreatedAt prior)) eqn:Hz; [| reflexivity].
    apply IsZero_spec in Hz. contradiction.
  - intros prior -> Hzero. apply IsZero_spec in Hzero. rewrite Hzero. reflexivity.
  - intros ->. reflexivity.
Qed.

(** A bundle that [saveBundle] wrote has its [CreatedAt] set, the clock
    never showing the zero time: the next write finds it set and keeps it. *)
Lemma saveBundle_sets_CreatedAt (now : Z) (issuer certKey : string)
    (res : CertificateResource) (w w' : World S) :
  now <> zeroTime ->
  saveBundle now issuer certKey res w = (None, w') ->
  exists written,
    storedBundle (store w') (SiteBundle issuer certKey) = Some written
    /\ CreatedAt written <> zeroTime.
Proof.
  intros Hnow Hs. apply saveBundle_ok in Hs as (data & Hm & Hl & _).
  exists (wire (bundleFor (sLoad (store w) (SiteBundle issuer certKey)) now res)).
  split.
  - unfold storedBundle. rewrite Hl, (bundle_roundtrip _ _ Hm). reflexivity.
  - cbn [wire CreatedAt]. rewrite bundleFor_CreatedAt.
    destruct (storedBundle (store w) (SiteBundle issuer certKey)) as [prior |];
      [| exact Hnow].
    destruct (IsZero (CreatedAt prior)) eqn:Hz; [exact Hnow |].
    intros Hzero. apply IsZero_spec in Hzero. congruence.
Qed.

(** ** Migration *)

Lemma Migrate_already_migrated cs now issuer domain n (w : World S) :
  ToASCII domain = Ok n ->
  sExists (store w) (SiteBundle issuer n) = true ->
  Migrate cs now issuer domain w = (None, w).
Proof.
  intros Hn Hex. unfold Migrate, bind, storageExists. rewrite Hn, Hex. reflexivity.
Qed.

Section FaultFreeBackend.
Context `{!FaultFree S}.

Lemma storageStore_succeeds key value (w : World S) :
  exists w', storageStore key value w = (None, w').
Proof.
  unfold storageStore. pose proof (store_succeeds (store w) key value) as Hs.
  destruct (sStore (store w) key value) as [e s']. cbn in Hs. subst e.
  eexists. reflexivity.
Qed.

Lemma saveBundle_succeeds now issuer certKey res (w : World S) :
  validRaw (IssuerData res) = true ->
  exists w', saveBundle now issuer certKey res w = (None, w').
Proof.
  intros Hv. unfold saveBundle, bind. rewrite storageLoad_run.
  pose proof (marshal_bundle_valid
    (bundleFor (sLoad (store w) (SiteBundle issuer certKey)) now res)) as Hm.
  destruct (bundleFor_fields (sLoad (store w) (SiteBundle issuer certKey)) now res)
    as (_ & _ & _ & _ & Hraw & _).
  rewrite Hraw in Hm. specialize (Hm Hv).
  destruct (MarshalBundle _) as [data | err]; [| discriminate].
  destruct (storageStore_succeeds (SiteBundle issuer certKey) data w) as (w' & ->).
  exists w'. reflexivity.
Qed.

Lemma deleteLegacyFile_removes key (w : World S) :
  sExists (store (deleteLegacyFile key w).2) key = false.
Proof.
  unfold deleteLegacyFile, bind, storageExists.
  destruct (sExists (store w) key) eqn:Hex; [| exact Hex].
  pose proof (delete_succeeds (store w) key Hex) as Hd.
  destruct (storageDelete key w) as [e w1] eqn:Hrun.
  unfold storageDelete in Hrun.
  destruct (sDelete (store w) key) as [e' s'] eqn:Hs. cbn in Hd. subst e'.
  injection Hrun as <- <-. cbn.
  eapply exists_delete_eq, Hs.
Qed.

Lemma sExists_touchesOnly ks (w w' : World S) k :
  touchesOnly ks w w' -> k ∉ ks -> sExists (store w') k = sExists (store w) k.
Proof. intros Ht Hk. apply (Ht k Hk). Qed.

Lemma deleteLegacyFiles_removes issuer certKey (w : World S) :
  let w' := (deleteLegacyFiles issuer certKey w).2 in
  sExists (store w') (SiteCert issuer certKey) = false
  /\ sExists (store w') (SitePrivateKey issuer certKey) = false
  /\ sExists (store w') (SiteMeta issuer certKey) = false.
Proof.
  cbn zeta. unfold deleteLegacyFiles. cbn [forEach]. unfold bind.
  pose proof (deleteLegacyFile_removes (SiteCert issuer certKey) w) as R1.
  destruct (deleteLegacyFile (SiteCert issuer certKey) w) as [[] w1]. cbn [snd] in R1.
  pose proof (deleteLegacyFile_removes (SitePrivateKey issuer certKey) w1) as R2.
  pose proof (deleteLegacyFile_touches (SitePrivateKey issuer certKey) w1) as T2.
  destruct (deleteLegacyFile (SitePrivateKey issuer certKey) w1) as [[] w2]. cbn [snd] in *.
  pose proof (deleteLegacyFile_removes (SiteMeta issuer certKey) w2) as R3.
  pose proof (deleteLegacyFile_touches (SiteMeta issuer certKey) w2) as T3.
  destruct (deleteLegacyFile (SiteMeta issuer certKey) w2) as [[] w3]. cbn [snd ret] in *.
  pose proof (key_cert issuer certKey certKey) as Dkc.
  pose proof (key_meta issuer certKey certKey) as Dkm.
  pose proof (cert_meta issuer certKey certKey) as Dcm.
  repeat split.
  - rewrite (sExists_touchesOnly _ _ _ _ T3) by keys_solver.
    rewrite (sExists_touchesOnly _ _ _ _ T2) by keys_solver. exact R1.
  - rewrite (sExists_touchesOnly _ _ _ _ T3) by keys_solver. exact R2.
  - exact R3.
Qed.

(** C4, as amended. If a bundle already exists under the bundle key of the
    name, [Migrate] returns success and leaves the backend and the log as
    they are. Hence, on a backend without faults, two calls of [Migrate] for
    a name that has a legacy certificate (one that decodes, with issuer data
    the encoder accepts) and no bundle yet both succeed, and they leave the
    bundle key present and none of the three legacy keys; the second call
    changes nothing. *)
Theorem Migrate_idempotent (cs : CertStore) (issuer domain n : string) (w : World S) :
  ToASCII domain = Ok n ->
  (forall now, sExists (store w) (SiteBundle issuer n) = true ->
     Migrate cs now issuer domain w = (None, w))
  /\ (forall now now' r,
        sExists (store w) (SiteBundle issuer n) = false ->
        legacyRead (store w) issuer n = Ok r ->
        validRaw (IssuerData r) = true ->
        exists w1,
          Migrate cs now issuer domain w = (None, w1)
          /\ Migrate cs now' issuer domain w1 = (None, w1)
          /\ sExists (store w1) (SiteBundle issuer n) = true
          /\ sExists (store w1) (SiteCert issuer n) = false
          /\ sExists (store w1) (SitePrivateKey issuer n) = false
          /\ sExists (store w1) (SiteMeta issuer n) = false).
Proof.
  intros Hn. split.
  { intros now Hex. apply (Migrate_already_migrated cs now issuer domain n w Hn Hex). }
  intros now now' r Hnob Hleg Hvalid.
  assert (Hcert : sExists (store w) (SiteCert issuer n) = true).
  { unfold legacyRead in Hleg.
    destruct (sLoad (store w) (SitePrivateKey issuer n)); [| discriminate].
    destruct (sLoad (store w) (SiteCert issuer n)) as [certBytes | err] eqn:Hc;
      [| discriminate].
    eapply load_exists, Hc. }
  destruct (saveBundle_succeeds now issuer n r w Hvalid) as (w1 & Hsave).
  pose proof (saveBundle_ok _ _ _ _ _ _ Hsave) as (data & _ & Hload & _).
  pose proof (deleteLegacyFiles_removes issuer n w1) as Hrem.
  pose proof (deleteLegacyFiles_touches issuer n w1) as Htouch.
  destruct (deleteLegacyFiles issuer n w1) as [[] w2] eqn:Hdel. cbn [snd] in Hrem, Htouch.
  cbn zeta in Hrem. destruct Hrem as (Hc & Hk & Hm).
  set (w3 := (log InfoLevel "migrated certificate to bundle format"
                [FString "domain" domain; FString "issuer" issuer] w2).2).
  assert (Hbundle : sExists (store w3) (SiteBundle issuer n) = true).
  { subst w3. rewrite log_run.
    destruct (Htouch (SiteBundle issuer n)) as [Hsame _].
    { pose proof (key_bundle issuer n n). pose proof (cert_bundle issuer n n).
      pose proof (meta_bundle issuer n n). keys_solver. }
    rewrite <- Hsame in Hload. eapply load_exists, Hload. }
  exists w3. split; [| split; [| repeat split]].
  - unfold Migrate, bind, storageExists. rewrite Hn, Hnob, Hcert. cbn [negb].
    rewrite loadLegacy_run, Hleg, Hsave, Hdel. reflexivity.
  - apply (Migrate_already_migrated cs now' issuer domain n w3 Hn Hbundle).
  - exact Hbundle.
  - subst w3. rewrite log_run. exact Hc.
  - subst w3. rewrite log_run. exact Hk.
  - subst w3. rewrite log_run. exact Hm.
Qed.

End FaultFreeBackend.

(** ** Metadata updates *)

Lemma slots_apart issuer a b k :
  SiteBundle issuer a <> SiteBundle issuer b ->
  k ∈ slot issuer a -> k ∉ slot issuer b.
Proof.
  intros Hne Ha Hb. unfold slot in *.
  pose proof (key_cert issuer) as Dkc. pose proof (key_meta issuer) as Dkm.
  pose proof (key_bundle issuer) as Dkb. pose proof (cert_meta issuer) as Dcm.
  pose proof (cert_bundle issuer) as Dcb. pose proof (meta_bundle issuer) as Dmb.
  pose proof (slot_key issuer a b) as Sk. pose proof (slot_cert issuer a b) as Sc.
  pose proof (slot_meta issuer a b) as Sm.
  repeat (apply elem_of_cons in Ha as [-> | Ha]); [| | | | apply elem_of_nil in Ha as []];
    repeat (apply elem_of_cons in Hb as [Hb | Hb]);
    try (apply elem_of_nil in Hb as []);
    try (apply Hne; tauto);
    try (symmetry in Hb; first [ apply Dkc in Hb | apply Dkm in Hb | apply Dkb in Hb
                               | apply Dcm in Hb | apply Dcb in Hb | apply Dmb in Hb ];
         contradiction);
    try (first [ apply Dkc in Hb | apply Dkm in Hb | apply Dkb in Hb
               | apply Dcm in Hb | apply Dcb in Hb | apply Dmb in Hb ];
         contradiction).
Qed.

Lemma UpdateMetadata_update_fails cs now issuer domain n updateFn r err (w : World S) :
  ToASCII domain = Ok n ->
  (Load cs issuer n w).1 = Ok r ->
  updateFn (IssuerData r) = Err err ->
  (UpdateMetadata cs now issuer domain updateFn w).1
    = Some (Errorf "updating metadata: " err)
  /\ store (UpdateMetadata cs now issuer domain updateFn w).2 = store w.
Proof.
  intros Hn Hload Hf. unfold UpdateMetadata, bind. rewrite Hn.
  pose proof (Load_run cs issuer n w) as [_ Hstore].
  destruct (Load cs issuer n w) as [lr w1]. cbn [fst snd] in *. subst lr.
  rewrite Hf. split; [reflexivity | exact Hstore].
Qed.

Lemma UpdateMetadata_succeeds_inv cs now issuer domain updateFn (w w' : World S) :
  UpdateMetadata cs now issuer domain updateFn w = (None, w') ->
  exists n r raw w1,
    ToASCII domain = Ok n
    /\ Load cs issuer n w = (Ok r, w1)
    /\ updateFn (IssuerData r) = Ok raw
    /\ Save cs now issuer (setIssuerData r raw) w1 = (None, w').
Proof.
  unfold UpdateMetadata, bind.
  destruct (ToASCII domain) as [n | e]; [| discriminate].
  destruct (Load cs issuer n w) as [[r | e] w1] eqn:Hl; [| discriminate].
  destruct (updateFn (IssuerData r)) as [raw | e] eqn:Hf; [| discriminate].
  intros Hs. exists n, r, raw, w1. repeat split; assumption.
Qed.

(** C7. [UpdateMetadata] changes the issuer data only. After a call that
    succeeded, the resource that [Load] returns for the name has the
    certificate bytes, the private-key bytes and the SANs it had before
    the call. If the update function returns an error, so does the call,
    and the backend is left as it was: nothing is written. *)
Theorem UpdateMetadata_keeps_certificate_and_key (cs : CertStore) (now : Z)
    (issuer domain n : string) (updateFn : bytes -> result bytes) (w : World S) :
  ToASCII domain = Ok n ->
  (forall w', UpdateMetadata cs now issuer domain updateFn w = (None, w') ->
     exists before after,
       (Load cs issuer n w).1 = Ok before
       /\ (Load cs issuer n w').1 = Ok after
       /\ CertificatePEM after = CertificatePEM before
       /\ PrivateKeyPEM after = PrivateKeyPEM before
       /\ SANs after = SANs before)
  /\ (forall r err,
        (Load cs issuer n w).1 = Ok r ->
        updateFn (IssuerData r) = Err err ->
        (UpdateMetadata cs now issuer domain updateFn w).1
          = Some (Errorf "updating metadata: " err)
        /\ store (UpdateMetadata cs now issuer domain updateFn w).2 = store w).
Proof.
  intros Hn. split.
  2:{ intros r err Hl Hf. eapply UpdateMetadata_update_fails; eassumption. }
  intros w' Hrun.
  apply UpdateMetadata_succeeds_inv in Hrun as (n0 & r & raw & w1 & Hn0 & Hl & Hf & Hs).
  rewrite Hn in Hn0. injection Hn0 as <-.
  pose proof (Load_run cs issuer n w) as [Hres Hst]. rewrite Hl in Hres, Hst.
  cbn [fst snd] in Hres, Hst.
  exists r. rewrite Hl. cbn [fst].
  rewrite (proj1 (Load_run cs issuer n w')).
  assert (Hn2 : exists n2, ToASCII n = Ok n2).
  { unfold loadRead in Hres. destruct (ToASCII n) as [n2 | e]; [eauto | discriminate]. }
  destruct Hn2 as (n2 & Hn2).
  destruct (decide (SiteBundle issuer n2 = SiteBundle issuer (NamesKey (setIssuerData r raw))))
    as [Hslot | Hslot].
  - destruct (read_after_Save cs now issuer _ n n2 w1 w' Hs Hn2 Hslot)
      as (after & Hafter & Hback).
    exists after. destruct Hback as (Hsans & Hc & Hk & _).
    repeat split; [exact Hafter | exact Hc | exact Hk | exact Hsans].
  - exists r. split; [reflexivity |]. split; [| repeat split; reflexivity].
    rewrite Hres. rewrite <- Hst.
    apply (loadRead_agree cs (store w1) (store w') issuer n n2 Hn2).
    intros k Hk.
    pose proof (Save_touches cs now issuer (setIssuerData r raw) w1) as Ht.
    rewrite Hs in Ht. cbn [snd] in Ht. apply Ht.
    eapply slots_apart; eassumption.
Qed.

(** ** Removal *)

Lemma logGrows_refl (w : World S) : logGrows w w.
Proof. intros entry Hin. exact Hin. Qed.

Lemma logGrows_trans (w1 w2 w3 : World S) :
  logGrows w1 w2 -> logGrows w2 w3 -> logGrows w1 w3.
Proof. intros H12 H23 entry Hin. apply H23, H12, Hin. Qed.

Lemma deleteLegacyFile_outcome key (w : World S) :
  let w' := (deleteLegacyFile key w).2 in
  logGrows w w' /\ dealtWith key w'.
Proof.
  cbn zeta. unfold deleteLegacyFile, bind, storageExists.
  destruct (sExists (store w) key) eqn:Hex.
  2:{ split; [apply logGrows_refl | left; exact Hex]. }
  destruct (storageDelete key w) as [e w1] eqn:Hd.
  apply storageDelete_touches in Hd as (_ & Hlog & Hgone).
  destruct e as [err |]; cbn [snd log store logged].
  - split.
    + intros entry Hin. rewrite Hlog. apply elem_of_app. left. exact Hin.
    + right. exists err. rewrite Hlog. apply elem_of_app. right.
      unfold couldNotDelete. keys_solver.
  - split.
    + intros entry Hin. rewrite Hlog. apply elem_of_app. left. exact Hin.
    + left. apply Hgone. reflexivity.
Qed.

Lemma dealtWith_kept key ks (w w' : World S) :
  touchesOnly ks w w' -> logGrows w w' -> key ∉ ks ->
  dealtWith key w -> dealtWith key w'.
Proof.
  intros Ht Hl Hk [Hgone | (err & Hin)].
  - left. rewrite (proj2 (Ht key Hk)). exact Hgone.
  - right. exists err. apply Hl, Hin.
Qed.

Lemma deleteLegacyFiles_outcome issuer name (w : World S) :
  let w' := (deleteLegacyFiles issuer name w).2 in
  logGrows w w'
  /\ dealtWith (SiteCert issuer name) w'
  /\ dealtWith (SitePrivateKey issuer name) w'
  /\ dealtWith (SiteMeta issuer name) w'.
Proof.
  cbn zeta. unfold deleteLegacyFiles. cbn [forEach]. unfold bind.
  pose proof (deleteLegacyFile_outcome (SiteCert issuer name) w) as [G1 D1].
  destruct (deleteLegacyFile (SiteCert issuer name) w) as [[] w1]. cbn [snd] in G1, D1.
  pose proof (deleteLegacyFile_outcome (SitePrivateKey issuer name) w1) as [G2 D2].
  pose proof (deleteLegacyFile_touches (SitePrivateKey issuer name) w1) as T2.
  destruct (deleteLegacyFile (SitePrivateKey issuer name) w1) as [[] w2]. cbn [snd] in *.
  pose proof (deleteLegacyFile_outcome (SiteMeta issuer name) w2) as [G3 D3].
  pose proof (deleteLegacyFile_touches (SiteMeta issuer name) w2) as T3.
  destruct (deleteLegacyFile (SiteMeta issuer name) w2) as [[] w3]. cbn [snd ret] in *.
  pose proof (key_cert issuer name name) as Dkc.
  pose proof (key_meta issuer name name) as Dkm.
  pose proof (cert_meta issuer name name) as Dcm.
  split; [| split; [| split]].
  - eapply logGrows_trans; [| exact G3]. eapply logGrows_trans; eassumption.
  - eapply (dealtWith_kept _ _ w2 w3 T3 G3); [keys_solver |].
    eapply (dealtWith_kept _ _ w1 w2 T2 G2); [keys_solver | exact D1].
  - eapply (dealtWith_kept _ _ w2 w3 T3 G3); [keys_solver | exact D2].
  - exact D3.
Qed.

Lemma removeSitePrefix_keeps sitePrefix key (w : World S) :
  dealtWith key w -> dealtWith key (removeSitePrefix sitePrefix w).2.
Proof.
  intros Hd. unfold removeSitePrefix, bind, storageExists.
  destruct (sExists (store w) sitePrefix) eqn:Hex; [| exact Hd].
  destruct (storageDelete sitePrefix w) as [e w1] eqn:Hdel.
  apply storageDelete_touches in Hdel as (Ht & Hlog & _).
  assert (Hgrow : forall entry, entry ∈ logged w -> entry ∈ logged w1).
  { intros entry Hin. rewrite Hlog. exact Hin. }
  destruct Hd as [Hgone | (err & Hin)].
  - left. assert (Hne : key ∉ [sitePrefix]).
    { intros Hin. apply elem_of_cons in Hin as [-> | Hin]; [congruence | apply elem_of_nil in Hin as []]. }
    destruct e; cbn [snd log store ret];
      rewrite (proj2 (Ht key Hne)); exact Hgone.
  - right. exists err. destruct e; cbn [snd log logged ret].
    + apply elem_of_app. left. apply Hgrow, Hin.
    + apply Hgrow, Hin.
Qed.

Lemma Delete_run cs issuer domain n (w : World S) :
  ToASCII domain = Ok n ->
  exists w1,
    (if sExists (store w) (SiteBundle issuer n)
     then w1 = (storageDelete (SiteBundle issuer n) w).2 else w1 = w)
    /\ Delete cs issuer domain w =
       (bundleFailure (store w) (SiteBundle issuer n),
        (removeSitePrefix (CertsSitePrefix issuer n)
           (deleteLegacyFiles issuer n w1).2).2).
Proof.
  intros Hn. unfold Delete, bundleFailure, bind, storageExists at 1. rewrite Hn.
  destruct (sExists (store w) (SiteBundle issuer n)) eqn:Hex.
  - exists (storageDelete (SiteBundle issuer n) w).2. split; [reflexivity |].
    unfold storageDelete at 1 3. destruct (sDelete (store w) (SiteBundle issuer n)) as [e s1].
    cbn [fst snd].
    destruct e; cbn [ret];
      destruct (deleteLegacyFiles issuer n _) as [[] w2]; cbn [snd];
      unfold removeSitePrefix, bind, storageExists;
      (destruct (sExists (store w2) (CertsSitePrefix issuer n));
        [destruct (storageDelete (CertsSitePrefix issuer n) w2) as [[e2 |] w3] |]);
      reflexivity.
  - exists w. split; [reflexivity |]. cbn [ret].
    destruct (deleteLegacyFiles issuer n w) as [[] w2]; cbn [snd];
      unfold removeSitePrefix, bind, storageExists;
      (destruct (sExists (store w2) (CertsSitePrefix issuer n));
        [destruct (storageDelete (CertsSitePrefix issuer n) w2) as [[e2 |] w3] |]);
      reflexivity.
Qed.

Lemma removeSitePrefix_gone sitePrefix key (w : World S) :
  sExists (store w) key = false ->
  sExists (store (removeSitePrefix sitePrefix w).2) key = false.
Proof.
  intros Hgone. unfold removeSitePrefix, bind, storageExists.
  destruct (sExists (store w) sitePrefix) eqn:Hex; [| exact Hgone].
  destruct (storageDelete sitePrefix w) as [e w1] eqn:Hdel.
  apply storageDelete_touches in Hdel as (Ht & _ & _).
  assert (Hne : key ∉ [sitePrefix]).
  { intros Hk. apply elem_of_cons in Hk as [-> | Hk]; [congruence | apply elem_of_nil in Hk as []]. }
  destruct e; cbn [snd log store ret];
    rewrite (proj2 (Ht key Hne)); exact Hgone.
Qed.

(** C5, as amended. In every mode [Delete] does the same: it removes the
    bundle key when it is there, then the three legacy keys, then the site
    prefix. The error it returns is the failure of the removal of the bundle
    key alone, joined; a legacy key whose removal fails is logged and not
    returned, and so is the site prefix. Afterwards the bundle key is gone
    or its failure was returned, and every legacy key is gone or the failure
    of its removal is in the log. *)
Theorem Delete_reports_the_bundle_failure (cs : CertStore) (issuer domain n : string)
    (w : World S) :
  ToASCII domain = Ok n ->
  let outcome := Delete cs issuer domain w in
  (forall cs', Delete cs' issuer domain w = outcome)
  /\ outcome.1 = bundleFailure (store w) (SiteBundle issuer n)
  /\ (sExists (store outcome.2) (SiteBundle issuer n) = false \/ outcome.1 <> None)
  /\ dealtWith (SiteCert issuer n) outcome.2
  /\ dealtWith (SitePrivateKey issuer n) outcome.2
  /\ dealtWith (SiteMeta issuer n) outcome.2.
Proof.
  intros Hn. cbn zeta.
  destruct (Delete_run cs issuer domain n w Hn) as (w1 & Hw1 & Hrun).
  split; [| rewrite Hrun; cbn [fst snd]; split; [reflexivity | split] ].
  { intros cs'. reflexivity. }
  - (* the bundle key *)
    unfold bundleFailure.
    pose proof (deleteLegacyFiles_touches issuer n w1) as Ht.
    assert (Hkeep : sExists (store w1) (SiteBundle issuer n) = false ->
              sExists (store (removeSitePrefix (CertsSitePrefix issuer n)
                                (deleteLegacyFiles issuer n w1).2).2)
                (SiteBundle issuer n) = false).
    { intros Hgone. apply removeSitePrefix_gone.
      rewrite (sExists_touchesOnly _ _ _ _ Ht); [exact Hgone |].
      pose proof (key_bundle issuer n n). pose proof (cert_bundle issuer n n).
      pose proof (meta_bundle issuer n n). keys_solver. }
    destruct (sExists (store w) (SiteBundle issuer n)) eqn:Hex.
    + subst w1. unfold storageDelete in *.
      destruct (sDelete (store w) (SiteBundle issuer n)) as [e s1] eqn:Hd. cbn [fst snd] in *.
      destruct e as [err |]; [right; discriminate |].
      left. apply Hkeep. cbn [store]. eapply exists_delete_eq, Hd.
    + subst w1. left. apply Hkeep, Hex.
  - (* the legacy keys *)
    pose proof (deleteLegacyFiles_outcome issuer n w1) as (_ & Dc & Dk & Dm).
    cbn zeta in Dc, Dk, Dm.
    repeat split; apply removeSitePrefix_keeps; assumption.
Qed.

(** ** Reading in transition and bundle mode *)

(** C2, as amended. In transition or bundle mode [Load] tries the bundle
    key first. When the backend fails to load it, whatever the failure
    (the key being absent included), [Load] returns what the full legacy
    read returns. When the backend loads it, [Load] returns what decoding
    the payload returns: the resource, or the decode error when the payload
    does not decode; the legacy keys are not read then. *)
Theorem Load_tries_the_bundle_first (cs : CertStore) (issuer name n : string)
    (w : World S) :
  mode cs = StorageModeTransition \/ mode cs = StorageModeBundle ->
  ToASCII name = Ok n ->
  (forall err, sLoad (store w) (SiteBundle issuer n) = Err err ->
     Load cs issuer name w = loadLegacy issuer n w)
  /\ (forall data, sLoad (store w) (SiteBundle issuer n) = Ok data ->
        Load cs issuer name w = decodeBundle data issuer w)
  /\ (forall data err, sLoad (store w) (SiteBundle issuer n) = Ok data ->
        UnmarshalBundle data = Err err ->
        Load cs issuer name w = (Err (Errorf "decoding certificate bundle: " err), w)).
Proof.
  intros Hmode Hn.
  assert (Hrun : Load cs issuer name w =
    match sLoad (store w) (SiteBundle issuer n) with
    | Ok data => decodeBundle data issuer w
    | Err _ => loadLegacy issuer n w
    end).
  { assert (El : String.eqb (mode cs) StorageModeLegacy = false)
      by (destruct Hmode as [-> | ->]; reflexivity).
    assert (Eb : String.eqb (mode cs) StorageModeTransition
                 || String.eqb (mode cs) StorageModeBundle = true)
      by (destruct Hmode as [-> | ->]; reflexivity).
    unfold Load. rewrite Hn, El, Eb. unfold bind, storageLoad.
    destruct (sLoad (store w) (SiteBundle issuer n)); reflexivity. }
  repeat split.
  - intros err Hl. rewrite Hrun, Hl. reflexivity.
  - intros data Hl. rewrite Hrun, Hl. reflexivity.
  - intros data err Hl Hd. rewrite Hrun, Hl. unfold decodeBundle. rewrite Hd. reflexivity.
Qed.

End StoreProperties.

(** ** The mode of a new store *)

Section ModeOfANewStore.
Import Store.

(** X7. Whatever the environment holds, the store [NewCertStore] builds has
    one of the three modes: the fourth branch of the operations is reached
    only through [NewCertStoreWithMode]. Reading the mode from its own
    answer gives the same answer. *)
Theorem NewCertStore_mode_is_recognized (getenv : string -> string) :
  recognized (mode (NewCertStore getenv))
  /\ GetStorageMode (fun _ => GetStorageMode getenv) = GetStorageMode getenv.
Proof.
  unfold NewCertStore. cbn [mode]. unfold GetStorageMode. cbn zeta.
  destruct (String.eqb_spec (ToLower (getenv StorageModeEnvVar)) StorageModeLegacy) as [E | _].
  { rewrite E. split; [left; reflexivity | reflexivity]. }
  destruct (String.eqb_spec (ToLower (getenv StorageModeEnvVar)) StorageModeTransition)
    as [E | _].
  { rewrite E. split; [right; left; reflexivity | reflexivity]. }
  destruct (String.eqb_spec (ToLower (getenv StorageModeEnvVar)) StorageModeBundle) as [E | _].
  { rewrite E. split; [right; right; reflexivity | reflexivity]. }
  split; [left; reflexivity | reflexivity].
Qed.

End ModeOfANewStore.

(** ** Reading: what the three readers do to the state and to each other *)

Section StoreReads.
Import Store.
Context {S : Type} {backend : Storage S} {key_builder : KeyBuilder}
  {naming : Naming} {json : Json}.
Local Open Scope list_scope.

Lemma Exists_run cs issuer domain (w : World S) : (Exists cs issuer domain w).2 = w.
Proof.
  unfold Exists, legacyExists, bind, storageExists, ret.
  destruct (ToASCII domain); [| reflexivity].
  repeat match goal with
         | |- context [if ?b then _ else _] => destruct b
         end; reflexivity.
Qed.

Lemma LoadPrivateKey_run cs issuer domain (w : World S) :
  (LoadPrivateKey cs issuer domain w).2 = w.
Proof.
  unfold LoadPrivateKey, bind, storageLoad, ret.
  destruct (ToASCII domain); [| reflexivity].
  repeat match goal with
         | |- context [if ?b then _ else _] => destruct b
         end; try reflexivity.
  all: destruct (sLoad (store w) (SiteBundle issuer a)) as [data | e]; [| reflexivity].
  all: destruct (UnmarshalBundle data); reflexivity.
Qed.

Lemma decodeBundle_log data issuer (w : World S) :
  logged (decodeBundle data issuer w).2 =
    match UnmarshalBundle data with
    | Ok b => if Z.ltb BundleVersion (Version b)
              then logged w ++ [versionWarning (Version b)] else logged w
    | Err _ => logged w
    end.
Proof.
  unfold decodeBundle. destruct (UnmarshalBundle data) as [b | e]; [| reflexivity].
  unfold bind. destruct (Z.ltb BundleVersion (Version b)); reflexivity.
Qed.

Lemma Load_bundle_branch cs issuer name n data (w : World S) :
  mode cs = StorageModeTransition \/ mode cs = StorageModeBundle ->
  ToASCII name = Ok n ->
  sLoad (store w) (SiteBundle issuer n) = Ok data ->
  Load cs issuer name w = decodeBundle data issuer w.
Proof.
  intros Hmode Hn Hl. unfold Load. rewrite Hn.
  assert (El : String.eqb StorageModeTransition StorageModeLegacy = false) by reflexivity.
  assert (Eb : String.eqb StorageModeBundle StorageModeLegacy = false) by reflexivity.
  assert (Et : String.eqb StorageModeTransition StorageModeTransition = true) by reflexivity.
  assert (Ebb : String.eqb StorageModeBundle StorageModeBundle = true) by reflexivity.
  destruct Hmode as [-> | ->].
  - rewrite El, Et. cbn [orb]. unfold bind. rewrite storageLoad_run, Hl. reflexivity.
  - rewrite Eb, Ebb, orb_true_r. unfold bind. rewrite storageLoad_run, Hl. reflexivity.
Qed.

Lemma loadLegacy_log issuer n (w : World S) : (loadLegacy issuer n w).2 = w.
Proof. rewrite loadLegacy_run. reflexivity. Qed.

(** X8. The readers do not write. [Exists] and [LoadPrivateKey] leave the
    backend and the log as they were; [Load] leaves the backend as it was
    and logs nothing, or the one warning of a bundle of a later version. *)
Theorem readers_do_not_write (cs : CertStore) (issuer name : string) (w : World S) :
  (Exists cs issuer name w).2 = w
  /\ (LoadPrivateKey cs issuer name w).2 = w
  /\ store (Load cs issuer name w).2 = store w
  /\ (logged (Load cs issuer name w).2 = logged w
      \/ exists v, BundleVersion < v
           /\ logged (Load cs issuer name w).2 = logged w ++ [versionWarning v]).
Proof.
  split; [apply Exists_run |]. split; [apply LoadPrivateKey_run |].
  split; [apply Load_run |].
  unfold Load. destruct (ToASCII name) as [n | e]; [| left; reflexivity].
  assert (Hbundle :
    let r := (let* bundleData := storageLoad (SiteBundle issuer n) in
              match bundleData with
              | Ok bundleData => decodeBundle bundleData issuer
              | Err _ => loadLegacy issuer n
              end) w in
    logged r.2 = logged w
    \/ exists v, BundleVersion < v /\ logged r.2 = logged w ++ [versionWarning v]).
  { cbn zeta. unfold bind. rewrite storageLoad_run.
    destruct (sLoad (store w) (SiteBundle issuer n)) as [data | e].
    - rewrite decodeBundle_log. destruct (UnmarshalBundle data) as [b | e]; [| left; reflexivity].
      destruct (Z.ltb_spec BundleVersion (Version b)); [| left; reflexivity].
      right. exists (Version b). split; [assumption | reflexivity].
    - left. rewrite loadLegacy_log. reflexivity. }
  destruct (String.eqb (mode cs) StorageModeLegacy).
  { left. rewrite loadLegacy_log. reflexivity. }
  destruct (String.eqb (mode cs) StorageModeTransition || String.eqb (mode cs) StorageModeBundle).
  - exact Hbundle.
  - left. rewrite loadLegacy_log. reflexivity.
Qed.

(** X9. [Load] does not reject a bundle for its version: in transition and
    in bundle mode, a bundle key that loads and decodes gives the
    resource of the bundle whatever its [Version]; a version above
    [BundleVersion] costs one warning in the log and nothing else. *)
Theorem Load_accepts_any_version (cs : CertStore) (issuer name n : string)
    (data : bytes) (b : CertificateBundle) (w : World S) :
  mode cs = StorageModeTransition \/ mode cs = StorageModeBundle ->
  ToASCII name = Ok n ->
  sLoad (store w) (SiteBundle issuer n) = Ok data ->
  UnmarshalBundle data = Ok b ->
  (Load cs issuer name w).1
    = Ok {| SANs := bSANs b; CertificatePEM := bCertificatePEM b;
            PrivateKeyPEM := bPrivateKeyPEM b; IssuerData := bIssuerData b;
            issuerKey := issuer |}
  /\ store (Load cs issuer name w).2 = store w
  /\ logged (Load cs issuer name w).2
     = if Z.ltb BundleVersion (Version b)
       then logged w ++ [versionWarning (Version b)] else logged w.
Proof.
  intros Hmode Hn Hl Hb.
  rewrite (Load_bundle_branch cs issuer name n data w Hmode Hn Hl).
  pose proof (decodeBundle_run data issuer w) as [Hres Hst].
  rewrite Hres, decodeBundle_log. unfold bundleRead. rewrite Hb.
  split; [reflexivity |]. split; [exact Hst | reflexivity].
Qed.

Lemma legacyRead_key (s : S) issuer n r :
  legacyRead s issuer n = Ok r ->
  sLoad s (SitePrivateKey issuer n) = Ok (PrivateKeyPEM r)
  /\ sLoad s (SiteCert issuer n) = Ok (CertificatePEM r)
  /\ exists metaBytes, sLoad s (SiteMeta issuer n) = Ok metaBytes
       /\ UnmarshalMeta metaBytes = Ok (SANs r, IssuerData r).
Proof.
  unfold legacyRead.
  destruct (sLoad s (SitePrivateKey issuer n)) as [k | e]; [| discriminate].
  destruct (sLoad s (SiteCert issuer n)) as [c | e]; [| discriminate].
  destruct (sLoad s (SiteMeta issuer n)) as [m | e]; [| discriminate].
  destruct (UnmarshalMeta m) as [[sans raw] | e] eqn:Hm; [| discriminate].
  intros [= <-]. cbn. split; [reflexivity |]. split; [reflexivity |].
  exists m. split; [reflexivity | exact Hm].
Qed.

(** X10. The two readers agree on the private key: whenever [Load] returns
    a resource, [LoadPrivateKey] on the same state returns the private key
    of that resource, in every mode. *)
Theorem LoadPrivateKey_agrees_with_Load (cs : CertStore) (issuer name : string)
    (r : CertificateResource) (w : World S) :
  (Load cs issuer name w).1 = Ok r ->
  (LoadPrivateKey cs issuer name w).1 = Ok (PrivateKeyPEM r).
Proof.
  rewrite (proj1 (Load_run cs issuer name w)).
  unfold loadRead, LoadPrivateKey.
  destruct (ToASCII name) as [n | e]; [| discriminate].
  assert (Hlegacy : legacyRead (store w) issuer n = Ok r ->
            (storageLoad (SitePrivateKey issuer n) w).1 = Ok (PrivateKeyPEM r)).
  { intros Hr. apply legacyRead_key in Hr as [Hk _]. rewrite storageLoad_run. exact Hk. }
  destruct (String.eqb (mode cs) StorageModeLegacy); [exact Hlegacy |].
  destruct (String.eqb (mode cs) StorageModeTransition || String.eqb (mode cs) StorageModeBundle);
    [| exact Hlegacy].
  unfold bind. rewrite storageLoad_run.
  destruct (sLoad (store w) (SiteBundle issuer n)) as [data | e]; [| exact Hlegacy].
  unfold bundleRead. destruct (UnmarshalBundle data) as [b | e]; [| discriminate].
  intros [= <-]. reflexivity.
Qed.

End StoreReads.

(** ** Presence, isolation and failure of the writers *)

Section StoreCoverage.
Import Store.
Context {S : Type} {backend : Storage S} {backend_laws : StorageLaws S}
  {key_builder : KeyBuilder} {key_laws : KeyLaws} {naming : Naming}
  {json : Json} {json_laws : JsonLaws}.
Local Open Scope list_scope.

Local Ltac keys_solver :=
  try clear json_laws; try clear key_laws; try clear backend_laws;
  try clear json; try clear naming; set_solver.

Lemma absent_key_does_not_load (s : S) k :
  sExists s k = false -> exists err, sLoad s k = Err err.
Proof.
  intros He. destruct (sLoad s k) as [v | err] eqn:Hl; [| eauto].
  apply load_exists in Hl. congruence.
Qed.

Lemma legacyRead_legacyExists (w : World S) issuer n r :
  legacyRead (store w) issuer n = Ok r -> legacyExists issuer n w = (true, w).
Proof.
  intros Hr. apply legacyRead_key in Hr as (Hk & Hc & m & Hm & _).
  apply load_exists in Hk, Hc, Hm.
  unfold legacyExists, bind, storageExists. rewrite Hc, Hk, Hm. reflexivity.
Qed.

Lemma loadRead_Exists cs issuer name r (w : World S) :
  loadRead cs (store w) issuer name = Ok r -> (Exists cs issuer name w).1 = true.
Proof.
  unfold loadRead, Exists. destruct (ToASCII name) as [n | e]; [| discriminate].
  assert (Hlegacy : legacyRead (store w) issuer n = Ok r ->
            (legacyExists issuer n w).1 = true).
  { intros Hr. rewrite (legacyRead_legacyExists w issuer n r Hr). reflexivity. }
  destruct (String.eqb (mode cs) StorageModeLegacy); [exact Hlegacy |].
  destruct (String.eqb (mode cs) StorageModeTransition || String.eqb (mode cs) StorageModeBundle);
    [| exact Hlegacy].
  unfold bind, storageExists.
  destruct (sLoad (store w) (SiteBundle issuer n)) as [data | e] eqn:Hl.
  - intros _. apply load_exists in Hl. rewrite Hl. reflexivity.
  - intros Hr. destruct (sExists (store w) (SiteBundle issuer n)); [reflexivity |].
    exact (Hlegacy Hr).
Qed.

(** X11. What [Load] returns, [Exists] finds: whenever [Load] returns a
    resource, [Exists] on the same state answers [true], in every mode,
    over every backend on which a key that loads exists. *)
Theorem Load_then_Exists (cs : CertStore) (issuer name : string)
    (r : CertificateResource) (w : World S) :
  (Load cs issuer name w).1 = Ok r -> (Exists cs issuer name w).1 = true.
Proof.
  rewrite (proj1 (Load_run cs issuer name w)). apply loadRead_Exists.
Qed.

(** X12. Where there is no bundle the mode does not matter to a reader:
    when the bundle key of a name is absent, [Load], [Exists] and
    [LoadPrivateKey] are the legacy read, the legacy check and the load of
    the legacy key, for every store whatever its mode. *)
Theorem readers_without_a_bundle (cs : CertStore) (issuer name n : string) (w : World S) :
  ToASCII name = Ok n ->
  sExists (store w) (SiteBundle issuer n) = false ->
  Load cs issuer name w = loadLegacy issuer n w
  /\ Exists cs issuer name w = legacyExists issuer n w
  /\ LoadPrivateKey cs issuer name w = storageLoad (SitePrivateKey issuer n) w.
Proof.
  intros Hn He. destruct (absent_key_does_not_load _ _ He) as (err & Hl).
  unfold Load, Exists, LoadPrivateKey. rewrite Hn.
  destruct (String.eqb (mode cs) StorageModeLegacy); [repeat split |].
  destruct (String.eqb (mode cs) StorageModeTransition || String.eqb (mode cs) StorageModeBundle);
    [| repeat split].
  unfold bind at 1 2 3. unfold storageExists at 1. rewrite storageLoad_run, Hl, He.
  repeat split.
Qed.

(** *** Save *)

Lemma bundle_key_apart issuer a :
  SiteBundle issuer a ∉ [SitePrivateKey issuer a; SiteCert issuer a; SiteMeta issuer a].
Proof.
  pose proof (key_bundle issuer a a). pose proof (cert_bundle issuer a a).
  pose proof (meta_bundle issuer a a). keys_solver.
Qed.

Lemma legacy_keys_apart issuer a k :
  k ∈ [SitePrivateKey issuer a; SiteCert issuer a; SiteMeta issuer a] ->
  k ∉ [SiteBundle issuer a].
Proof.
  pose proof (key_bundle issuer a a). pose proof (cert_bundle issuer a a).
  pose proof (meta_bundle issuer a a). keys_solver.
Qed.

Lemma Save_legacy_branch cs now issuer res :
  mode cs <> StorageModeTransition -> mode cs <> StorageModeBundle ->
  Save cs now issuer res = saveLegacy issuer (NamesKey res) res.
Proof.
  intros Ht Hb. unfold Save. apply String.eqb_neq in Ht, Hb. rewrite Ht, Hb.
  destruct (String.eqb (mode cs) StorageModeLegacy); reflexivity.
Qed.

Lemma Save_bundle_branch cs now issuer res (w : World S) :
  mode cs = StorageModeTransition \/ mode cs = StorageModeBundle ->
  Save cs now issuer res w =
    (let* err := saveBundle now issuer (NamesKey res) res in
     match err with
     | Some err => ret (Some err)
     | None =>
         if String.eqb (mode cs) StorageModeTransition
         then saveLegacy issuer (NamesKey res) res
         else let* _ := deleteLegacyFiles issuer (NamesKey res) in ret None
     end) w.
Proof.
  assert (El : String.eqb StorageModeTransition StorageModeLegacy = false) by reflexivity.
  assert (Eb : String.eqb StorageModeBundle StorageModeLegacy = false) by reflexivity.
  assert (Et : String.eqb StorageModeTransition StorageModeTransition = true) by reflexivity.
  assert (Ebt : String.eqb StorageModeBundle StorageModeTransition = false) by reflexivity.
  assert (Ebb : String.eqb StorageModeBundle StorageModeBundle = true) by reflexivity.
  unfold Save. intros [-> | ->].
  - rewrite El, Et. unfold bind. destruct (saveBundle _ _ _ _ w) as [[e |] w1]; reflexivity.
  - rewrite Eb, Ebt, Ebb. unfold bind. destruct (saveBundle _ _ _ _ w) as [[e |] w1]; reflexivity.
Qed.


(** X14. [Save] fails closed on the bundle: in transition and in bundle
    mode, when the write of the bundle fails, [Save] returns that failure,
    and the three legacy keys are neither written nor removed. *)
Theorem Save_fails_closed (cs : CertStore) (now : Z) (issuer : string)
    (res : CertificateResource) (err : error) (w w1 : World S) :
  mode cs = StorageModeTransition \/ mode cs = StorageModeBundle ->
  saveBundle now issuer (NamesKey res) res w = (Some err, w1) ->
  Save cs now issuer res w = (Some err, w1)
  /\ logged w1 = logged w
  /\ forall k, k ∈ [SitePrivateKey issuer (NamesKey res); SiteCert issuer (NamesKey res);
                    SiteMeta issuer (NamesKey res)] ->
       sLoad (store w1) k = sLoad (store w) k /\ sExists (store w1) k = sExists (store w) k.
Proof.
  intros Hmode Hsave. rewrite (Save_bundle_branch cs now issuer res w Hmode).
  unfold bind. rewrite Hsave. split; [reflexivity |]. split.
  - revert Hsave. unfold saveBundle, bind. rewrite storageLoad_run.
    destruct (MarshalBundle _) as [data | e]; [| intros [= _ <-]; reflexivity].
    destruct (storageStore _ data w) as [e w2] eqn:Hs.
    apply storageStore_touches in Hs as (_ & Hl & _).
    destruct e; intros [= _ <-]; exact Hl.
  - intros k Hk.
    pose proof (saveBundle_touches now issuer (NamesKey res) res w) as Ht.
    rewrite Hsave in Ht. apply Ht. apply legacy_keys_apart, Hk.
Qed.

(** X15. In transition mode the two writes are not one transaction: when
    the bundle was written and the legacy write then fails, [Save] returns
    the failure of the legacy write and the bundle that was just written
    stays under the bundle key. *)
Theorem Save_transition_keeps_the_new_bundle (cs : CertStore) (now : Z) (issuer : string)
    (res : CertificateResource) (err : error) (w w1 w2 : World S) :
  mode cs = StorageModeTransition ->
  saveBundle now issuer (NamesKey res) res w = (None, w1) ->
  saveLegacy issuer (NamesKey res) res w1 = (Some err, w2) ->
  Save cs now issuer res w = (Some err, w2)
  /\ exists data,
       MarshalBundle (bundleFor (sLoad (store w) (SiteBundle issuer (NamesKey res))) now res)
         = Ok data
       /\ sLoad (store w2) (SiteBundle issuer (NamesKey res)) = Ok data.
Proof.
  intros Hmode Hb Hl.
  rewrite (Save_bundle_branch cs now issuer res w (or_introl Hmode)).
  unfold bind. rewrite Hb, Hmode. change (String.eqb StorageModeTransition
    StorageModeTransition) with true. cbn match. split; [exact Hl |].
  apply saveBundle_ok in Hb as (data & Hm & Hload & _).
  exists data. split; [exact Hm |]. rewrite <- Hload.
  pose proof (saveLegacy_touches issuer (NamesKey res) res w1) as Ht.
  rewrite Hl in Ht. apply Ht.
  pose proof (bundle_key_apart issuer (NamesKey res)). keys_solver.
Qed.

(** X16. What is saved is there: after a successful [Save], [Exists]
    answers [true] for the resource's name, in every mode. *)
Theorem Save_then_Exists (cs : CertStore) (now : Z) (issuer : string)
    (res : CertificateResource) (w w' : World S) :
  Save cs now issuer res w = (None, w') ->
  ToASCII (NamesKey res) = Ok (NamesKey res) ->
  (Exists cs issuer (NamesKey res) w').1 = true.
Proof.
  intros Hs Hn.
  destruct (read_after_Save cs now issuer res (NamesKey res) (NamesKey res) w w' Hs Hn
              eq_refl) as (r & Hr & _).
  eapply loadRead_Exists, Hr.
Qed.

Lemma Save_bundle_inv cs now issuer res (w w' : World S) :
  mode cs = StorageModeTransition \/ mode cs = StorageModeBundle ->
  Save cs now issuer res w = (None, w') ->
  exists w1,
    saveBundle now issuer (NamesKey res) res w = (None, w1)
    /\ if String.eqb (mode cs) StorageModeTransition
       then saveLegacy issuer (NamesKey res) res w1 = (None, w')
       else w' = (deleteLegacyFiles issuer (NamesKey res) w1).2.
Proof.
  intros Hmode. rewrite (Save_bundle_branch cs now issuer res w Hmode). unfold bind.
  destruct (saveBundle now issuer (NamesKey res) res w) as [[e |] w1]; [discriminate |].
  intros Hrest. exists w1. split; [reflexivity |].
  destruct (String.eqb (mode cs) StorageModeTransition); [exact Hrest |].
  destruct (deleteLegacyFiles issuer (NamesKey res) w1) as [[] w2].
  injection Hrest as <-. reflexivity.
Qed.

(** X17. What a successful [Save] leaves under the keys of the name. In
    every mode but [bundle], the three legacy keys hold the private key,
    the certificate and the encoded metadata. In transition and in bundle
    mode the bundle key holds the encoding of the bundle. In bundle mode
    each legacy key is gone, or the failure of its removal is in the log. *)
Theorem Save_layout (cs : CertStore) (now : Z) (issuer : string)
    (res : CertificateResource) (w w' : World S) :
  Save cs now issuer res w = (None, w') ->
  let name := NamesKey res in
  (mode cs <> StorageModeBundle ->
     sLoad (store w') (SitePrivateKey issuer name) = Ok (PrivateKeyPEM res)
     /\ sLoad (store w') (SiteCert issuer name) = Ok (CertificatePEM res)
     /\ exists metaBytes,
          MarshalMeta (SANs res) (IssuerData res) = Ok metaBytes
          /\ sLoad (store w') (SiteMeta issuer name) = Ok metaBytes)
  /\ (mode cs = StorageModeTransition \/ mode cs = StorageModeBundle ->
      exists data,
        MarshalBundle (bundleFor (sLoad (store w) (SiteBundle issuer name)) now res) = Ok data
        /\ sLoad (store w') (SiteBundle issuer name) = Ok data)
  /\ (mode cs = StorageModeBundle ->
      dealtWith (SiteCert issuer name) w'
      /\ dealtWith (SitePrivateKey issuer name) w'
      /\ dealtWith (SiteMeta issuer name) w').
Proof.
  intros Hs. cbn zeta.
  assert (Hlegacy : forall w0, saveLegacy issuer (NamesKey res) res w0 = (None, w') ->
     sLoad (store w') (SitePrivateKey issuer (NamesKey res)) = Ok (PrivateKeyPEM res)
     /\ sLoad (store w') (SiteCert issuer (NamesKey res)) = Ok (CertificatePEM res)
     /\ exists metaBytes,
          MarshalMeta (SANs res) (IssuerData res) = Ok metaBytes
          /\ sLoad (store w') (SiteMeta issuer (NamesKey res)) = Ok metaBytes).
  { intros w0 Hl. apply saveLegacy_ok in Hl as (m & Hm & Hk & Hc & Hmeta).
    split; [exact Hk |]. split; [exact Hc |]. exists m. split; assumption. }
  split; [| split].
  - intros Hnb.
    destruct (String.eqb_spec (mode cs) StorageModeTransition) as [Et | Nt].
    + destruct (Save_bundle_inv cs now issuer res w w' (or_introl Et) Hs) as (w1 & _ & Hrest).
      rewrite Et in Hrest. exact (Hlegacy w1 Hrest).
    + rewrite (Save_legacy_branch cs now issuer res Nt Hnb) in Hs. exact (Hlegacy w Hs).
  - intros Hmode.
    destruct (Save_bundle_inv cs now issuer res w w' Hmode Hs) as (w1 & Hb & Hrest).
    apply saveBundle_ok in Hb as (data & Hm & Hload & _).
    exists data. split; [exact Hm |]. rewrite <- Hload.
    pose proof (bundle_key_apart issuer (NamesKey res)) as Hapart.
    revert Hrest. destruct (String.eqb (mode cs) StorageModeTransition); intros Hrest.
    + pose proof (saveLegacy_touches issuer (NamesKey res) res w1) as Ht.
      rewrite Hrest in Ht. apply Ht. exact Hapart.
    + subst w'. apply (deleteLegacyFiles_touches issuer (NamesKey res) w1).
      revert Hapart. keys_solver.
  - intros Hb.
    destruct (Save_bundle_inv cs now issuer res w w' (or_intror Hb) Hs) as (w1 & _ & Hrest).
    rewrite Hb in Hrest. change (String.eqb StorageModeBundle StorageModeTransition)
      with false in Hrest. cbv iota in Hrest. subst w'.
    apply (deleteLegacyFiles_outcome issuer (NamesKey res) w1).
Qed.

(** *** Migrate *)

Lemma saveBundle_log now issuer certKey res (w : World S) :
  logged (saveBundle now issuer certKey res w).2 = logged w.
Proof.
  unfold saveBundle, bind. rewrite storageLoad_run.
  destruct (MarshalBundle _) as [data | e]; [| reflexivity].
  destruct (storageStore _ data w) as [e w2] eqn:Hs.
  apply storageStore_touches in Hs as (_ & Hl & _).
  destruct e; exact Hl.
Qed.

Lemma Migrate_inv cs now issuer domain n (w : World S) :
  ToASCII domain = Ok n ->
  sExists (store w) (SiteBundle issuer n) = false ->
  Migrate cs now issuer domain w =
    if sExists (store w) (SiteCert issuer n) then
      match legacyRead (store w) issuer n with
      | Err err => (Some (Errorf "loading legacy certificate: " err), w)
      | Ok r =>
          match saveBundle now issuer n r w with
          | (Some err, w1) => (Some (Errorf "saving as bundle: " err), w1)
          | (None, w1) =>
              (None,
               (log InfoLevel "migrated certificate to bundle format"
                  [FString "domain" domain; FString "issuer" issuer]
                  (deleteLegacyFiles issuer n w1).2).2)
          end
      end
    else (Some ErrNotExist, w).
Proof.
  intros Hn He. unfold Migrate. rewrite Hn. unfold bind at 1. unfold storageExists at 1.
  rewrite He. unfold bind at 1. unfold storageExists at 1.
  destruct (sExists (store w) (SiteCert issuer n)); cbn [negb]; [| reflexivity].
  unfold bind at 1. rewrite loadLegacy_run.
  destruct (legacyRead (store w) issuer n) as [r | err]; [| reflexivity].
  unfold bind at 1. destruct (saveBundle now issuer n r w) as [[err |] w1]; [reflexivity |].
  unfold bind. destruct (deleteLegacyFiles issuer n w1) as [[] w2]. reflexivity.
Qed.

(** X18. A migration keeps the certificate. When [Migrate] succeeds for a
    name that had no bundle, the legacy read of the state before gave a
    resource, and [Load] in transition and in bundle mode now returns that
    resource: the same names, certificate and key, the issuer data as the
    encoder writes it. The bundle is created and updated at the time of
    the migration, and each legacy key is gone or the failure of its
    removal is in the log. *)
Theorem Migrate_keeps_the_certificate (cs : CertStore) (now : Z)
    (issuer domain n : string) (w w' : World S) :
  ToASCII domain = Ok n ->
  sExists (store w) (SiteBundle issuer n) = false ->
  Migrate cs now issuer domain w = (None, w') ->
  exists legacy migrated b,
    legacyRead (store w) issuer n = Ok legacy
    /\ readBackOf legacy migrated issuer
    /\ (forall cs' name,
          mode cs' = StorageModeTransition \/ mode cs' = StorageModeBundle ->
          ToASCII name = Ok n ->
          (Load cs' issuer name w').1 = Ok migrated)
    /\ storedBundle (store w') (SiteBundle issuer n) = Some b
    /\ CreatedAt b = now /\ UpdatedAt b = now
    /\ dealtWith (SiteCert issuer n) w'
    /\ dealtWith (SitePrivateKey issuer n) w'
    /\ dealtWith (SiteMeta issuer n) w'.
Proof.
  intros Hn He. rewrite (Migrate_inv cs now issuer domain n w Hn He).
  destruct (sExists (store w) (SiteCert issuer n)); [| discriminate].
  destruct (legacyRead (store w) issuer n) as [legacy | err]; [| discriminate].
  destruct (saveBundle now issuer n legacy w) as [[err |] w1] eqn:Hsave; [discriminate |].
  intros [= <-].
  destruct (read_after_saveBundle now issuer n legacy w w1 Hsave) as (data & r & Hl & Hr & Hback).
  pose proof (saveBundle_ok now issuer n legacy w w1 Hsave) as (data' & Hm & Hl' & _).
  rewrite Hl in Hl'. injection Hl' as <-.
  set (w2 := (deleteLegacyFiles issuer n w1).2).
  assert (Hkept : sLoad (store w2) (SiteBundle issuer n) = Ok data).
  { rewrite <- Hl. apply (deleteLegacyFiles_touches issuer n w1).
    pose proof (bundle_key_apart issuer n). keys_solver. }
  destruct (absent_key_does_not_load _ _ He) as (e0 & Habsent).
  exists legacy, r, (wire (bundleFor (sLoad (store w) (SiteBundle issuer n)) now legacy)).
  split; [reflexivity |]. split; [exact Hback |]. split; [| split; [| split; [| split]]].
  - intros cs' name Hmode Hname.
    match goal with |- (Load _ _ _ ?w3).1 = _ =>
      rewrite (Load_bundle_branch cs' issuer name n data w3 Hmode Hname Hkept);
      rewrite (proj1 (decodeBundle_run data issuer w3))
    end. exact Hr.
  - unfold storedBundle. cbn [log store snd]. rewrite Hkept.
    rewrite (bundle_roundtrip _ _ Hm). reflexivity.
  - cbn [wire CreatedAt]. rewrite bundleFor_CreatedAt. unfold storedBundle.
    rewrite Habsent. reflexivity.
  - cbn [wire UpdatedAt]. apply bundleFor_fields.
  - pose proof (deleteLegacyFiles_outcome issuer n w1) as (_ & Hc & Hk & Hmeta).
    fold w2 in Hc, Hk, Hmeta.
    assert (Hlog : forall key, dealtWith key w2 ->
              dealtWith key (log InfoLevel "migrated certificate to bundle format"
                [FString "domain" domain; FString "issuer" issuer] w2).2).
    { intros key [Hgone | (err & Hin)]; [left; exact Hgone |].
      right. exists err. cbn [log logged snd]. apply elem_of_app. left. exact Hin. }
    split; [apply Hlog, Hc |]. split; [apply Hlog, Hk | apply Hlog, Hmeta].
Qed.

(** X19. A migration that fails removes nothing. For a name without a
    bundle: with no legacy certificate [Migrate] returns [fs.ErrNotExist]
    and changes nothing; with a legacy certificate that does not read it
    returns the failure of the read and changes nothing; and whenever
    [Migrate] returns an error, the three legacy keys read as before and
    nothing was logged. *)
Theorem Migrate_failure_removes_nothing (cs : CertStore) (now : Z)
    (issuer domain n : string) (w : World S) :
  ToASCII domain = Ok n ->
  sExists (store w) (SiteBundle issuer n) = false ->
  (sExists (store w) (SiteCert issuer n) = false ->
     Migrate cs now issuer domain w = (Some ErrNotExist, w))
  /\ (forall err,
        sExists (store w) (SiteCert issuer n) = true ->
        legacyRead (store w) issuer n = Err err ->
        Migrate cs now issuer domain w
          = (Some (Errorf "loading legacy certificate: " err), w))
  /\ (forall err w',
        Migrate cs now issuer domain w = (Some err, w') ->
        logged w' = logged w
        /\ forall k, k ∈ [SitePrivateKey issuer n; SiteCert issuer n; SiteMeta issuer n] ->
             sLoad (store w') k = sLoad (store w) k
             /\ sExists (store w') k = sExists (store w) k).
Proof.
  intros Hn He. rewrite (Migrate_inv cs now issuer domain n w Hn He).
  split; [| split].
  - intros ->. reflexivity.
  - intros err -> ->. reflexivity.
  - intros err w'.
    destruct (sExists (store w) (SiteCert issuer n)); [| intros [= _ <-]; auto].
    destruct (legacyRead (store w) issuer n) as [legacy | e]; [| intros [= _ <-]; auto].
    pose proof (saveBundle_log now issuer n legacy w) as Hlog.
    pose proof (saveBundle_touches now issuer n legacy w) as Ht.
    destruct (saveBundle now issuer n legacy w) as [[e |] w1]; [| discriminate].
    intros [= _ <-]. split; [exact Hlog |].
    intros k Hk. apply Ht. apply legacy_keys_apart, Hk.
Qed.

(** *** Delete *)

Lemma removeSitePrefix_touches sitePrefix (w : World S) :
  touchesOnly [sitePrefix] w (removeSitePrefix sitePrefix w).2.
Proof.
  unfold removeSitePrefix, bind, storageExists.
  destruct (sExists (store w) sitePrefix); [| apply touchesOnly_refl].
  destruct (storageDelete sitePrefix w) as [e w1] eqn:Hd.
  apply storageDelete_touches in Hd as (Ht & _ & _).
  destruct e; cbn; exact Ht.
Qed.

Lemma Delete_touches cs issuer domain n (w : World S) :
  ToASCII domain = Ok n ->
  touchesOnly (deletedKeys issuer n) w (Delete cs issuer domain w).2.
Proof.
  intros Hn. destruct (Delete_run cs issuer domain n w Hn) as (w1 & Hw1 & ->). cbn [snd].
  unfold deletedKeys, slot.
  apply (touchesOnly_trans _ w w1 _);
    [| apply (touchesOnly_trans _ w1 (deleteLegacyFiles issuer n w1).2 _)].
  - destruct (sExists (store w) (SiteBundle issuer n)).
    + subst w1. destruct (storageDelete (SiteBundle issuer n) w) as [e w0] eqn:Hd.
      apply storageDelete_touches in Hd as (Ht & _ & _).
      eapply touchesOnly_weaken; [| exact Ht]. keys_solver.
    + subst w1. apply touchesOnly_refl.
  - eapply touchesOnly_weaken; [| apply (deleteLegacyFiles_touches issuer n w1)].
    keys_solver.
  - eapply touchesOnly_weaken; [| apply (removeSitePrefix_touches (CertsSitePrefix issuer n))].
    keys_solver.
Qed.

Lemma Delete_dealt cs issuer domain n (w : World S) :
  ToASCII domain = Ok n ->
  let w' := (Delete cs issuer domain w).2 in
  dealtWith (SiteCert issuer n) w'
  /\ dealtWith (SitePrivateKey issuer n) w'
  /\ dealtWith (SiteMeta issuer n) w'.
Proof.
  intros Hn. cbn zeta.
  destruct (Delete_run cs issuer domain n w Hn) as (w1 & _ & ->). cbn [snd].
  pose proof (deleteLegacyFiles_outcome issuer n w1) as (_ & Hc & Hk & Hm).
  repeat split; apply removeSitePrefix_keeps; assumption.
Qed.

Lemma Delete_bundle_gone cs issuer domain n (w : World S) :
  ToASCII domain = Ok n ->
  (Delete cs issuer domain w).1 = None ->
  sExists (store (Delete cs issuer domain w).2) (SiteBundle issuer n) = false.
Proof.
  intros Hn. destruct (Delete_run cs issuer domain n w Hn) as (w1 & Hw1 & ->).
  cbn [fst snd]. unfold bundleFailure. intros Hnone.
  apply removeSitePrefix_gone.
  rewrite (proj2 (deleteLegacyFiles_touches issuer n w1 (SiteBundle issuer n)
                    ltac:(pose proof (bundle_key_apart issuer n); keys_solver))).
  destruct (sExists (store w) (SiteBundle issuer n)) eqn:He; [| subst w1; exact He].
  subst w1. unfold storageDelete.
  destruct (sDelete (store w) (SiteBundle issuer n)) as [e s'] eqn:Hd.
  cbn [fst snd store] in *. destruct e; [discriminate |].
  eapply exists_delete_eq, Hd.
Qed.

(** X20. Removing one name or saving one name leaves the others readable
    as before: [Load] of a name whose keys are not the ones written or
    removed returns what it returned, in every mode. *)
Theorem other_names_are_undisturbed (cs cs' : CertStore) (now : Z)
    (issuer domain n name' n' : string) (res : CertificateResource) (w : World S) :
  ToASCII name' = Ok n' ->
  (SiteBundle issuer n' <> SiteBundle issuer (NamesKey res) ->
     (Load cs' issuer name' (Save cs now issuer res w).2).1 = (Load cs' issuer name' w).1)
  /\ (ToASCII domain = Ok n ->
      SiteBundle issuer n' <> SiteBundle issuer n ->
      CertsSitePrefix issuer n ∉ slot issuer n' ->
      (Load cs' issuer name' (Delete cs issuer domain w).2).1 = (Load cs' issuer name' w).1).
Proof.
  intros Hname. split.
  - intros Hslot. rewrite !(proj1 (Load_run cs' issuer name' _)).
    apply (loadRead_agree cs' _ _ issuer name' n' Hname).
    intros k Hk. apply (Save_touches cs now issuer res w).
    eapply slots_apart; eassumption.
  - intros Hn Hslot Hprefix. rewrite !(proj1 (Load_run cs' issuer name' _)).
    apply (loadRead_agree cs' _ _ issuer name' n' Hname).
    intros k Hk. apply (Delete_touches cs issuer domain n w Hn).
    pose proof (slots_apart issuer n' n k Hslot Hk) as Hout.
    unfold deletedKeys. intros Hin. apply elem_of_app in Hin as [Hin | Hin].
    + exact (Hout Hin).
    + apply elem_of_cons in Hin as [-> | Hin]; [exact (Hprefix Hk) |].
      apply elem_of_nil in Hin. exact Hin.
Qed.

Section FaultFreeRemoval.
Context {fault_free : FaultFree S}.

(** X21. On a backend whose removals do not fail, [Delete] removes the
    certificate whatever the mode it was saved in: it returns no error,
    none of the four keys of the name exists afterwards, and in every mode
    [Exists] answers [false] and [Load] fails. *)
Theorem Delete_removes_the_certificate (cs : CertStore) (issuer domain n : string)
    (w : World S) :
  ToASCII domain = Ok n ->
  let w' := (Delete cs issuer domain w).2 in
  (Delete cs issuer domain w).1 = None
  /\ (forall k, k ∈ slot issuer n -> sExists (store w') k = false)
  /\ (forall cs' name, ToASCII name = Ok n ->
        (Exists cs' issuer name w').1 = false
        /\ exists err, (Load cs' issuer name w').1 = Err err).
Proof.
  intros Hn. cbn zeta.
  assert (Hnone : (Delete cs issuer domain w).1 = None).
  { destruct (Delete_run cs issuer domain n w Hn) as (w1 & _ & ->). cbn [fst].
    unfold bundleFailure. destruct (sExists (store w) (SiteBundle issuer n)) eqn:He;
      [| reflexivity].
    rewrite (delete_succeeds _ _ He). reflexivity. }
  pose proof (Delete_bundle_gone cs issuer domain n w Hn Hnone) as Hb.
  assert (Hlegacy :
    sExists (store (Delete cs issuer domain w).2) (SiteCert issuer n) = false
    /\ sExists (store (Delete cs issuer domain w).2) (SitePrivateKey issuer n) = false
    /\ sExists (store (Delete cs issuer domain w).2) (SiteMeta issuer n) = false).
  { destruct (Delete_run cs issuer domain n w Hn) as (w1 & _ & ->). cbn [snd].
    pose proof (deleteLegacyFiles_removes issuer n w1) as (Hc & Hk & Hm).
    repeat split; apply removeSitePrefix_gone; assumption. }
  destruct Hlegacy as (Hc & Hk & Hm).
  split; [exact Hnone |]. split.
  - intros k Hin. unfold slot in Hin.
    repeat (apply elem_of_cons in Hin as [-> | Hin]; [assumption |]).
    apply elem_of_nil in Hin. contradiction.
  - intros cs' name Hname. split.
    + assert (Hnone' : forall w0 : World S,
                sExists (store w0) (SiteCert issuer n) = false ->
                (legacyExists issuer n w0).1 = false).
      { intros w0 Hc0. unfold legacyExists, bind, storageExists. rewrite Hc0. reflexivity. }
      unfold Exists. rewrite Hname.
      destruct (String.eqb (mode cs') StorageModeLegacy); [apply Hnone', Hc |].
      destruct (String.eqb (mode cs') StorageModeTransition
                || String.eqb (mode cs') StorageModeBundle); [| apply Hnone', Hc].
      unfold bind, storageExists. rewrite Hb. apply Hnone', Hc.
    + rewrite (proj1 (Load_run cs' issuer name _)). unfold loadRead, legacyRead.
      rewrite Hname.
      destruct (absent_key_does_not_load _ _ Hb) as (eb & ->).
      destruct (absent_key_does_not_load _ _ Hk) as (ek & ->).
      exists ek.
      destruct (String.eqb (mode cs') StorageModeLegacy); [reflexivity |].
      destruct (String.eqb (mode cs') StorageModeTransition
                || String.eqb (mode cs') StorageModeBundle); reflexivity.
Qed.

End FaultFreeRemoval.

(** *** UpdateMetadata *)

(** X22. [UpdateMetadata] stores what the update function returned, under
    the name of the resource it loaded. After a successful call, when that
    name has the keys of the domain, [Load] returns the new issuer data as
    the encoder writes it; when it has other keys the update went there,
    and [Load] for the domain returns the resource it returned before.
    When the certificate does not load, the call fails with the failure of
    the load and writes nothing. *)
Theorem UpdateMetadata_stores_the_update (cs : CertStore) (now : Z)
    (issuer domain n : string) (updateFn : bytes -> result bytes) (w : World S) :
  ToASCII domain = Ok n ->
  ToASCII n = Ok n ->
  (forall w' before raw,
     UpdateMetadata cs now issuer domain updateFn w = (None, w') ->
     (Load cs issuer n w).1 = Ok before ->
     updateFn (IssuerData before) = Ok raw ->
     (SiteBundle issuer n = SiteBundle issuer (NamesKey (setIssuerData before raw)) ->
        exists after,
          (Load cs issuer n w').1 = Ok after /\ IssuerData after = reindent raw)
     /\ (SiteBundle issuer n <> SiteBundle issuer (NamesKey (setIssuerData before raw)) ->
         (Load cs issuer n w').1 = Ok before))
  /\ (forall err,
        (Load cs issuer n w).1 = Err err ->
        (UpdateMetadata cs now issuer domain updateFn w).1
          = Some (Errorf "loading certificate for metadata update: " err)
        /\ store (UpdateMetadata cs now issuer domain updateFn w).2 = store w).
Proof.
  intros Hn Hnn. split.
  - intros w' before raw Hrun Hbefore Hraw.
    apply UpdateMetadata_succeeds_inv in Hrun as (n0 & r & raw0 & w1 & Hn0 & Hl & Hf & Hs).
    rewrite Hn in Hn0. injection Hn0 as <-.
    pose proof (Load_run cs issuer n w) as [Hres Hst].
    rewrite Hl in Hbefore, Hres, Hst. cbn [fst snd] in Hbefore, Hres, Hst.
    injection Hbefore as ->. rewrite Hraw in Hf. injection Hf as <-.
    split.
    + intros Hslot.
      destruct (read_after_Save cs now issuer _ n n w1 w' Hs Hnn Hslot)
        as (after & Hafter & Hback).
      exists after. rewrite (proj1 (Load_run cs issuer n w')).
      split; [exact Hafter |]. destruct Hback as (_ & _ & _ & Hdata & _). exact Hdata.
    + intros Hslot. rewrite (proj1 (Load_run cs issuer n w')). rewrite Hres, <- Hst.
      apply (loadRead_agree cs (store w1) (store w') issuer n n Hnn).
      intros k Hk.
      pose proof (Save_touches cs now issuer (setIssuerData before raw) w1) as Ht.
      rewrite Hs in Ht. cbn [snd] in Ht. apply Ht.
      eapply slots_apart; eassumption.
  - intros err Hl. unfold UpdateMetadata. rewrite Hn. unfold bind.
    pose proof (Load_run cs issuer n w) as [_ Hst].
    destruct (Load cs issuer n w) as [[r | e] w1]; [discriminate |].
    cbn [fst snd] in *. injection Hl as ->. split; [reflexivity | exact Hst].
Qed.

(** *** MoveCompromisedKey *)

Lemma MoveCompromisedKey_inv cs issuer domain n (w : World S) :
  ToASCII domain = Ok n ->
  MoveCompromisedKey cs issuer domain w =
    match (LoadPrivateKey cs issuer n w).1 with
    | Err err => (Some (Errorf "loading private key: " err), w)
    | Ok privKeyPEM =>
        match storageStore (compromisedPath cs issuer n) privKeyPEM w with
        | (Some err, w1) => (Some (Errorf "storing compromised key: " err), w1)
        | (None, w1) =>
            match Delete cs issuer n w1 with
            | (Some err, w2) =>
                (Some (Errorf "deleting certificate with compromised key: " err), w2)
            | (None, w2) =>
                (None,
                 (log InfoLevel "moved compromised private key"
                    [FString "domain" domain; FString "issuer" issuer;
                     FString "compromised_path" (compromisedPath cs issuer n)] w2).2)
            end
        end
    end.
Proof.
  intros Hn. unfold MoveCompromisedKey. rewrite Hn. unfold bind at 1.
  pose proof (LoadPrivateKey_run cs issuer n w) as Hrun.
  destruct (LoadPrivateKey cs issuer n w) as [[privKeyPEM | err] w0];
    cbn [fst snd] in *; subst w0; [| reflexivity].
  unfold bind at 1. fold (compromisedPath cs issuer n).
  destruct (storageStore (compromisedPath cs issuer n) privKeyPEM w) as [[err |] w1];
    [reflexivity |].
  unfold bind at 1. destruct (Delete cs issuer n w1) as [[err |] w2]; reflexivity.
Qed.

(** X23. [MoveCompromisedKey], when it succeeds, has moved the key: the
    compromised location holds the private key [LoadPrivateKey] returned
    before, the bundle key is gone, and each legacy key is gone or the
    failure of its removal is in the log. The compromised location must
    not be one of the keys [Delete] removes. *)
Theorem MoveCompromisedKey_moves_the_key (cs : CertStore) (issuer domain n : string)
    (w w' : World S) :
  ToASCII domain = Ok n ->
  ToASCII n = Ok n ->
  compromisedPath cs issuer n ∉ deletedKeys issuer n ->
  MoveCompromisedKey cs issuer domain w = (None, w') ->
  exists privKeyPEM,
    (LoadPrivateKey cs issuer n w).1 = Ok privKeyPEM
    /\ sLoad (store w') (compromisedPath cs issuer n) = Ok privKeyPEM
    /\ sExists (store w') (SiteBundle issuer n) = false
    /\ dealtWith (SiteCert issuer n) w'
    /\ dealtWith (SitePrivateKey issuer n) w'
    /\ dealtWith (SiteMeta issuer n) w'.
Proof.
  intros Hn Hnn Hout. rewrite (MoveCompromisedKey_inv cs issuer domain n w Hn).
  destruct ((LoadPrivateKey cs issuer n w).1) as [privKeyPEM | err]; [| discriminate].
  destruct (storageStore (compromisedPath cs issuer n) privKeyPEM w) as [[err |] w1] eqn:Hs;
    [discriminate |].
  apply storageStore_touches in Hs as (_ & _ & Hstored). specialize (Hstored eq_refl).
  pose proof (Delete_touches cs issuer n n w1 Hnn) as Ht.
  pose proof (Delete_dealt cs issuer n n w1 Hnn) as Hdealt.
  pose proof (Delete_bundle_gone cs issuer n n w1 Hnn) as Hgone.
  destruct (Delete cs issuer n w1) as [[err |] w2]; [discriminate |].
  cbn [fst snd] in *. cbn zeta in Hdealt. intros [= <-].
  exists privKeyPEM. split; [reflexivity |]. cbn [log store snd].
  split; [rewrite <- Hstored; apply Ht, Hout |].
  split; [apply Hgone; reflexivity |].
  assert (Hlog : forall key, dealtWith key w2 ->
            dealtWith key (log InfoLevel "moved compromised private key"
              [FString "domain" domain; FString "issuer" issuer;
               FString "compromised_path" (compromisedPath cs issuer n)] w2).2).
  { intros key [Hg | (err & Hin)]; [left; exact Hg |].
    right. exists err. cbn [log logged snd]. apply elem_of_app. left. exact Hin. }
  destruct Hdealt as (Hc & Hk & Hm). repeat split; apply Hlog; assumption.
Qed.

(** X24. [MoveCompromisedKey], when it fails, has lost nothing. When the
    private key does not load, the call fails and changes nothing. When
    the write of the compromised location fails, the call fails and only
    that location may read differently. When the removal fails after the
    write, the call fails and the compromised location holds the key. *)
Theorem MoveCompromisedKey_failures_lose_nothing (cs : CertStore)
    (issuer domain n : string) (w : World S) :
  ToASCII domain = Ok n ->
  ToASCII n = Ok n ->
  (forall err,
     (LoadPrivateKey cs issuer n w).1 = Err err ->
     MoveCompromisedKey cs issuer domain w = (Some (Errorf "loading private key: " err), w))
  /\ (forall privKeyPEM err w1,
        (LoadPrivateKey cs issuer n w).1 = Ok privKeyPEM ->
        storageStore (compromisedPath cs issuer n) privKeyPEM w = (Some err, w1) ->
        MoveCompromisedKey cs issuer domain w
          = (Some (Errorf "storing compromised key: " err), w1)
        /\ touchesOnly [compromisedPath cs issuer n] w w1)
  /\ (forall privKeyPEM err w1 w2,
        (LoadPrivateKey cs issuer n w).1 = Ok privKeyPEM ->
        storageStore (compromisedPath cs issuer n) privKeyPEM w = (None, w1) ->
        Delete cs issuer n w1 = (Some err, w2) ->
        compromisedPath cs issuer n ∉ deletedKeys issuer n ->
        MoveCompromisedKey cs issuer domain w
          = (Some (Errorf "deleting certificate with compromised key: " err), w2)
        /\ sLoad (store w2) (compromisedPath cs issuer n) = Ok privKeyPEM).
Proof.
  intros Hn Hnn. rewrite (MoveCompromisedKey_inv cs issuer domain n w Hn).
  split; [| split].
  - intros err ->. reflexivity.
  - intros privKeyPEM err w1 -> Hs. rewrite Hs. split; [reflexivity |].
    apply storageStore_touches in Hs as (Ht & _ & _). exact Ht.
  - intros privKeyPEM err w1 w2 -> Hs Hd Hout. rewrite Hs, Hd. split; [reflexivity |].
    apply storageStore_touches in Hs as (_ & _ & Hstored). rewrite <- (Hstored eq_refl).
    pose proof (Delete_touches cs issuer n n w1 Hnn) as Ht. rewrite Hd in Ht.
    apply Ht, Hout.
Qed.

End StoreCoverage.

(** ** The batch migration *)

Section BatchCoverage.
Import Store.
Context {S : Type} {backend : Storage S} {backend_laws : StorageLaws S}
  {lister : Lister S} {key_builder : KeyBuilder} {key_laws : KeyLaws}
  {prefix_builder : PrefixBuilder} {naming : Naming} {json : Json}.
Local Open Scope list_scope.

Local Ltac keys_solver :=
  try clear key_laws; try clear backend_laws;
  try clear json; try clear naming; set_solver.

Lemma migrateEach_tally cs now issuer certsPrefix items :
  forall t (w : World S) t' w',
    migrateEach cs now issuer certsPrefix items t w = (Returned t', w') ->
    migrated t' + skipped t' + failed t'
      = migrated t + skipped t + failed t + Z.of_nat (length items)
    /\ migrated t <= migrated t'
    /\ skipped t
       + Z.of_nat (length (List.filter (fun item => HasSuffix item bundleSuffix) items))
       <= skipped t'
    /\ failed t <= failed t'.
Proof.
  induction items as [| item rest IH]; intros t w t' w'; cbn [migrateEach].
  - unfold ret. intros [= <- _]. cbn. lia.
  - cbn [List.filter]. destruct (HasSuffix item bundleSuffix).
    { intros Hrun. apply IH in Hrun. cbn [migrated skipped failed] in Hrun.
      cbn [length]. lia. }
    destruct (sliceFrom (String.length certsPrefix + 1) item) as [domain |];
      [| discriminate].
    unfold bind at 1. destruct (Migrate cs (now domain) issuer domain w) as [[err |] w1].
    + destruct (isNotExist err).
      * intros Hrun. apply IH in Hrun. cbn [migrated skipped failed] in Hrun.
        cbn [length]. lia.
      * unfold bind at 1. destruct (log _ _ _ w1) as [[] w2].
        intros Hrun. apply IH in Hrun. cbn [migrated skipped failed] in Hrun.
        cbn [length]. lia.
    + intros Hrun. apply IH in Hrun. cbn [migrated skipped failed] in Hrun.
      cbn [length]. lia.
Qed.

Lemma migrateEach_completion cs now issuer certsPrefix items :
  forall t (w : World S),
    match (migrateEach cs now issuer certsPrefix items t w).1 with
    | Returned _ => existsb (tooShort certsPrefix) items = false
    | Panicked reason =>
        reason = "slice bounds out of range"%string
        /\ existsb (tooShort certsPrefix) items = true
    end.
Proof.
  induction items as [| item rest IH]; intros t w; cbn [migrateEach existsb].
  - reflexivity.
  - unfold tooShort at 1 3. destruct (HasSuffix item bundleSuffix); cbn [negb andb orb].
    { apply IH. }
    unfold sliceFrom.
    destruct (Nat.leb_spec (String.length certsPrefix + 1) (String.length item)) as [Hle | Hlt].
    + apply Nat.ltb_ge in Hle. rewrite Hle. cbn [orb].
      unfold bind at 1.
      destruct (Migrate cs (now _) issuer _ w) as [[err |] w1]; [| apply IH].
      destruct (isNotExist err); [apply IH |].
      unfold bind at 1. destruct (log _ _ _ w1) as [[] w2]. apply IH.
    + apply Nat.ltb_lt in Hlt. rewrite Hlt. cbn. split; reflexivity.
Qed.

Lemma MigrateAll_inv cs now issuer items (w : World S) :
  sList (store w) (CertsPrefix issuer) false = Ok items ->
  MigrateAll cs now issuer w =
    match migrateEach cs now issuer (CertsPrefix issuer) items
            {| migrated := 0; skipped := 0; failed := 0 |} w with
    | (Returned t, w1) =>
        (Returned None,
         {| store := store w1;
            logged := logged w1 ++ [migrationComplete issuer t] |})
    | (Panicked reason, w1) => (Panicked reason, w1)
    end.
Proof.
  intros Hlist. unfold MigrateAll. cbn zeta. unfold bind at 1, storageList at 1.
  rewrite Hlist. unfold bind at 1.
  destruct (migrateEach cs now issuer (CertsPrefix issuer) items _ w) as [[t | reason] w1];
    reflexivity.
Qed.

(** X25. [MigrateAll] counts every item once. When the listing succeeds
    and no item is too short to take a domain from, [MigrateAll] returns
    [nil], whatever became of the single migrations, and the last entry of
    its log carries three counts that are not negative and add up to the
    number of items listed; every item that ends in [.bundle.json] is among
    the skipped. *)
Theorem MigrateAll_counts_every_item (cs : CertStore) (now : string -> Z)
    (issuer : string) (items : list string) (w : World S) :
  sList (store w) (CertsPrefix issuer) false = Ok items ->
  existsb (tooShort (CertsPrefix issuer)) items = false ->
  exists t,
    (MigrateAll cs now issuer w).1 = Returned None
    /\ last (logged (MigrateAll cs now issuer w).2) = Some (migrationComplete issuer t)
    /\ migrated t + skipped t + failed t = Z.of_nat (length items)
    /\ 0 <= migrated t /\ 0 <= failed t
    /\ Z.of_nat (length (List.filter (fun item => HasSuffix item bundleSuffix) items))
       <= skipped t.
Proof.
  intros Hlist Hlong. rewrite (MigrateAll_inv cs now issuer items w Hlist).
  pose proof (migrateEach_completion cs now issuer (CertsPrefix issuer) items
                {| migrated := 0; skipped := 0; failed := 0 |} w) as Hdone.
  destruct (migrateEach cs now issuer (CertsPrefix issuer) items _ w) as [[t | reason] w1]
    eqn:Hrun; cbn [fst] in Hdone.
  2:{ destruct Hdone as [_ Hshort]. congruence. }
  apply migrateEach_tally in Hrun. cbn [migrated skipped failed] in Hrun.
  exists t. cbn [fst snd logged].
  split; [reflexivity |]. split; [apply last_snoc |]. lia.
Qed.

(** X26. [MigrateAll] panics exactly on a listing with an item that is no
    bundle file and is shorter than the prefix and its slash: the slice
    that takes the domain is out of range. On every other listing it
    returns. *)
Theorem MigrateAll_panics_on_a_short_item (cs : CertStore) (now : string -> Z)
    (issuer : string) (items : list string) (w : World S) :
  sList (store w) (CertsPrefix issuer) false = Ok items ->
  ((MigrateAll cs now issuer w).1 = Panicked "slice bounds out of range"
   <-> existsb (tooShort (CertsPrefix issuer)) items = true)
  /\ ((MigrateAll cs now issuer w).1 = Returned None
      <-> existsb (tooShort (CertsPrefix issuer)) items = false).
Proof.
  intros Hlist. rewrite (MigrateAll_inv cs now issuer items w Hlist).
  pose proof (migrateEach_completion cs now issuer (CertsPrefix issuer) items
                {| migrated := 0; skipped := 0; failed := 0 |} w) as Hdone.
  destruct (migrateEach cs now issuer (CertsPrefix issuer) items _ w) as [[t | reason] w1];
    cbn [fst] in Hdone.
  - cbn [fst]. rewrite Hdone. split; split; try discriminate; reflexivity.
  - destruct Hdone as [-> Hshort]. cbn [fst]. rewrite Hshort.
    split; split; try discriminate; reflexivity.
Qed.

(** X27. The only error [MigrateAll] returns is the failure of the
    listing: a failed migration of an item is logged and counted, never
    returned; and a listing that fails because the folder does not exist is
    no error. *)
Theorem MigrateAll_reports_only_the_listing (cs : CertStore) (now : string -> Z)
    (issuer : string) (w : World S) :
  (forall err,
     (MigrateAll cs now issuer w).1 = Returned (Some err) ->
     exists cause,
       sList (store w) (CertsPrefix issuer) false = Err cause
       /\ isNotExist cause = false
       /\ err = Errorf "listing certificates: " cause)
  /\ (forall cause,
        sList (store w) (CertsPrefix issuer) false = Err cause ->
        MigrateAll cs now issuer w
          = (Returned (if isNotExist cause then None
                       else Some (Errorf "listing certificates: " cause)), w)).
Proof.
  destruct (sList (store w) (CertsPrefix issuer) false) as [items | cause] eqn:Hlist.
  - rewrite (MigrateAll_inv cs now issuer items w Hlist).
    split; [| discriminate]. intros err.
    destruct (migrateEach cs now issuer (CertsPrefix issuer) items _ w) as [[t | reason] w1];
      discriminate.
  - assert (Hrun : MigrateAll cs now issuer w
              = (Returned (if isNotExist cause then None
                           else Some (Errorf "listing certificates: " cause)), w)).
    { unfold MigrateAll. cbn zeta. unfold bind, storageList. rewrite Hlist.
      destruct (isNotExist cause); reflexivity. }
    split.
    + intros err. rewrite Hrun. cbn [fst].
      destruct (isNotExist cause) eqn:Hne; [discriminate |].
      intros [= <-]. exists cause. split; [reflexivity |]. split; [exact Hne | reflexivity].
    + intros cause' [= <-]. exact Hrun.
Qed.

Lemma Migrate_touches cs now issuer domain (w : World S) :
  match ToASCII domain with
  | Ok n => touchesOnly (slot issuer n) w (Migrate cs now issuer domain w).2
  | Err _ => (Migrate cs now issuer domain w).2 = w
  end.
Proof.
  destruct (ToASCII domain) as [n | e] eqn:Hn; [| unfold Migrate; rewrite Hn; reflexivity].
  destruct (sExists (store w) (SiteBundle issuer n)) eqn:He.
  { rewrite (Migrate_already_migrated cs now issuer domain n w Hn He). apply touchesOnly_refl. }
  rewrite (Migrate_inv cs now issuer domain n w Hn He).
  destruct (sExists (store w) (SiteCert issuer n)); [| apply touchesOnly_refl].
  destruct (legacyRead (store w) issuer n) as [r | err]; [| apply touchesOnly_refl].
  pose proof (saveBundle_touches now issuer n r w) as Ht.
  destruct (saveBundle now issuer n r w) as [[err |] w1]; cbn [snd] in *.
  - eapply touchesOnly_weaken; [| exact Ht]. unfold slot. keys_solver.
  - apply (touchesOnly_trans _ w w1 _).
    + eapply touchesOnly_weaken; [| exact Ht]. unfold slot. keys_solver.
    + eapply touchesOnly_weaken; [| apply (deleteLegacyFiles_touches issuer n w1)].
      unfold slot. keys_solver.
Qed.

Lemma migrateEach_touches cs now issuer certsPrefix k items :
  (forall item domain n,
     item ∈ items -> HasSuffix item bundleSuffix = false ->
     sliceFrom (String.length certsPrefix + 1) item = Some domain ->
     ToASCII domain = Ok n -> k ∉ slot issuer n) ->
  forall t (w : World S),
    sameAt k w (migrateEach cs now issuer certsPrefix items t w).2.
Proof.
  assert (Htrans : forall w1 w2 w3 : World S,
            sameAt k w1 w2 -> sameAt k w2 w3 -> sameAt k w1 w3).
  { intros w1 w2 w3 [L12 E12] [L23 E23]. split; congruence. }
  induction items as [| item rest IH]; intros Hout t w; cbn [migrateEach].
  - split; reflexivity.
  - assert (Hrest : forall item domain n,
              item ∈ rest -> HasSuffix item bundleSuffix = false ->
              sliceFrom (String.length certsPrefix + 1) item = Some domain ->
              ToASCII domain = Ok n -> k ∉ slot issuer n).
    { intros item' domain n Hin. apply Hout. apply elem_of_cons. right. exact Hin. }
    specialize (IH Hrest).
    destruct (HasSuffix item bundleSuffix) eqn:Hsuffix; [apply IH |].
    destruct (sliceFrom (String.length certsPrefix + 1) item) as [domain |] eqn:Hslice;
      [| split; reflexivity].
    assert (Hone : sameAt k w (Migrate cs (now domain) issuer domain w).2).
    { pose proof (Migrate_touches cs (now domain) issuer domain w) as Ht.
      destruct (ToASCII domain) as [n | e] eqn:Hn; [| rewrite Ht; split; reflexivity].
      apply Ht. eapply Hout; [apply elem_of_cons; left; reflexivity | eassumption ..]. }
    unfold bind at 1. destruct (Migrate cs (now domain) issuer domain w) as [[err |] w1];
      cbn [snd] in Hone.
    + destruct (isNotExist err).
      * apply (Htrans w w1 _ Hone). apply IH.
      * unfold bind at 1, log at 1. apply (Htrans w w1 _ Hone).
        match goal with |- context [migrateEach _ _ _ _ _ ?t2 ?w2] =>
          exact (IH t2 w2) end.
    + apply (Htrans w w1 _ Hone). apply IH.
Qed.

(** X28. [MigrateAll] writes nothing but the keys of the names it was
    given: a key that is in the slot of no listed name reads after the
    batch as before, and the items that end in [.bundle.json] give it no
    name. *)
Theorem MigrateAll_stays_with_the_listing (cs : CertStore) (now : string -> Z)
    (issuer : string) (items : list string) (k : string) (w : World S) :
  sList (store w) (CertsPrefix issuer) false = Ok items ->
  (forall item domain n,
     item ∈ items -> HasSuffix item bundleSuffix = false ->
     sliceFrom (String.length (CertsPrefix issuer) + 1) item = Some domain ->
     ToASCII domain = Ok n -> k ∉ slot issuer n) ->
  sameAt k w (MigrateAll cs now issuer w).2.
Proof.
  intros Hlist Hout. rewrite (MigrateAll_inv cs now issuer items w Hlist).
  pose proof (migrateEach_touches cs now issuer (CertsPrefix issuer) k items Hout
                {| migrated := 0; skipped := 0; failed := 0 |} w) as Hkeep.
  destruct (migrateEach cs now issuer (CertsPrefix issuer) items _ w) as [[t | reason] w1];
    cbn [snd] in Hkeep; exact Hkeep.
Qed.

End BatchCoverage.

(** ** Scenarios on the reference collaborators *)

Import Store Reference Codec Scenario.

Example save_then_load_in_each_mode :
  map (fun cs => ((Save cs 5 "acme" certRes empty).1, (Load cs "acme" "example.com" (savedBy cs)).1))
    [legacyStore; transitionStore; bundleStore]
  = [(None, Ok readBack); (None, Ok readBack); (None, Ok readBack)].
Proof. vm_compute. reflexivity. Qed.

(** C10, at the mode [archive]: saving the test resource into an empty
    backend does what the legacy store does. *)
Lemma unknown_mode_witness :
  Save (NewCertStoreWithMode "archive") 5 "acme" certRes empty
  = Save legacyStore 5 "acme" certRes empty.
Proof.
  refine (proj1 (unknown_mode_is_legacy (S := gmap string bytes) "archive" _)
            5 "acme" certRes empty).
  repeat split; discriminate.
Defined.

(** C2, in bundle mode on a backend that holds the legacy files only: the
    bundle key does not load and [Load] is the legacy read. *)
Lemma Load_falls_back_witness :
  Load bundleStore "acme" "example.com" (savedBy legacyStore)
  = loadLegacy "acme" "example.com" (savedBy legacyStore).
Proof.
  refine (proj1 (Load_tries_the_bundle_first (S := gmap string bytes) bundleStore
                   "acme" "example.com" "example.com" (savedBy legacyStore) _ _)
            ErrNotExist _).
  - right. reflexivity.
  - reflexivity.
  - vm_compute. reflexivity.
Defined.

(** C2, the claim as stated fails when the bundle payload is there and does
    not decode: in transition and in bundle mode [Load] returns the decode
    error, and the full legacy read of the same state returns the
    resource. *)
Lemma Load_returns_the_decode_error :
  (Load transitionStore "acme" "example.com" brokenBundle).1
    = Err (ErrText "decoding certificate bundle: invalid JSON document")
  /\ (Load bundleStore "acme" "example.com" brokenBundle).1
    = Err (ErrText "decoding certificate bundle: invalid JSON document")
  /\ (loadLegacy "acme" "example.com" brokenBundle).1 = Ok readBack.
Proof. vm_compute. repeat split. Qed.



(** C4, on the legacy files of the test resource: two migrations. *)
Lemma Migrate_twice_witness :
  exists w1,
    Migrate bundleStore 6 "acme" "example.com" (savedBy legacyStore) = (None, w1)
    /\ Migrate bundleStore 7 "acme" "example.com" w1 = (None, w1)
    /\ sExists (store w1) (SiteBundle "acme" "example.com") = true
    /\ sExists (store w1) (SiteCert "acme" "example.com") = false
    /\ sExists (store w1) (SitePrivateKey "acme" "example.com") = false
    /\ sExists (store w1) (SiteMeta "acme" "example.com") = false.
Proof.
  refine (proj2 (Migrate_idempotent (S := gmap string bytes) bundleStore
                   "acme" "example.com" "example.com" (savedBy legacyStore) _)
            6 7 {| SANs := ["example.com"]; CertificatePEM := B "certificate";
                   PrivateKeyPEM := B "private key"; IssuerData := B testDataWritten;
                   issuerKey := "acme" |} _ _ _).
  - reflexivity.
  - vm_compute. reflexivity.
  - vm_compute. reflexivity.
  - vm_compute. reflexivity.
Defined.

(** C4, the claim as stated fails for a name that has a legacy certificate
    beside a bundle, as the transition mode leaves it: two migrations
    succeed and change nothing, and the three legacy keys are still
    there. *)
Lemma Migrate_keeps_legacy_keys_beside_a_bundle :
  let w := savedBy transitionStore in
  let w1 := (Migrate bundleStore 6 "acme" "example.com" w).2 in
  let w2 := (Migrate bundleStore 7 "acme" "example.com" w1).2 in
  (legacyRead (store w) "acme" "example.com" = Ok readBack
   /\ (Migrate bundleStore 6 "acme" "example.com" w).1 = None
   /\ (Migrate bundleStore 7 "acme" "example.com" w1).1 = None)
  /\ map (sExists (store w2)) allKeys = [true; true; true; true].
Proof. split; [vm_compute; repeat split | vm_compute; reflexivity]. Qed.

(** C5, on the backend that protects every key of the name: the bundle
    failure is what [Delete] returns. *)
Lemma Delete_witness :
  let outcome := Delete legacyStore "acme" "example.com" (guarded allKeys) in
  (forall cs', Delete cs' "acme" "example.com" (guarded allKeys) = outcome)
  /\ outcome.1 = bundleFailure (store (guarded allKeys)) (SiteBundle "acme" "example.com")
  /\ (sExists (store outcome.2) (SiteBundle "acme" "example.com") = false \/ outcome.1 <> None)
  /\ dealtWith (SiteCert "acme" "example.com") outcome.2
  /\ dealtWith (SitePrivateKey "acme" "example.com") outcome.2
  /\ dealtWith (SiteMeta "acme" "example.com") outcome.2.
Proof.
  refine (Delete_reports_the_bundle_failure (S := Guarded) legacyStore
            "acme" "example.com" "example.com" (guarded allKeys) _).
  reflexivity.
Defined.

(** C5, the claim as stated fails on the legacy keys. When the backend
    refuses to remove any key of the name, [Delete] returns the bundle
    failure alone; when it refuses the three legacy keys only, [Delete]
    returns no error at all. In both cases the three legacy keys are still
    there, and their three failures are in the log and nowhere else. *)
Lemma Delete_drops_the_legacy_failures :
  (Delete bundleStore "acme" "example.com" (guarded allKeys)).1
    = Some (ErrJoin [ErrText "deleting bundle: permission denied"])
  /\ (Delete bundleStore "acme" "example.com" (guarded legacyKeys)).1 = None
  /\ map (sExists (store (Delete bundleStore "acme" "example.com" (guarded legacyKeys)).2))
       legacyKeys = [true; true; true]
  /\ logged (Delete bundleStore "acme" "example.com" (guarded legacyKeys)).2
     = map (fun k => couldNotDelete k permissionDenied) legacyKeys.
Proof. vm_compute. repeat split. Qed.

(** C6, on the bundle that the bundle mode stored at time 5: a write at
    time 9. *)
Lemma saveBundle_timestamps_witness :
  exists written,
    storedBundle (store (saveBundle 9 "acme" "example.com" certRes (savedBy bundleStore)).2)
      (SiteBundle "acme" "example.com") = Some written
    /\ UpdatedAt written = 9
    /\ (forall prior,
          storedBundle (store (savedBy bundleStore)) (SiteBundle "acme" "example.com")
            = Some prior ->
          CreatedAt prior <> zeroTime -> CreatedAt written = CreatedAt prior)
    /\ (forall prior,
          storedBundle (store (savedBy bundleStore)) (SiteBundle "acme" "example.com")
            = Some prior ->
          CreatedAt prior = zeroTime -> CreatedAt written = UpdatedAt written)
    /\ (storedBundle (store (savedBy bundleStore)) (SiteBundle "acme" "example.com") = None ->
          CreatedAt written = UpdatedAt written).
Proof.
  refine (saveBundle_timestamps (S := gmap string bytes) 9 "acme" "example.com" certRes
            (savedBy bundleStore) _ _).
  vm_compute. reflexivity.
Defined.

(** The three writes of the life of a bundle: created at 5, updated at 9
    and at 12. *)
Example bundle_lifetime :
  let w1 := (saveBundle 5 "acme" "example.com" certRes empty).2 in
  let w2 := (saveBundle 9 "acme" "example.com" certRes w1).2 in
  let w3 := (saveBundle 12 "acme" "example.com" certRes w2).2 in
  map (fun w => option_map (fun b => (CreatedAt b, UpdatedAt b))
                  (storedBundle (store w) (SiteBundle "acme" "example.com")))
    [empty; w1; w2; w3]
  = [None; Some (5, 5); Some (5, 9); Some (5, 12)].
Proof. vm_compute. reflexivity. Qed.

(** C6, the claim as stated fails for a prior bundle whose [CreatedAt] is
    the zero time: the bundle is there and decodes, and the write at
    time 9 stores 9 as the creation time, not the prior one. *)
Lemma saveBundle_sets_an_unset_CreatedAt :
  option_map CreatedAt (storedBundle (store undated) (SiteBundle "acme" "example.com"))
    = Some zeroTime
  /\ (saveBundle 9 "acme" "example.com" certRes undated).1 = None
  /\ option_map CreatedAt
       (storedBundle (store (saveBundle 9 "acme" "example.com" certRes undated).2)
          (SiteBundle "acme" "example.com"))
    = Some 9.
Proof. vm_compute. repeat split. Qed.

(** C7, in bundle mode on the stored test resource: an update that
    succeeds. *)
Lemma UpdateMetadata_witness :
  exists before after,
    (Load bundleStore "acme" "example.com" (savedBy bundleStore)).1 = Ok before
    /\ (Load bundleStore "acme" "example.com"
          (UpdateMetadata bundleStore 9 "acme" "example.com" renewalInfo
             (savedBy bundleStore)).2).1 = Ok after
    /\ CertificatePEM after = CertificatePEM before
    /\ PrivateKeyPEM after = PrivateKeyPEM before
    /\ SANs after = SANs before.
Proof.
  refine (proj1 (UpdateMetadata_keeps_certificate_and_key (S := gmap string bytes)
                   bundleStore 9 "acme" "example.com" "example.com" renewalInfo
                   (savedBy bundleStore) _) _ _).
  - reflexivity.
  - vm_compute. reflexivity.
Defined.

(** The update of the tests and a failing one, in each mode: the issuer
    data changes or nothing does. *)
Example update_in_each_mode :
  map (fun cs =>
         let w := savedBy cs in
         let ok := UpdateMetadata cs 9 "acme" "example.com" renewalInfo w in
         let failed := UpdateMetadata cs 9 "acme" "example.com" failingUpdate w in
         (ok.1,
          match (Load cs "acme" "example.com" ok.2).1 with
          | Ok r => Some (S_ (CertificatePEM r), S_ (PrivateKeyPEM r))
          | Err _ => None
          end,
          failed.1, map_to_list (store failed.2)))
    [legacyStore; transitionStore; bundleStore]
  = map (fun cs =>
           (None, Some ("certificate", "private key"),
            Some (ErrText "updating metadata: no renewal info"),
            map_to_list (store (savedBy cs))))
      [legacyStore; transitionStore; bundleStore].
Proof. vm_compute. reflexivity. Qed.

(** ** Further scenarios on the reference collaborators *)

(** X9, on a bundle of version 2: [Load] returns its resource and logs the
    warning. *)
Lemma Load_accepts_any_version_witness :
  (Load transitionStore "acme" "example.com" later).1
    = Ok {| SANs := bSANs laterBundle; CertificatePEM := bCertificatePEM laterBundle;
            PrivateKeyPEM := bPrivateKeyPEM laterBundle;
            IssuerData := bIssuerData laterBundle; issuerKey := "acme" |}
  /\ store (Load transitionStore "acme" "example.com" later).2 = store later
  /\ logged (Load transitionStore "acme" "example.com" later).2
     = if Z.ltb BundleVersion (Version laterBundle)
       then (logged later ++ [versionWarning (Version laterBundle)])%list
       else logged later.
Proof.
  refine (Load_accepts_any_version (S := gmap string bytes) transitionStore
            "acme" "example.com" "example.com" (encodeBundle laterBundle) laterBundle
            later _ _ _ _).
  - left. reflexivity.
  - reflexivity.
  - vm_compute. reflexivity.
  - vm_compute. reflexivity.
Defined.

(** X10, in bundle mode on the stored test resource. *)
Lemma LoadPrivateKey_agrees_with_Load_witness :
  (LoadPrivateKey bundleStore "acme" "example.com" (savedBy bundleStore)).1
  = Ok (PrivateKeyPEM readBack).
Proof.
  refine (LoadPrivateKey_agrees_with_Load (S := gmap string bytes) bundleStore
            "acme" "example.com" readBack (savedBy bundleStore) _).
  vm_compute. reflexivity.
Defined.

(** X11, in transition mode on the legacy files: the fallback of [Load]
    is the fallback of [Exists]. *)
Lemma Load_then_Exists_witness :
  (Exists transitionStore "acme" "example.com" (savedBy legacyStore)).1 = true.
Proof.
  refine (Load_then_Exists (S := gmap string bytes) transitionStore
            "acme" "example.com" readBack (savedBy legacyStore) _).
  vm_compute. reflexivity.
Defined.

(** X12, in bundle mode on the legacy files. *)
Lemma readers_without_a_bundle_witness :
  Load bundleStore "acme" "example.com" (savedBy legacyStore)
    = loadLegacy "acme" "example.com" (savedBy legacyStore)
  /\ Exists bundleStore "acme" "example.com" (savedBy legacyStore)
    = legacyExists "acme" "example.com" (savedBy legacyStore)
  /\ LoadPrivateKey bundleStore "acme" "example.com" (savedBy legacyStore)
    = storageLoad (SitePrivateKey "acme" "example.com") (savedBy legacyStore).
Proof.
  refine (readers_without_a_bundle (S := gmap string bytes) bundleStore
            "acme" "example.com" "example.com" (savedBy legacyStore) _ _).
  - reflexivity.
  - vm_compute. reflexivity.
Defined.


(** X14, in bundle mode on a backend that protects the bundle key. *)
Lemma Save_fails_closed_witness :
  let w := guarded [SiteBundle "acme" "example.com"] in
  let err := Errorf "storing certificate bundle: " permissionDenied in
  Save bundleStore 6 "acme" certRes w = (Some err, w)
  /\ logged w = logged w
  /\ forall k, k ∈ [SitePrivateKey "acme" (NamesKey certRes);
                    SiteCert "acme" (NamesKey certRes);
                    SiteMeta "acme" (NamesKey certRes)] ->
       sLoad (store w) k = sLoad (store w) k /\ sExists (store w) k = sExists (store w) k.
Proof.
  refine (Save_fails_closed (S := Guarded) bundleStore 6 "acme" certRes
            (Errorf "storing certificate bundle: " permissionDenied)
            (guarded [SiteBundle "acme" "example.com"])
            (guarded [SiteBundle "acme" "example.com"]) _ _).
  - right. reflexivity.
  - vm_compute. reflexivity.
Defined.

(** X15, in transition mode on a backend that protects the certificate
    key: the legacy write fails and the bundle of time 6 stays. *)
Lemma Save_transition_keeps_the_new_bundle_witness :
  let w := guarded [SiteCert "acme" "example.com"] in
  let w1 := (saveBundle 6 "acme" "example.com" certRes w).2 in
  let w2 := (saveLegacy "acme" "example.com" certRes w1).2 in
  Save transitionStore 6 "acme" certRes w = (Some permissionDenied, w2)
  /\ exists data,
       MarshalBundle (bundleFor (sLoad (store w) (SiteBundle "acme" (NamesKey certRes)))
                        6 certRes) = Ok data
       /\ sLoad (store w2) (SiteBundle "acme" (NamesKey certRes)) = Ok data.
Proof.
  refine (Save_transition_keeps_the_new_bundle (S := Guarded) transitionStore 6 "acme"
            certRes permissionDenied (guarded [SiteCert "acme" "example.com"])
            (saveBundle 6 "acme" "example.com" certRes
               (guarded [SiteCert "acme" "example.com"])).2
            (saveLegacy "acme" "example.com" certRes
               (saveBundle 6 "acme" "example.com" certRes
                  (guarded [SiteCert "acme" "example.com"])).2).2 _ _ _).
  - reflexivity.
  - vm_compute. reflexivity.
  - vm_compute. reflexivity.
Defined.

(** X16, in bundle mode. *)
Lemma Save_then_Exists_witness :
  (Exists bundleStore "acme" (NamesKey certRes) (savedBy bundleStore)).1 = true.
Proof.
  refine (Save_then_Exists (S := gmap string bytes) bundleStore 5 "acme" certRes empty
            (savedBy bundleStore) _ _).
  - vm_compute. reflexivity.
  - reflexivity.
Defined.

(** X17, a save in bundle mode over the legacy files. *)
Lemma Save_layout_witness :
  let w := savedBy legacyStore in
  let w' := (Save bundleStore 6 "acme" certRes w).2 in
  let name := NamesKey certRes in
  (mode bundleStore <> StorageModeBundle ->
     sLoad (store w') (SitePrivateKey "acme" name) = Ok (PrivateKeyPEM certRes)
     /\ sLoad (store w') (SiteCert "acme" name) = Ok (CertificatePEM certRes)
     /\ exists metaBytes,
          MarshalMeta (SANs certRes) (IssuerData certRes) = Ok metaBytes
          /\ sLoad (store w') (SiteMeta "acme" name) = Ok metaBytes)
  /\ (mode bundleStore = StorageModeTransition \/ mode bundleStore = StorageModeBundle ->
      exists data,
        MarshalBundle (bundleFor (sLoad (store w) (SiteBundle "acme" name)) 6 certRes) = Ok data
        /\ sLoad (store w') (SiteBundle "acme" name) = Ok data)
  /\ (mode bundleStore = StorageModeBundle ->
      dealtWith (SiteCert "acme" name) w'
      /\ dealtWith (SitePrivateKey "acme" name) w'
      /\ dealtWith (SiteMeta "acme" name) w').
Proof.
  refine (Save_layout (S := gmap string bytes) bundleStore 6 "acme" certRes
            (savedBy legacyStore) (Save bundleStore 6 "acme" certRes (savedBy legacyStore)).2 _).
  vm_compute. reflexivity.
Defined.

(** X18, the migration of the legacy files of the test resource at
    time 6. *)
Lemma Migrate_keeps_the_certificate_witness :
  let w := savedBy legacyStore in
  let w' := (Migrate bundleStore 6 "acme" "example.com" w).2 in
  exists legacy migrated b,
    legacyRead (store w) "acme" "example.com" = Ok legacy
    /\ readBackOf legacy migrated "acme"
    /\ (forall cs' name,
          mode cs' = StorageModeTransition \/ mode cs' = StorageModeBundle ->
          ToASCII name = Ok "example.com" ->
          (Load cs' "acme" name w').1 = Ok migrated)
    /\ storedBundle (store w') (SiteBundle "acme" "example.com") = Some b
    /\ CreatedAt b = 6 /\ UpdatedAt b = 6
    /\ dealtWith (SiteCert "acme" "example.com") w'
    /\ dealtWith (SitePrivateKey "acme" "example.com") w'
    /\ dealtWith (SiteMeta "acme" "example.com") w'.
Proof.
  refine (Migrate_keeps_the_certificate (S := gmap string bytes) bundleStore 6
            "acme" "example.com" "example.com" (savedBy legacyStore)
            (Migrate bundleStore 6 "acme" "example.com" (savedBy legacyStore)).2 _ _ _).
  - reflexivity.
  - vm_compute. reflexivity.
  - vm_compute. reflexivity.
Defined.

(** X19, on an empty backend: there is nothing to migrate. *)
Lemma Migrate_failure_removes_nothing_witness :
  Migrate bundleStore 6 "acme" "example.com" empty = (Some ErrNotExist, empty).
Proof.
  refine (proj1 (Migrate_failure_removes_nothing (S := gmap string bytes) bundleStore 6
                   "acme" "example.com" "example.com" empty _ _) _).
  - reflexivity.
  - vm_compute. reflexivity.
  - vm_compute. reflexivity.
Defined.

(** X20, the removal of another name beside the test resource. *)
Lemma other_names_are_undisturbed_witness :
  (Load bundleStore "acme" "example.com"
     (Delete legacyStore "acme" "other.org" (savedBy bundleStore)).2).1
  = (Load bundleStore "acme" "example.com" (savedBy bundleStore)).1.
Proof.
  refine (proj2 (other_names_are_undisturbed (S := gmap string bytes) legacyStore bundleStore
                   6 "acme" "other.org" "other.org" "example.com" "example.com" certRes
                   (savedBy bundleStore) _) _ _ _).
  - reflexivity.
  - reflexivity.
  - discriminate.
  - apply (bool_decide_unpack _). vm_compute. reflexivity.
Defined.

(** X21, the removal of what the transition mode saved. *)
Lemma Delete_removes_the_certificate_witness :
  let w' := (Delete legacyStore "acme" "example.com" (savedBy transitionStore)).2 in
  (Delete legacyStore "acme" "example.com" (savedBy transitionStore)).1 = None
  /\ (forall k, k ∈ slot "acme" "example.com" -> sExists (store w') k = false)
  /\ (forall cs' name, ToASCII name = Ok "example.com" ->
        (Exists cs' "acme" name w').1 = false
        /\ exists err, (Load cs' "acme" name w').1 = Err err).
Proof.
  refine (Delete_removes_the_certificate (S := gmap string bytes) legacyStore
            "acme" "example.com" "example.com" (savedBy transitionStore) _).
  reflexivity.
Defined.

(** X22, the update of the tests in bundle mode. *)
Lemma UpdateMetadata_stores_the_update_witness :
  let w' := (UpdateMetadata bundleStore 9 "acme" "example.com" renewalInfo
               (savedBy bundleStore)).2 in
  exists after,
    (Load bundleStore "acme" "example.com" w').1 = Ok after
    /\ IssuerData after = reindent (B ("{" ++ quoted "updated" ++ ": " ++ quoted "metadata" ++ "}")).
Proof.
  refine (proj1 (proj1 (UpdateMetadata_stores_the_update (S := gmap string bytes)
                          bundleStore 9 "acme" "example.com" "example.com" renewalInfo
                          (savedBy bundleStore) _ _)
                   (UpdateMetadata bundleStore 9 "acme" "example.com" renewalInfo
                      (savedBy bundleStore)).2
                   readBack
                   (B ("{" ++ quoted "updated" ++ ": " ++ quoted "metadata" ++ "}")) _ _ _) _).
  - reflexivity.
  - reflexivity.
  - vm_compute. reflexivity.
  - vm_compute. reflexivity.
  - reflexivity.
  - reflexivity.
Defined.

(** X23, in bundle mode on the stored test resource. *)
Lemma MoveCompromisedKey_moves_the_key_witness :
  let w' := (MoveCompromisedKey bundleStore "acme" "example.com" (savedBy bundleStore)).2 in
  exists privKeyPEM,
    (LoadPrivateKey bundleStore "acme" "example.com" (savedBy bundleStore)).1 = Ok privKeyPEM
    /\ sLoad (store w') (compromisedPath bundleStore "acme" "example.com") = Ok privKeyPEM
    /\ sExists (store w') (SiteBundle "acme" "example.com") = false
    /\ dealtWith (SiteCert "acme" "example.com") w'
    /\ dealtWith (SitePrivateKey "acme" "example.com") w'
    /\ dealtWith (SiteMeta "acme" "example.com") w'.
Proof.
  refine (MoveCompromisedKey_moves_the_key (S := gmap string bytes) bundleStore
            "acme" "example.com" "example.com" (savedBy bundleStore)
            (MoveCompromisedKey bundleStore "acme" "example.com" (savedBy bundleStore)).2
            _ _ _ _).
  - reflexivity.
  - reflexivity.
  - apply (bool_decide_unpack _). vm_compute. reflexivity.
  - vm_compute. reflexivity.
Defined.

(** X24, in bundle mode on a backend that protects the bundle key: the
    removal fails, and the key is at the compromised location. *)
Lemma MoveCompromisedKey_failures_lose_nothing_witness :
  let w := guarded [SiteBundle "acme" "example.com"] in
  let w1 := (storageStore (compromisedPath bundleStore "acme" "example.com")
               (B "private key") w).2 in
  let err := ErrJoin [Errorf "deleting bundle: " permissionDenied] in
  let w2 := (Delete bundleStore "acme" "example.com" w1).2 in
  MoveCompromisedKey bundleStore "acme" "example.com" w
    = (Some (Errorf "deleting certificate with compromised key: " err), w2)
  /\ sLoad (store w2) (compromisedPath bundleStore "acme" "example.com")
     = Ok (B "private key").
Proof.
  refine (proj2 (proj2 (MoveCompromisedKey_failures_lose_nothing (S := Guarded) bundleStore
                          "acme" "example.com" "example.com"
                          (guarded [SiteBundle "acme" "example.com"]) _ _))
            (B "private key") (ErrJoin [Errorf "deleting bundle: " permissionDenied])
            (storageStore (compromisedPath bundleStore "acme" "example.com")
               (B "private key") (guarded [SiteBundle "acme" "example.com"])).2
            (Delete bundleStore "acme" "example.com"
               (storageStore (compromisedPath bundleStore "acme" "example.com")
                  (B "private key") (guarded [SiteBundle "acme" "example.com"])).2).2
            _ _ _ _).
  - reflexivity.
  - reflexivity.
  - vm_compute. reflexivity.
  - vm_compute. reflexivity.
  - vm_compute. reflexivity.
  - apply (bool_decide_unpack _). vm_compute. reflexivity.
Defined.

(** X25, on the folder of the issuer [acme]: one bundle file is skipped
    and one certificate is migrated. *)
Lemma MigrateAll_counts_every_item_witness :
  exists t,
    (MigrateAll legacyStore at7 "acme" folders).1 = Returned None
    /\ last (logged (MigrateAll legacyStore at7 "acme" folders).2)
       = Some (migrationComplete "acme" t)
    /\ migrated t + skipped t + failed t = 2
    /\ 0 <= migrated t /\ 0 <= failed t
    /\ 1 <= skipped t.
Proof.
  refine (MigrateAll_counts_every_item (S := gmap string bytes) legacyStore at7 "acme"
            ["site/acme/other.bundle.json"; "site/acme/example.com"] folders _ _).
  - vm_compute. reflexivity.
  - vm_compute. reflexivity.
Defined.

(** X26, on the same folder: no item is too short, and the batch
    returns. *)
Lemma MigrateAll_panics_on_a_short_item_witness :
  (MigrateAll legacyStore at7 "acme" folders).1 = Returned None.
Proof.
  refine (proj2 (proj2 (MigrateAll_panics_on_a_short_item (S := gmap string bytes)
                          legacyStore at7 "acme"
                          ["site/acme/other.bundle.json"; "site/acme/example.com"]
                          folders _)) _).
  - vm_compute. reflexivity.
  - vm_compute. reflexivity.
Defined.

(** X28, on the same folder: the bundle file beside the site folder is
    not read as a name, and its key is left alone. *)
Lemma MigrateAll_stays_with_the_listing_witness :
  sameAt "site/acme/other.bundle.json" folders (MigrateAll legacyStore at7 "acme" folders).2.
Proof.
  refine (MigrateAll_stays_with_the_listing (S := gmap string bytes) legacyStore at7 "acme"
            ["site/acme/other.bundle.json"; "site/acme/example.com"]
            "site/acme/other.bundle.json" folders _ _).
  - vm_compute. reflexivity.
  - intros item domain n Hin Hsuffix Hslice Hn.
    apply elem_of_cons in Hin as [-> | Hin]; [vm_compute in Hsuffix; discriminate |].
    apply elem_of_cons in Hin as [-> | Hin]; [| apply elem_of_nil in Hin; contradiction].
    vm_compute in Hslice. injection Hslice as <-.
    vm_compute in Hn. injection Hn as <-.
    apply (bool_decide_unpack _). vm_compute. reflexivity.
Defined.
